(** * HR attrition dashboard: the filter-and-aggregate core

    A shallow embedding of [main.py] (the FastAPI handlers) and of
    [server.py] (the same views behind [http.server]), and the properties
    the specification states about them.

    The CSV file is read with [csv.DictReader]; a record is the dict it
    yields for one line, from column name to cell text.  The sequence of
    records of the file is an explicit argument [data] of every handler.
    Text is a [string] of bytes (UTF-8), whose byte-wise order is the
    code-point order Python compares [str] with.

    Every cell of a record is text: a line with fewer cells than the
    header (whose missing cells [DictReader] fills with [None]) and a
    failure to open or decode the file are not modelled.  A record may
    lack a column altogether, as when the header does; reading it raises
    [KeyError].

    An exception carries what decides the answer of [do_GET]: the key of
    a [KeyError] and the message of a [ValueError].  [int], [repr] and the
    limit on the digits of a numeral are those of Python 3.11, with the
    character tables of Unicode 14.0.  The line [log_message] prints
    for each response is left out: the standard output is taken to accept
    every text. *)

From Stdlib Require Import ZArith Lia Bool List Ascii String.
From Stdlib Require Import SpecFloat.
From stdpp Require Import base option list list_numbers sorting gmap strings pretty.

Local Open Scope string_scope.
Local Open Scope Z_scope.

(** ** Exceptions and the error monad *)

Inductive exn :=
  | KeyError (k : string)
  | ValueError (msg : string)
  | TypeError
  | IndexError
  | ZeroDivisionError
  | OverflowError.

Inductive result (A : Type) :=
  | Ok (a : A)
  | Err (e : exn).
Arguments Ok {A} a.
Arguments Err {A} e.

Definition bind {A B} (m : result A) (k : A -> result B) : result B :=
  match m with
  | Ok a => k a
  | Err e => Err e
  end.

Notation "x <- m ;; k" := (bind m (fun x => k))
  (at level 100, m at next level, right associativity, only parsing).

(** [for x in l: acc = f(acc, x)], stopping at the first exception. *)
Fixpoint foldM {A S} (f : S -> A -> result S) (s : S) (l : list A) : result S :=
  match l with
  | [] => Ok s
  | x :: l' => s' <- f s x ;; foldM f s' l'
  end.

(** A list comprehension [[f(x) for x in l]] whose body may raise. *)
Fixpoint mapM {A B} (f : A -> result B) (l : list A) : result (list B) :=
  match l with
  | [] => Ok []
  | x :: l' => y <- f x ;; ys <- mapM f l' ;; Ok (y :: ys)
  end.

(** A comprehension with a filter, [[f(x) for x in l if c(x)]]: the test
    is evaluated before the body, element by element. *)
Fixpoint comp {A B} (c : A -> result bool) (f : A -> result B) (l : list A)
  : result (list B) :=
  match l with
  | [] => Ok []
  | x :: l' =>
      b <- c x ;;
      if b then y <- f x ;; ys <- comp c f l' ;; Ok (y :: ys)
      else comp c f l'
  end.

(** ** Python built-ins used by the handlers *)

Module Py.

(** *** Text as code points

    A [str] is kept as its UTF-8 bytes, and [code_points] reads the code
    points back.  A byte that belongs to no UTF-8 sequence, as no decoded
    file contains, reads as U+FFFD. *)

Definition continuation (c : ascii) : bool :=
  let n := N_of_ascii c in ((128 <=? n) && (n <? 192))%N.

Definition low6 (c : ascii) : N := (N_of_ascii c - 128)%N.

(** The second byte a three-byte or four-byte lead admits. *)
Definition second (lead : N) (c : ascii) : bool :=
  let n := N_of_ascii c in
  (if lead =? 224 then (160 <=? n) && (n <? 192)
   else if lead =? 237 then (128 <=? n) && (n <? 160)
   else if lead =? 240 then (144 <=? n) && (n <? 192)
   else if lead =? 244 then (128 <=? n) && (n <? 144)
   else (128 <=? n) && (n <? 192))%N.

Fixpoint decode (s : list ascii) : list N :=
  match s with
  | [] => []
  | c :: s1 =>
      let n := N_of_ascii c in
      if (n <? 128)%N then n :: decode s1
      else
        match s1 with
        | c2 :: s2 =>
            if ((194 <=? n) && (n <? 224))%N && continuation c2 then
              ((n - 192) * 64 + low6 c2)%N :: decode s2
            else
              match s2 with
              | c3 :: s3 =>
                  if ((224 <=? n) && (n <? 240))%N && second n c2 && continuation c3 then
                    ((n - 224) * 4096 + low6 c2 * 64 + low6 c3)%N :: decode s3
                  else
                    match s3 with
                    | c4 :: s4 =>
                        if ((240 <=? n) && (n <? 245))%N && second n c2
                           && continuation c3 && continuation c4 then
                          ((n - 240) * 262144 + low6 c2 * 4096 + low6 c3 * 64 + low6 c4)%N
                          :: decode s4
                        else 65533%N :: decode s1
                    | [] => 65533%N :: decode s1
                    end
              | [] => 65533%N :: decode s1
              end
        | [] => [65533%N]
        end
  end.

Definition code_points (s : string) : list N := decode (list_ascii_of_string s).

Definition encode_point (c : N) : list ascii :=
  (if c <? 128 then [ascii_of_N c]
   else if c <? 2048 then [ascii_of_N (192 + c / 64); ascii_of_N (128 + c mod 64)]
   else if c <? 65536 then
     [ascii_of_N (224 + c / 4096); ascii_of_N (128 + (c / 64) mod 64);
      ascii_of_N (128 + c mod 64)]
   else
     [ascii_of_N (240 + c / 262144); ascii_of_N (128 + (c / 4096) mod 64);
      ascii_of_N (128 + (c / 64) mod 64); ascii_of_N (128 + c mod 64)])%N.

Definition of_code_points (l : list N) : string :=
  string_of_list_ascii (concat (encode_point <$> l)).

(** Text that the latin-1 codec encodes: no code point above U+00FF. *)
Definition latin1 (s : string) : bool :=
  forallb (fun c => c <=? 255)%N (code_points s).

(** *** The character tables of the interpreter (Python 3.11, Unicode 14.0)

    The white space above U+007E; the runs of decimal digits, each as its
    first code point (the digit zero) and its last; and the ranges of code
    points at or above U+0080 that [str.isprintable] rejects. *)

Definition spaces : list N :=
  [133; 160; 5760; 8192; 8193; 8194; 8195; 8196; 8197; 8198; 8199; 8200;
   8201; 8202; 8232; 8233; 8239; 8287; 12288]%N.

Definition decimal_runs : list (N * N) :=
  [
    (1632, 1641); (1776, 1785); (1984, 1993); (2406, 2415);
    (2534, 2543); (2662, 2671); (2790, 2799); (2918, 2927);
    (3046, 3055); (3174, 3183); (3302, 3311); (3430, 3439);
    (3558, 3567); (3664, 3673); (3792, 3801); (3872, 3881);
    (4160, 4169); (4240, 4249); (6112, 6121); (6160, 6169);
    (6470, 6479); (6608, 6617); (6784, 6793); (6800, 6809);
    (6992, 7001); (7088, 7097); (7232, 7241); (7248, 7257);
    (42528, 42537); (43216, 43225); (43264, 43273); (43472, 43481);
    (43504, 43513); (43600, 43609); (44016, 44025); (65296, 65305);
    (66720, 66729); (68912, 68921); (69734, 69743); (69872, 69881);
    (69942, 69951); (70096, 70105); (70384, 70393); (70736, 70745);
    (70864, 70873); (71248, 71257); (71360, 71369); (71472, 71481);
    (71904, 71913); (72016, 72025); (72784, 72793); (73040, 73049);
    (73120, 73129); (92768, 92777); (92864, 92873); (93008, 93017);
    (120782, 120831); (123200, 123209); (123632, 123641); (125264, 125273);
    (130032, 130041)
  ]%N.

Definition unprintable : list (N * N) :=
  [
    (128, 160); (173, 173); (888, 889); (896, 899);
    (907, 907); (909, 909); (930, 930); (1328, 1328);
    (1367, 1368); (1419, 1420); (1424, 1424); (1480, 1487);
    (1515, 1518); (1525, 1541); (1564, 1564); (1757, 1757);
    (1806, 1807); (1867, 1868); (1970, 1983); (2043, 2044);
    (2094, 2095); (2111, 2111); (2140, 2141); (2143, 2143);
    (2155, 2159); (2191, 2199); (2274, 2274); (2436, 2436);
    (2445, 2446); (2449, 2450); (2473, 2473); (2481, 2481);
    (2483, 2485); (2490, 2491); (2501, 2502); (2505, 2506);
    (2511, 2518); (2520, 2523); (2526, 2526); (2532, 2533);
    (2559, 2560); (2564, 2564); (2571, 2574); (2577, 2578);
    (2601, 2601); (2609, 2609); (2612, 2612); (2615, 2615);
    (2618, 2619); (2621, 2621); (2627, 2630); (2633, 2634);
    (2638, 2640); (2642, 2648); (2653, 2653); (2655, 2661);
    (2679, 2688); (2692, 2692); (2702, 2702); (2706, 2706);
    (2729, 2729); (2737, 2737); (2740, 2740); (2746, 2747);
    (2758, 2758); (2762, 2762); (2766, 2767); (2769, 2783);
    (2788, 2789); (2802, 2808); (2816, 2816); (2820, 2820);
    (2829, 2830); (2833, 2834); (2857, 2857); (2865, 2865);
    (2868, 2868); (2874, 2875); (2885, 2886); (2889, 2890);
    (2894, 2900); (2904, 2907); (2910, 2910); (2916, 2917);
    (2936, 2945); (2948, 2948); (2955, 2957); (2961, 2961);
    (2966, 2968); (2971, 2971); (2973, 2973); (2976, 2978);
    (2981, 2983); (2987, 2989); (3002, 3005); (3011, 3013);
    (3017, 3017); (3022, 3023); (3025, 3030); (3032, 3045);
    (3067, 3071); (3085, 3085); (3089, 3089); (3113, 3113);
    (3130, 3131); (3141, 3141); (3145, 3145); (3150, 3156);
    (3159, 3159); (3163, 3164); (3166, 3167); (3172, 3173);
    (3184, 3190); (3213, 3213); (3217, 3217); (3241, 3241);
    (3252, 3252); (3258, 3259); (3269, 3269); (3273, 3273);
    (3278, 3284); (3287, 3292); (3295, 3295); (3300, 3301);
    (3312, 3312); (3315, 3327); (3341, 3341); (3345, 3345);
    (3397, 3397); (3401, 3401); (3408, 3411); (3428, 3429);
    (3456, 3456); (3460, 3460); (3479, 3481); (3506, 3506);
    (3516, 3516); (3518, 3519); (3527, 3529); (3531, 3534);
    (3541, 3541); (3543, 3543); (3552, 3557); (3568, 3569);
    (3573, 3584); (3643, 3646); (3676, 3712); (3715, 3715);
    (3717, 3717); (3723, 3723); (3748, 3748); (3750, 3750);
    (3774, 3775); (3781, 3781); (3783, 3783); (3790, 3791);
    (3802, 3803); (3808, 3839); (3912, 3912); (3949, 3952);
    (3992, 3992); (4029, 4029); (4045, 4045); (4059, 4095);
    (4294, 4294); (4296, 4300); (4302, 4303); (4681, 4681);
    (4686, 4687); (4695, 4695); (4697, 4697); (4702, 4703);
    (4745, 4745); (4750, 4751); (4785, 4785); (4790, 4791);
    (4799, 4799); (4801, 4801); (4806, 4807); (4823, 4823);
    (4881, 4881); (4886, 4887); (4955, 4956); (4989, 4991);
    (5018, 5023); (5110, 5111); (5118, 5119); (5760, 5760);
    (5789, 5791); (5881, 5887); (5910, 5918); (5943, 5951);
    (5972, 5983); (5997, 5997); (6001, 6001); (6004, 6015);
    (6110, 6111); (6122, 6127); (6138, 6143); (6158, 6158);
    (6170, 6175); (6265, 6271); (6315, 6319); (6390, 6399);
    (6431, 6431); (6444, 6447); (6460, 6463); (6465, 6467);
    (6510, 6511); (6517, 6527); (6572, 6575); (6602, 6607);
    (6619, 6621); (6684, 6685); (6751, 6751); (6781, 6782);
    (6794, 6799); (6810, 6815); (6830, 6831); (6863, 6911);
    (6989, 6991); (7039, 7039); (7156, 7163); (7224, 7226);
    (7242, 7244); (7305, 7311); (7355, 7356); (7368, 7375);
    (7419, 7423); (7958, 7959); (7966, 7967); (8006, 8007);
    (8014, 8015); (8024, 8024); (8026, 8026); (8028, 8028);
    (8030, 8030); (8062, 8063); (8117, 8117); (8133, 8133);
    (8148, 8149); (8156, 8156); (8176, 8177); (8181, 8181);
    (8191, 8207); (8232, 8239); (8287, 8303); (8306, 8307);
    (8335, 8335); (8349, 8351); (8385, 8399); (8433, 8447);
    (8588, 8591); (9255, 9279); (9291, 9311); (11124, 11125);
    (11158, 11158); (11508, 11512); (11558, 11558); (11560, 11564);
    (11566, 11567); (11624, 11630); (11633, 11646); (11671, 11679);
    (11687, 11687); (11695, 11695); (11703, 11703); (11711, 11711);
    (11719, 11719); (11727, 11727); (11735, 11735); (11743, 11743);
    (11870, 11903); (11930, 11930); (12020, 12031); (12246, 12271);
    (12284, 12288); (12352, 12352); (12439, 12440); (12544, 12548);
    (12592, 12592); (12687, 12687); (12772, 12783); (12831, 12831);
    (42125, 42127); (42183, 42191); (42540, 42559); (42744, 42751);
    (42955, 42959); (42962, 42962); (42964, 42964); (42970, 42993);
    (43053, 43055); (43066, 43071); (43128, 43135); (43206, 43213);
    (43226, 43231); (43348, 43358); (43389, 43391); (43470, 43470);
    (43482, 43485); (43519, 43519); (43575, 43583); (43598, 43599);
    (43610, 43611); (43715, 43738); (43767, 43776); (43783, 43784);
    (43791, 43792); (43799, 43807); (43815, 43815); (43823, 43823);
    (43884, 43887); (44014, 44015); (44026, 44031); (55204, 55215);
    (55239, 55242); (55292, 63743); (64110, 64111); (64218, 64255);
    (64263, 64274); (64280, 64284); (64311, 64311); (64317, 64317);
    (64319, 64319); (64322, 64322); (64325, 64325); (64451, 64466);
    (64912, 64913); (64968, 64974); (64976, 65007); (65050, 65055);
    (65107, 65107); (65127, 65127); (65132, 65135); (65141, 65141);
    (65277, 65280); (65471, 65473); (65480, 65481); (65488, 65489);
    (65496, 65497); (65501, 65503); (65511, 65511); (65519, 65531);
    (65534, 65535); (65548, 65548); (65575, 65575); (65595, 65595);
    (65598, 65598); (65614, 65615); (65630, 65663); (65787, 65791);
    (65795, 65798); (65844, 65846); (65935, 65935); (65949, 65951);
    (65953, 65999); (66046, 66175); (66205, 66207); (66257, 66271);
    (66300, 66303); (66340, 66348); (66379, 66383); (66427, 66431);
    (66462, 66462); (66500, 66503); (66518, 66559); (66718, 66719);
    (66730, 66735); (66772, 66775); (66812, 66815); (66856, 66863);
    (66916, 66926); (66939, 66939); (66955, 66955); (66963, 66963);
    (66966, 66966); (66978, 66978); (66994, 66994); (67002, 67002);
    (67005, 67071); (67383, 67391); (67414, 67423); (67432, 67455);
    (67462, 67462); (67505, 67505); (67515, 67583); (67590, 67591);
    (67593, 67593); (67638, 67638); (67641, 67643); (67645, 67646);
    (67670, 67670); (67743, 67750); (67760, 67807); (67827, 67827);
    (67830, 67834); (67868, 67870); (67898, 67902); (67904, 67967);
    (68024, 68027); (68048, 68049); (68100, 68100); (68103, 68107);
    (68116, 68116); (68120, 68120); (68150, 68151); (68155, 68158);
    (68169, 68175); (68185, 68191); (68256, 68287); (68327, 68330);
    (68343, 68351); (68406, 68408); (68438, 68439); (68467, 68471);
    (68498, 68504); (68509, 68520); (68528, 68607); (68681, 68735);
    (68787, 68799); (68851, 68857); (68904, 68911); (68922, 69215);
    (69247, 69247); (69290, 69290); (69294, 69295); (69298, 69375);
    (69416, 69423); (69466, 69487); (69514, 69551); (69580, 69599);
    (69623, 69631); (69710, 69713); (69750, 69758); (69821, 69821);
    (69827, 69839); (69865, 69871); (69882, 69887); (69941, 69941);
    (69960, 69967); (70007, 70015); (70112, 70112); (70133, 70143);
    (70162, 70162); (70207, 70271); (70279, 70279); (70281, 70281);
    (70286, 70286); (70302, 70302); (70314, 70319); (70379, 70383);
    (70394, 70399); (70404, 70404); (70413, 70414); (70417, 70418);
    (70441, 70441); (70449, 70449); (70452, 70452); (70458, 70458);
    (70469, 70470); (70473, 70474); (70478, 70479); (70481, 70486);
    (70488, 70492); (70500, 70501); (70509, 70511); (70517, 70655);
    (70748, 70748); (70754, 70783); (70856, 70863); (70874, 71039);
    (71094, 71095); (71134, 71167); (71237, 71247); (71258, 71263);
    (71277, 71295); (71354, 71359); (71370, 71423); (71451, 71452);
    (71468, 71471); (71495, 71679); (71740, 71839); (71923, 71934);
    (71943, 71944); (71946, 71947); (71956, 71956); (71959, 71959);
    (71990, 71990); (71993, 71994); (72007, 72015); (72026, 72095);
    (72104, 72105); (72152, 72153); (72165, 72191); (72264, 72271);
    (72355, 72367); (72441, 72703); (72713, 72713); (72759, 72759);
    (72774, 72783); (72813, 72815); (72848, 72849); (72872, 72872);
    (72887, 72959); (72967, 72967); (72970, 72970); (73015, 73017);
    (73019, 73019); (73022, 73022); (73032, 73039); (73050, 73055);
    (73062, 73062); (73065, 73065); (73103, 73103); (73106, 73106);
    (73113, 73119); (73130, 73439); (73465, 73647); (73649, 73663);
    (73714, 73726); (74650, 74751); (74863, 74863); (74869, 74879);
    (75076, 77711); (77811, 77823); (78895, 82943); (83527, 92159);
    (92729, 92735); (92767, 92767); (92778, 92781); (92863, 92863);
    (92874, 92879); (92910, 92911); (92918, 92927); (92998, 93007);
    (93018, 93018); (93026, 93026); (93048, 93052); (93072, 93759);
    (93851, 93951); (94027, 94030); (94088, 94094); (94112, 94175);
    (94181, 94191); (94194, 94207); (100344, 100351); (101590, 101631);
    (101641, 110575); (110580, 110580); (110588, 110588); (110591, 110591);
    (110883, 110927); (110931, 110947); (110952, 110959); (111356, 113663);
    (113771, 113775); (113789, 113791); (113801, 113807); (113818, 113819);
    (113824, 118527); (118574, 118575); (118599, 118607); (118724, 118783);
    (119030, 119039); (119079, 119080); (119155, 119162); (119275, 119295);
    (119366, 119519); (119540, 119551); (119639, 119647); (119673, 119807);
    (119893, 119893); (119965, 119965); (119968, 119969); (119971, 119972);
    (119975, 119976); (119981, 119981); (119994, 119994); (119996, 119996);
    (120004, 120004); (120070, 120070); (120075, 120076); (120085, 120085);
    (120093, 120093); (120122, 120122); (120127, 120127); (120133, 120133);
    (120135, 120137); (120145, 120145); (120486, 120487); (120780, 120781);
    (121484, 121498); (121504, 121504); (121520, 122623); (122655, 122879);
    (122887, 122887); (122905, 122906); (122914, 122914); (122917, 122917);
    (122923, 123135); (123181, 123183); (123198, 123199); (123210, 123213);
    (123216, 123535); (123567, 123583); (123642, 123646); (123648, 124895);
    (124903, 124903); (124908, 124908); (124911, 124911); (124927, 124927);
    (125125, 125126); (125143, 125183); (125260, 125263); (125274, 125277);
    (125280, 126064); (126133, 126208); (126270, 126463); (126468, 126468);
    (126496, 126496); (126499, 126499); (126501, 126502); (126504, 126504);
    (126515, 126515); (126520, 126520); (126522, 126522); (126524, 126529);
    (126531, 126534); (126536, 126536); (126538, 126538); (126540, 126540);
    (126544, 126544); (126547, 126547); (126549, 126550); (126552, 126552);
    (126554, 126554); (126556, 126556); (126558, 126558); (126560, 126560);
    (126563, 126563); (126565, 126566); (126571, 126571); (126579, 126579);
    (126584, 126584); (126589, 126589); (126591, 126591); (126602, 126602);
    (126620, 126624); (126628, 126628); (126634, 126634); (126652, 126703);
    (126706, 126975); (127020, 127023); (127124, 127135); (127151, 127152);
    (127168, 127168); (127184, 127184); (127222, 127231); (127406, 127461);
    (127491, 127503); (127548, 127551); (127561, 127567); (127570, 127583);
    (127590, 127743); (128728, 128732); (128749, 128751); (128765, 128767);
    (128884, 128895); (128985, 128991); (129004, 129007); (129009, 129023);
    (129036, 129039); (129096, 129103); (129114, 129119); (129160, 129167);
    (129198, 129199); (129202, 129279); (129620, 129631); (129646, 129647);
    (129653, 129655); (129661, 129663); (129671, 129679); (129709, 129711);
    (129723, 129727); (129734, 129743); (129754, 129759); (129768, 129775);
    (129783, 129791); (129939, 129939); (129995, 130031); (130042, 131071);
    (173792, 173823); (177977, 177983); (178206, 178207); (183970, 183983);
    (191457, 194559); (195102, 196607); (201547, 917759); (918000, 1114111)
  ]%N.

Definition between (c : N) (r : N * N) : bool := ((r.1 <=? c) && (c <=? r.2))%N.

Definition isspace (c : N) : bool := existsb (N.eqb c) spaces.

Definition decimal (c : N) : option N :=
  (fun r => ((c - r.1) mod 10)%N) <$> find (between c) decimal_runs.

Definition isprintable (c : N) : bool :=
  if (c <? 128)%N then ((32 <=? c) && (c <? 127))%N
  else negb (existsb (between c) unprintable).

(** *** [repr(s)] on text

    The text between quotes: double quotes when it holds a single quote
    and no double one.  The quote and the backslash are escaped, and so is
    every character that is not printable. *)

Definition hex_digit (n : N) : N := (if n <? 10 then 48 + n else 87 + n)%N.

Fixpoint hex (width : nat) (n : N) : list N :=
  match width with
  | O => []
  | S w => hex w (n / 16)%N ++ [hex_digit (n mod 16)%N]
  end.

Definition repr_point (quote c : N) : list N :=
  (if (c =? quote) || (c =? 92) then [92; c]
   else if c =? 9 then [92; 116]
   else if c =? 10 then [92; 110]
   else if c =? 13 then [92; 114]
   else if (c <? 32) || (c =? 127) then 92 :: 120 :: hex 2 c
   else if c <? 127 then [c]
   else if isprintable c then [c]
   else if c <=? 255 then 92 :: 120 :: hex 2 c
   else if c <=? 65535 then 92 :: 117 :: hex 4 c
   else 92 :: 85 :: hex 8 c)%N.

Definition repr_points (l : list N) : list N :=
  let quote := (if existsb (N.eqb 39) l && negb (existsb (N.eqb 34) l) then 34 else 39)%N in
  quote :: concat (repr_point quote <$> l) ++ [quote].

Definition repr (s : string) : string := of_code_points (repr_points (code_points s)).

(** *** [int(s)] on text

    Text that is not all ASCII is first brought to ASCII: white space
    becomes a blank, a decimal digit of any script its ASCII digit, and
    the first other character above U+007E ends the text with a question
    mark.  Then leading white space is dropped and one sign is allowed;
    what follows is a run of decimal digits in which single underscores
    may separate digits, of at most 4300 digits (the interpreter's default
    limit), and then white space only. *)

Definition is_space (c : N) : bool := ((9 <=? c) && (c <=? 13) || (c =? 32))%N.

Definition is_digit (c : N) : bool := ((48 <=? c) && (c <=? 57))%N.

Definition digit_of (c : N) : option Z :=
  if is_digit c then Some (Z.of_N c - 48) else None.

Fixpoint to_ascii (l : list N) : list N :=
  match l with
  | [] => []
  | c :: l' =>
      if (c <? 127)%N then c :: to_ascii l'
      else if isspace c then 32%N :: to_ascii l'
      else
        match decimal c with
        | Some d => (48 + d)%N :: to_ascii l'
        | None => [63%N]
        end
  end.

Definition int_text (s : string) : list N :=
  let l := code_points s in
  if forallb (fun c => c <? 128)%N l then l else to_ascii l.

Fixpoint lstrip (s : list N) : list N :=
  match s with
  | c :: s' => if is_space c then lstrip s' else s
  | [] => []
  end.

(** The run of digits and underscores a text starts with, and the rest. *)
Fixpoint run (s : list N) : list N * list N :=
  match s with
  | c :: s' =>
      if is_digit c || (c =? 95)%N then
        let (r, t) := run s' in (c :: r, t)
      else ([], s)
  | [] => ([], [])
  end.

(** [digits prev acc s]: [prev] tells whether the previous character was a
    digit (an underscore is only legal right after a digit and right
    before one). *)
Fixpoint digits (prev : bool) (acc : Z) (s : list N) : option Z :=
  match s with
  | [] => if prev then Some acc else None
  | c :: s' =>
      match digit_of c with
      | Some d => digits true (10 * acc + d) s'
      | None =>
          if ((c =? 95)%N && prev)%bool then
            match s' with
            | c' :: _ =>
                match digit_of c' with
                | Some _ => digits false acc s'
                | None => None
                end
            | [] => None
            end
          else None
      end
  end.

Inductive literal :=
  | Value (z : Z)
  | Invalid
  | TooLong (n : Z).

Definition max_str_digits : Z := 4300.

(** The limit is checked when the run of digits has been read, before
    what follows the run is looked at. *)
Definition scan (s : list N) : literal :=
  let (r, t) := run s in
  match digits false 0 r with
  | None => Invalid
  | Some z =>
      let n := Z.of_nat (length (List.filter is_digit r)) in
      if max_str_digits <? n then TooLong n
      else
        match lstrip t with
        | [] => Value z
        | _ => Invalid
        end
  end.

Definition negate (l : literal) : literal :=
  match l with
  | Value z => Value (- z)
  | _ => l
  end.

Definition read_int (s : string) : literal :=
  match lstrip (int_text s) with
  | 45%N :: s' => negate (scan s')
  | 43%N :: s' => scan s'
  | s' => scan s'
  end.

(** The value [int(s)] returns, if it returns. *)
Definition parse_int (s : string) : option Z :=
  match read_int s with
  | Value z => Some z
  | _ => None
  end.

(** The messages of the [ValueError] of [int]: the first names the text,
    as at most 200 characters of its [repr]. *)
Definition invalid_literal (s : string) : string :=
  of_code_points (code_points "invalid literal for int() with base 10: "
                  ++ take 200 (repr_points (code_points s))).

Definition too_many_digits (n : Z) : string :=
  "Exceeds the limit (4300 digits) for integer string conversion: value has "
  +:+ pretty n
  +:+ " digits; use sys.set_int_max_str_digits() to increase the limit".

Definition int (s : string) : result Z :=
  match read_int s with
  | Value z => Ok z
  | Invalid => Err (ValueError (invalid_literal s))
  | TooLong n => Err (ValueError (too_many_digits n))
  end.

(** *** [d[k]] on a dict, [str(n)], [range], [sum], [max], [sorted] *)

Definition getitem {V} (d : gmap string V) (k : string) : result V :=
  match d !! k with
  | Some v => Ok v
  | None => Err (KeyError k)
  end.


Definition str (n : Z) : string := pretty n.

(** [range(start, stop, step)] for a positive step. *)
Definition range3 (start stop step : Z) : list Z :=
  (fun i => start + i * step) <$> seqZ 0 ((stop - start + step - 1) / step).

Definition range (start stop : Z) : list Z := seqZ start (stop - start).

Definition sum (l : list Z) : Z := foldr Z.add 0 l.

Definition len {A} (l : list A) : Z := Z.of_nat (length l).

(** [max(l)] on a non-empty list. *)
Definition max (l : list Z) : result Z :=
  match l with
  | [] => Err (ValueError "max() arg is an empty sequence")
  | x :: l' => Ok (foldl Z.max x l')
  end.

(** [l[idx] += 1] on a list of ints: an index below zero counts from the
    end, and one outside [-len(l), len(l)) raises. *)
Definition list_incr (l : list Z) (idx : Z) : result (list Z) :=
  let i := if idx <? 0 then idx + len l else idx in
  if (0 <=? i) && (i <? len l) then
    Ok (alter (Z.add 1) (Z.to_nat i) l)
  else Err IndexError.

(** [sorted] on text: the ascending arrangement under code-point order.
    The keys it is applied to are pairwise distinct, so every sorting
    algorithm returns this list. *)
Definition sorted (l : list string) : list string := merge_sort String.le l.

(** *** Floats: IEEE 754 binary64, as [spec_float] with [prec = 53] and
    [emax = 1024] *)

Definition float_of_int (z : Z) : spec_float :=
  match z with
  | Z0 => S754_zero false
  | Zpos p => S754_finite false p 0
  | Zneg p => S754_finite true p 0
  end.

(** [a / b] on two ints: the correctly rounded quotient. *)
Definition truediv (a b : Z) : result spec_float :=
  if b =? 0 then Err ZeroDivisionError
  else
    match SFdiv 53 1024 (float_of_int a) (float_of_int b) with
    | S754_zero s => Ok (S754_zero s)
    | S754_finite s m e => Ok (S754_finite s m e)
    | _ => Err OverflowError
    end.

(** [x * n] for a float [x] and an int [n]. *)
Definition mul_int (x : spec_float) (n : Z) : spec_float :=
  SFmul 53 1024 x (float_of_int n).

(** The integer nearest to [num / den] ([den > 0]), ties to even. *)
Definition div_half_even (num den : Z) : Z :=
  let q := num / den in
  let r := num mod den in
  match 2 * r ?= den with
  | Lt => q
  | Gt => q + 1
  | Eq => if Z.even q then q else q + 1
  end.

(** The magnitude of a finite float times [10 ^ nd], to the nearest
    integer. *)
Definition scaled_magnitude (m : positive) (e nd : Z) : Z :=
  if 0 <=? e then Zpos m * 2 ^ e * 10 ^ nd
  else div_half_even (Zpos m * 10 ^ nd) (2 ^ (- e)).

(** [round(x, nd)] for [nd >= 0]: the float is rounded to [nd] decimals
    on its exact value, ties to even, and the decimal result is converted
    back to the nearest float. *)
Definition round_nd (x : spec_float) (nd : Z) : spec_float :=
  match x with
  | S754_finite s m e =>
      match scaled_magnitude m e nd with
      | Zpos n => SFdiv 53 1024 (S754_finite s n 0) (float_of_int (10 ^ nd))
      | _ => S754_zero s
      end
  | _ => x
  end.

(** [round(x)]: the nearest int, ties to even. *)
Definition round (x : spec_float) : result Z :=
  match x with
  | S754_zero _ => Ok 0
  | S754_finite s m e =>
      let n := scaled_magnitude m e 0 in
      Ok (if s then - n else n)
  | S754_infinity _ => Err OverflowError
  | S754_nan => Err (ValueError "cannot convert float NaN to integer")
  end.

End Py.

(** *** [collections.Counter] and [defaultdict(list)]

    Both are dicts; the handlers read their keys only through [sorted] or
    [max], so the order of insertion is not kept. *)

Module Counter.
Section Counter.
Context `{Countable K}.

(** [c[k]]: a key that was never counted reads as 0. *)
Definition get (c : gmap K Z) (k : K) : Z := default 0 (c !! k).

(** [c[k] += 1] *)
Definition incr (k : K) (c : gmap K Z) : gmap K Z := <[k := get c k + 1]> c.

Definition keys {V} (c : gmap K V) : list K := (map_to_list c).*1.

(** [Counter(iterable)] *)
Definition of_list (l : list K) : gmap K Z := foldl (fun c k => incr k c) ∅ l.

(** [d[k].append(v)] on a [defaultdict(list)] *)
Definition append (k : K) (v : Z) (d : gmap K (list Z)) : gmap K (list Z) :=
  <[k := (default [] (d !! k) ++ [v])%list]> d.

(** [d[k]] on a [defaultdict(list)] *)
Definition get_list (d : gmap K (list Z)) (k : K) : list Z := default [] (d !! k).
End Counter.
End Counter.


(** ** Data model *)

(** One employee record: what [csv.DictReader] yields for one line. *)
Abbreviation row := (gmap string string).

(** A JSON number: Python [int] or [float]. *)
Inductive num :=
  | Int (z : Z)
  | Float (f : spec_float).

(** The four optional query parameters. *)
Record params := {
  gender : option string;
  job_role : option string;
  education : option string;
  department : option string;
}.

(** The response objects, one record per shape of dict the handlers
    build. *)
Record Filters := {
  genders : list string;
  job_roles : list string;
  educations : list (string * string);
  departments : list string;
}.

Record Kpis := {
  kp_total : Z;
  kp_attrition_rate : num;
  kp_avg_age : num;
  kp_avg_income : Z;
  kp_avg_satisfaction : num;
}.

Record RateSeries := {
  rs_labels : list string;
  rs_total : list Z;
  rs_attrition : list Z;
  rs_rate : list num;
}.

Record CountSeries := {
  cs_labels : list string;
  cs_total : list Z;
  cs_attrition : list Z;
}.

Record IncomeSeries := {
  is_labels : list string;
  is_avg_income : list Z;
}.

Record SplitSeries := {
  sp_labels : list string;
  sp_stayed : list Z;
  sp_left : list Z;
}.

Record YearsSeries := {
  ys_labels : list Z;
  ys_attrition_rate : list num;
  ys_total : list Z;
}.

Record AvgSeries := {
  as_labels : list string;
  as_stayed : list num;
  as_left : list num;
}.

(** The test [arg and row[k] != arg] of the loader: [None] and the empty
    text are false, and then the record is not read. *)
Definition excluded (arg : option string) (row : row) (k : string) : result bool :=
  match arg with
  | Some a =>
      if String.eqb a "" then Ok false
      else v <- Py.getitem row k ;; Ok (negb (String.eqb v a))
  | None => Ok false
  end.

(** The test [r["Attrition"] == v]. *)
Definition attrition_is (v : string) (r : row) : result bool :=
  a <- Py.getitem r "Attrition" ;; Ok (String.eqb a v).

(** [int(r[k])] *)
Definition int_field (k : string) (r : row) : result Z :=
  v <- Py.getitem r k ;; Py.int v.

(** [round(a / t * 100, 1) if t else 0] *)
Definition rate_or_zero (a t : Z) : result num :=
  if t =? 0 then Ok (Int 0)
  else q <- Py.truediv a t ;; Ok (Float (Py.round_nd (Py.mul_int q 100) 1)).

(** [round(sum(l) / len(l), nd) if l else 0] *)
Definition mean_or_zero (nd : Z) (l : list Z) : result num :=
  match l with
  | [] => Ok (Int 0)
  | _ => q <- Py.truediv (Py.sum l) (Py.len l) ;; Ok (Float (Py.round_nd q nd))
  end.

(** [round(sum(l) / len(l)) if l else 0] *)
Definition int_mean_or_zero (l : list Z) : result Z :=
  match l with
  | [] => Ok 0
  | _ => q <- Py.truediv (Py.sum l) (Py.len l) ;; Py.round q
  end.

(** ** main.py *)

Module Main.

Definition EDUCATION_MAP : list (string * string) :=
  [("1", "Below College"); ("2", "College"); ("3", "Bachelor");
   ("4", "Master"); ("5", "Doctor")].

Definition load_data (gender job_role education department : option string)
    (data : list row) : result (list row) :=
  foldM (fun rows row =>
    c <- excluded gender row "Gender" ;;
    if c then Ok rows else
    c <- excluded job_role row "JobRole" ;;
    if c then Ok rows else
    c <- excluded education row "Education" ;;
    if c then Ok rows else
    c <- excluded department row "Department" ;;
    if c then Ok rows else
    Ok (rows ++ [row])%list) [] data.

Definition get_filters (data : list row) : result Filters :=
  rows <- load_data None None None None data ;;
  g <- mapM (fun r => Py.getitem r "Gender") rows ;;
  j <- mapM (fun r => Py.getitem r "JobRole") rows ;;
  d <- mapM (fun r => Py.getitem r "Department") rows ;;
  Ok {| genders := Py.sorted (elements (list_to_set g : gset string));
        job_roles := Py.sorted (elements (list_to_set j : gset string));
        educations := merge_sort (fun x y => String.le x.1 y.1) EDUCATION_MAP;
        departments := Py.sorted (elements (list_to_set d : gset string)) |}.

Definition get_kpis (gender job_role education department : option string)
    (data : list row) : result Kpis :=
  rows <- load_data gender job_role education department data ;;
  let total := Py.len rows in
  if total =? 0 then
    Ok {| kp_total := 0; kp_attrition_rate := Int 0; kp_avg_age := Int 0;
          kp_avg_income := 0; kp_avg_satisfaction := Int 0 |}
  else
    ones <- comp (attrition_is "Yes") (fun _ => Ok 1) rows ;;
    let attrition := Py.sum ones in
    ages <- mapM (int_field "Age") rows ;;
    avg_age <- Py.truediv (Py.sum ages) total ;;
    incomes <- mapM (int_field "MonthlyIncome") rows ;;
    avg_income <- Py.truediv (Py.sum incomes) total ;;
    sats <- mapM (int_field "JobSatisfaction") rows ;;
    avg_sat <- Py.truediv (Py.sum sats) total ;;
    q <- Py.truediv attrition total ;;
    income <- Py.round avg_income ;;
    Ok {| kp_total := total;
          kp_attrition_rate := Float (Py.round_nd (Py.mul_int q 100) 1);
          kp_avg_age := Float (Py.round_nd avg_age 1);
          kp_avg_income := income;
          kp_avg_satisfaction := Float (Py.round_nd avg_sat 2) |}.

Definition attrition_by_department (gender job_role education department : option string)
    (data : list row) : result RateSeries :=
  rows <- load_data gender job_role education department data ;;
  c <- foldM (fun (c : gmap string Z * gmap string Z) r =>
         d <- Py.getitem r "Department" ;;
         let dept_total := Counter.incr d c.1 in
         y <- attrition_is "Yes" r ;;
         if y then
           d' <- Py.getitem r "Department" ;;
           Ok (dept_total, Counter.incr d' c.2)
         else Ok (dept_total, c.2)) (∅, ∅) rows ;;
  let dept_total := c.1 in
  let dept_attr := c.2 in
  let labels := Py.sorted (Counter.keys dept_total) in
  rate <- mapM (fun l => rate_or_zero (Counter.get dept_attr l) (Counter.get dept_total l)) labels ;;
  Ok {| rs_labels := labels;
        rs_total := (Counter.get dept_total) <$> labels;
        rs_attrition := (Counter.get dept_attr) <$> labels;
        rs_rate := rate |}.

Definition attrition_by_jobrole (gender job_role education department : option string)
    (data : list row) : result RateSeries :=
  rows <- load_data gender job_role education department data ;;
  c <- foldM (fun (c : gmap string Z * gmap string Z) r =>
         d <- Py.getitem r "JobRole" ;;
         let role_total := Counter.incr d c.1 in
         y <- attrition_is "Yes" r ;;
         if y then
           d' <- Py.getitem r "JobRole" ;;
           Ok (role_total, Counter.incr d' c.2)
         else Ok (role_total, c.2)) (∅, ∅) rows ;;
  let role_total := c.1 in
  let role_attr := c.2 in
  let labels := Py.sorted (Counter.keys role_total) in
  rate <- mapM (fun l => rate_or_zero (Counter.get role_attr l) (Counter.get role_total l)) labels ;;
  Ok {| rs_labels := labels;
        rs_total := (Counter.get role_total) <$> labels;
        rs_attrition := (Counter.get role_attr) <$> labels;
        rs_rate := rate |}.

Definition age_distribution (gender job_role education department : option string)
    (data : list row) : result CountSeries :=
  rows <- load_data gender job_role education department data ;;
  let bins := Py.range3 18 65 5 in
  let labels := (fun b => Py.str b +:+ "-" +:+ Py.str (b + 4)) <$> bins in
  let total_counts := replicate (length bins) 0 in
  let attr_counts := replicate (length bins) 0 in
  c <- foldM (fun (c : list Z * list Z) r =>
         age <- int_field "Age" r ;;
         let idx := Z.min ((age - 18) / 5) (Py.len bins - 1) in
         if (0 <=? idx) && (idx <? Py.len bins) then
           total_counts <- Py.list_incr c.1 idx ;;
           y <- attrition_is "Yes" r ;;
           if y then
             attr_counts <- Py.list_incr c.2 idx ;;
             Ok (total_counts, attr_counts)
           else Ok (total_counts, c.2)
         else Ok c) (total_counts, attr_counts) rows ;;
  Ok {| cs_labels := labels; cs_total := c.1; cs_attrition := c.2 |}.

Definition gender_split (gender job_role education department : option string)
    (data : list row) : result CountSeries :=
  rows <- load_data gender job_role education department data ;;
  ks <- mapM (fun r => Py.getitem r "Gender") rows ;;
  let cnt := Counter.of_list ks in
  ys <- comp (attrition_is "Yes") (fun r => Py.getitem r "Gender") rows ;;
  let attr_cnt := Counter.of_list ys in
  let labels := Py.sorted (Counter.keys cnt) in
  Ok {| cs_labels := labels;
        cs_total := (Counter.get cnt) <$> labels;
        cs_attrition := (Counter.get attr_cnt) <$> labels |}.

Definition income_by_role (gender job_role education department : option string)
    (data : list row) : result IncomeSeries :=
  rows <- load_data gender job_role education department data ;;
  role_income <- foldM (fun (role_income : gmap string (list Z)) r =>
         k <- Py.getitem r "JobRole" ;;
         v <- int_field "MonthlyIncome" r ;;
         Ok (Counter.append k v role_income)) ∅ rows ;;
  let labels := Py.sorted (Counter.keys role_income) in
  avg <- mapM (fun l => int_mean_or_zero (Counter.get_list role_income l)) labels ;;
  Ok {| is_labels := labels; is_avg_income := avg |}.

Definition satisfaction_distribution (gender job_role education department : option string)
    (data : list row) : result SplitSeries :=
  rows <- load_data gender job_role education department data ;;
  let sat_labels := ["1 - Low"; "2 - Medium"; "3 - High"; "4 - Very High"] in
  c <- foldM (fun (c : list Z * list Z) r =>
         s <- int_field "JobSatisfaction" r ;;
         let idx := s - 1 in
         y <- attrition_is "Yes" r ;;
         if y then
           left <- Py.list_incr c.2 idx ;; Ok (c.1, left)
         else
           stayed <- Py.list_incr c.1 idx ;; Ok (stayed, c.2))
       ([0; 0; 0; 0], [0; 0; 0; 0]) rows ;;
  Ok {| sp_labels := sat_labels; sp_stayed := c.1; sp_left := c.2 |}.

Definition overtime_attrition (gender job_role education department : option string)
    (data : list row) : result SplitSeries :=
  rows <- load_data gender job_role education department data ;;
  let data0 : gmap string (gmap string Z) :=
    {[ "Yes" := {[ "Yes" := 0; "No" := 0 ]}; "No" := {[ "Yes" := 0; "No" := 0 ]} ]} in
  data <- foldM (fun (data : gmap string (gmap string Z)) r =>
         o <- Py.getitem r "OverTime" ;;
         inner <- Py.getitem data o ;;
         a <- Py.getitem r "Attrition" ;;
         n <- Py.getitem inner a ;;
         Ok (<[o := <[a := n + 1]> inner]> data)) data0 rows ;;
  yes <- Py.getitem data "Yes" ;;
  yes_no <- Py.getitem yes "No" ;;
  no <- Py.getitem data "No" ;;
  no_no <- Py.getitem no "No" ;;
  yes' <- Py.getitem data "Yes" ;;
  yes_yes <- Py.getitem yes' "Yes" ;;
  no' <- Py.getitem data "No" ;;
  no_yes <- Py.getitem no' "Yes" ;;
  Ok {| sp_labels := ["With Overtime"; "Without Overtime"];
        sp_stayed := [yes_no; no_no];
        sp_left := [yes_yes; no_yes] |}.

Definition education_field (gender job_role education department : option string)
    (data : list row) : result CountSeries :=
  rows <- load_data gender job_role education department data ;;
  ks <- mapM (fun r => Py.getitem r "EducationField") rows ;;
  let cnt := Counter.of_list ks in
  ys <- comp (attrition_is "Yes") (fun r => Py.getitem r "EducationField") rows ;;
  let attr := Counter.of_list ys in
  let labels := Py.sorted (Counter.keys cnt) in
  Ok {| cs_labels := labels;
        cs_total := (Counter.get cnt) <$> labels;
        cs_attrition := (Counter.get attr) <$> labels |}.

Definition years_attrition (gender job_role education department : option string)
    (data : list row) : result YearsSeries :=
  rows <- load_data gender job_role education department data ;;
  c <- foldM (fun (c : gmap Z Z * gmap Z Z) r =>
         y <- int_field "YearsAtCompany" r ;;
         let year_total := Counter.incr y c.1 in
         a <- attrition_is "Yes" r ;;
         if a then Ok (year_total, Counter.incr y c.2)
         else Ok (year_total, c.2)) (∅, ∅) rows ;;
  let year_total := c.1 in
  let year_attr := c.2 in
  max_year <- match Counter.keys year_total with
              | [] => Ok 0
              | ks => Py.max ks
              end ;;
  let labels := Py.range 0 (Z.min (max_year + 1) 41) in
  rates <- mapM (fun y => rate_or_zero (Counter.get year_attr y) (Counter.get year_total y)) labels ;;
  let totals := (Counter.get year_total) <$> labels in
  Ok {| ys_labels := labels; ys_attrition_rate := rates; ys_total := totals |}.

Definition worklife_balance (gender job_role education department : option string)
    (data : list row) : result AvgSeries :=
  rows <- load_data gender job_role education department data ;;
  let metrics := ["JobSatisfaction"; "EnvironmentSatisfaction";
                  "RelationshipSatisfaction"; "WorkLifeBalance"; "JobInvolvement"] in
  c <- foldM (fun (c : list num * list num) m =>
         stayed <- comp (attrition_is "No") (int_field m) rows ;;
         left <- comp (attrition_is "Yes") (int_field m) rows ;;
         s <- mean_or_zero 2 stayed ;;
         l <- mean_or_zero 2 left ;;
         Ok (c.1 ++ [s], c.2 ++ [l])%list) ([], []) metrics ;;
  let labels := ["Job Satisfaction"; "Environment"; "Relationships";
                 "Work-Life Balance"; "Job Involvement"] in
  Ok {| as_labels := labels; as_stayed := c.1; as_left := c.2 |}.

End Main.

(** ** server.py *)

Module Server.

Definition EDUCATION_MAP : list (string * string) :=
  [("1", "Below College"); ("2", "College"); ("3", "Bachelor");
   ("4", "Master"); ("5", "Doctor")].

Definition load_data (gender job_role education department : option string)
    (data : list row) : result (list row) :=
  foldM (fun rows row =>
    c <- excluded gender row "Gender" ;;
    if c then Ok rows else
    c <- excluded job_role row "JobRole" ;;
    if c then Ok rows else
    c <- excluded education row "Education" ;;
    if c then Ok rows else
    c <- excluded department row "Department" ;;
    if c then Ok rows else
    Ok (rows ++ [row])%list) [] data.

(** [load_data] called with the four entries of the dict [p]. *)
Definition load (p : params) (data : list row) : result (list row) :=
  load_data (gender p) (job_role p) (education p) (department p) data.

(** Python's order on pairs of texts: by first component, then by second. *)
Definition pair_le (x y : string * string) : Prop :=
  if decide (x.1 = y.1) then String.le x.2 y.2 else String.le x.1 y.1.

#[global] Instance pair_le_dec : RelDecision pair_le.
Proof. intros x y. unfold pair_le. destruct (decide (x.1 = y.1)); apply _. Defined.

Definition api_filters (data : list row) : result Filters :=
  rows <- load_data None None None None data ;;
  g <- mapM (fun r => Py.getitem r "Gender") rows ;;
  j <- mapM (fun r => Py.getitem r "JobRole") rows ;;
  d <- mapM (fun r => Py.getitem r "Department") rows ;;
  Ok {| genders := Py.sorted (elements (list_to_set g : gset string));
        job_roles := Py.sorted (elements (list_to_set j : gset string));
        educations := merge_sort pair_le EDUCATION_MAP;
        departments := Py.sorted (elements (list_to_set d : gset string)) |}.

Definition api_kpis (p : params) (data : list row) : result Kpis :=
  rows <- load p data ;;
  let total := Py.len rows in
  if total =? 0 then
    Ok {| kp_total := 0; kp_attrition_rate := Int 0; kp_avg_age := Int 0;
          kp_avg_income := 0; kp_avg_satisfaction := Int 0 |}
  else
    ones <- comp (attrition_is "Yes") (fun _ => Ok 1) rows ;;
    let attr := Py.sum ones in
    q <- Py.truediv attr total ;;
    ages <- mapM (int_field "Age") rows ;;
    age <- Py.truediv (Py.sum ages) total ;;
    incomes <- mapM (int_field "MonthlyIncome") rows ;;
    income <- Py.truediv (Py.sum incomes) total ;;
    income <- Py.round income ;;
    sats <- mapM (int_field "JobSatisfaction") rows ;;
    sat <- Py.truediv (Py.sum sats) total ;;
    Ok {| kp_total := total;
          kp_attrition_rate := Float (Py.round_nd (Py.mul_int q 100) 1);
          kp_avg_age := Float (Py.round_nd age 1);
          kp_avg_income := income;
          kp_avg_satisfaction := Float (Py.round_nd sat 2) |}.

Definition api_attrition_dept (p : params) (data : list row) : result RateSeries :=
  rows <- load p data ;;
  c <- foldM (fun (c : gmap string Z * gmap string Z) r =>
         d <- Py.getitem r "Department" ;;
         let total := Counter.incr d c.1 in
         y <- attrition_is "Yes" r ;;
         if y then
           d' <- Py.getitem r "Department" ;;
           Ok (total, Counter.incr d' c.2)
         else Ok (total, c.2)) (∅, ∅) rows ;;
  let total := c.1 in
  let attr := c.2 in
  let labels := Py.sorted (Counter.keys total) in
  let totals := (Counter.get total) <$> labels in
  let attrs := (Counter.get attr) <$> labels in
  rate <- mapM (fun l => rate_or_zero (Counter.get attr l) (Counter.get total l)) labels ;;
  Ok {| rs_labels := labels; rs_total := totals; rs_attrition := attrs; rs_rate := rate |}.

Definition api_attrition_jobrole (p : params) (data : list row) : result RateSeries :=
  rows <- load p data ;;
  c <- foldM (fun (c : gmap string Z * gmap string Z) r =>
         d <- Py.getitem r "JobRole" ;;
         let total := Counter.incr d c.1 in
         y <- attrition_is "Yes" r ;;
         if y then
           d' <- Py.getitem r "JobRole" ;;
           Ok (total, Counter.incr d' c.2)
         else Ok (total, c.2)) (∅, ∅) rows ;;
  let total := c.1 in
  let attr := c.2 in
  let labels := Py.sorted (Counter.keys total) in
  let totals := (Counter.get total) <$> labels in
  let attrs := (Counter.get attr) <$> labels in
  rate <- mapM (fun l => rate_or_zero (Counter.get attr l) (Counter.get total l)) labels ;;
  Ok {| rs_labels := labels; rs_total := totals; rs_attrition := attrs; rs_rate := rate |}.

Definition api_age_dist (p : params) (data : list row) : result CountSeries :=
  rows <- load p data ;;
  let bins := Py.range3 18 65 5 in
  let labels := (fun b => Py.str b +:+ "-" +:+ Py.str (b + 4)) <$> bins in
  let tc := replicate (length bins) 0 in
  let ac := replicate (length bins) 0 in
  c <- foldM (fun (c : list Z * list Z) r =>
         age <- int_field "Age" r ;;
         let idx := Z.min ((age - 18) / 5) (Py.len bins - 1) in
         if (0 <=? idx) && (idx <? Py.len bins) then
           tc <- Py.list_incr c.1 idx ;;
           y <- attrition_is "Yes" r ;;
           if y then ac <- Py.list_incr c.2 idx ;; Ok (tc, ac)
           else Ok (tc, c.2)
         else Ok c) (tc, ac) rows ;;
  Ok {| cs_labels := labels; cs_total := c.1; cs_attrition := c.2 |}.

Definition api_gender_split (p : params) (data : list row) : result CountSeries :=
  rows <- load p data ;;
  ks <- mapM (fun r => Py.getitem r "Gender") rows ;;
  let cnt := Counter.of_list ks in
  ys <- comp (attrition_is "Yes") (fun r => Py.getitem r "Gender") rows ;;
  let attr := Counter.of_list ys in
  let labels := Py.sorted (Counter.keys cnt) in
  Ok {| cs_labels := labels;
        cs_total := (Counter.get cnt) <$> labels;
        cs_attrition := (Counter.get attr) <$> labels |}.

Definition api_income_role (p : params) (data : list row) : result IncomeSeries :=
  rows <- load p data ;;
  role_income <- foldM (fun (role_income : gmap string (list Z)) r =>
         k <- Py.getitem r "JobRole" ;;
         v <- int_field "MonthlyIncome" r ;;
         Ok (Counter.append k v role_income)) ∅ rows ;;
  let labels := Py.sorted (Counter.keys role_income) in
  avg <- mapM (fun l => int_mean_or_zero (Counter.get_list role_income l)) labels ;;
  Ok {| is_labels := labels; is_avg_income := avg |}.

Definition api_satisfaction (p : params) (data : list row) : result SplitSeries :=
  rows <- load p data ;;
  let labels := ["1 - Low"; "2 - Medium"; "3 - High"; "4 - Very High"] in
  c <- foldM (fun (c : list Z * list Z) r =>
         s <- int_field "JobSatisfaction" r ;;
         let idx := s - 1 in
         y <- attrition_is "Yes" r ;;
         if y then
           left <- Py.list_incr c.2 idx ;; Ok (c.1, left)
         else
           stayed <- Py.list_incr c.1 idx ;; Ok (stayed, c.2))
       ([0; 0; 0; 0], [0; 0; 0; 0]) rows ;;
  Ok {| sp_labels := labels; sp_stayed := c.1; sp_left := c.2 |}.

Definition api_overtime (p : params) (data : list row) : result SplitSeries :=
  rows <- load p data ;;
  let data0 : gmap string (gmap string Z) :=
    {[ "Yes" := {[ "Yes" := 0; "No" := 0 ]}; "No" := {[ "Yes" := 0; "No" := 0 ]} ]} in
  data <- foldM (fun (data : gmap string (gmap string Z)) r =>
         o <- Py.getitem r "OverTime" ;;
         inner <- Py.getitem data o ;;
         a <- Py.getitem r "Attrition" ;;
         n <- Py.getitem inner a ;;
         Ok (<[o := <[a := n + 1]> inner]> data)) data0 rows ;;
  yes <- Py.getitem data "Yes" ;;
  yes_no <- Py.getitem yes "No" ;;
  no <- Py.getitem data "No" ;;
  no_no <- Py.getitem no "No" ;;
  yes' <- Py.getitem data "Yes" ;;
  yes_yes <- Py.getitem yes' "Yes" ;;
  no' <- Py.getitem data "No" ;;
  no_yes <- Py.getitem no' "Yes" ;;
  Ok {| sp_labels := ["With Overtime"; "Without Overtime"];
        sp_stayed := [yes_no; no_no];
        sp_left := [yes_yes; no_yes] |}.

Definition api_edu_field (p : params) (data : list row) : result CountSeries :=
  rows <- load p data ;;
  ks <- mapM (fun r => Py.getitem r "EducationField") rows ;;
  let cnt := Counter.of_list ks in
  ys <- comp (attrition_is "Yes") (fun r => Py.getitem r "EducationField") rows ;;
  let attr := Counter.of_list ys in
  let labels := Py.sorted (Counter.keys cnt) in
  Ok {| cs_labels := labels;
        cs_total := (Counter.get cnt) <$> labels;
        cs_attrition := (Counter.get attr) <$> labels |}.

Definition api_years_attrition (p : params) (data : list row) : result YearsSeries :=
  rows <- load p data ;;
  c <- foldM (fun (c : gmap Z Z * gmap Z Z) r =>
         y <- int_field "YearsAtCompany" r ;;
         let yt := Counter.incr y c.1 in
         a <- attrition_is "Yes" r ;;
         if a then Ok (yt, Counter.incr y c.2)
         else Ok (yt, c.2)) (∅, ∅) rows ;;
  let yt := c.1 in
  let ya := c.2 in
  mx <- match Counter.keys yt with
        | [] => Ok 0
        | ks => Py.max ks
        end ;;
  let labels := Py.range 0 (Z.min (mx + 1) 41) in
  rates <- mapM (fun y => rate_or_zero (Counter.get ya y) (Counter.get yt y)) labels ;;
  Ok {| ys_labels := labels;
        ys_attrition_rate := rates;
        ys_total := (Counter.get yt) <$> labels |}.

Definition api_worklife (p : params) (data : list row) : result AvgSeries :=
  rows <- load p data ;;
  let metrics := ["JobSatisfaction"; "EnvironmentSatisfaction";
                  "RelationshipSatisfaction"; "WorkLifeBalance"; "JobInvolvement"] in
  let labels := ["Job Satisfaction"; "Environment"; "Relationships";
                 "Work-Life Balance"; "Job Involvement"] in
  c <- foldM (fun (c : list num * list num) m =>
         stayed <- comp (attrition_is "No") (int_field m) rows ;;
         left <- comp (attrition_is "Yes") (int_field m) rows ;;
         s <- mean_or_zero 2 stayed ;;
         l <- mean_or_zero 2 left ;;
         Ok (c.1 ++ [s], c.2 ++ [l])%list) ([], []) metrics ;;
  Ok {| as_labels := labels; as_stayed := c.1; as_left := c.2 |}.

(** *** The HTTP handler *)

(** What [json.dumps] is given: the dict one of the views returned. *)
Inductive payload :=
  | PFilters (r : Filters)
  | PKpis (r : Kpis)
  | PRate (r : RateSeries)
  | PCount (r : CountSeries)
  | PIncome (r : IncomeSeries)
  | PSplit (r : SplitSeries)
  | PYears (r : YearsSeries)
  | PAvg (r : AvgSeries).

(** A view as stored in [ROUTES]: a function of no argument or of the
    parameter dict. *)
Inductive view :=
  | View0 (fn : list row -> result payload)
  | View1 (fn : params -> list row -> result payload).

Definition lift {A B} (c : A -> payload) (f : B -> result A) (x : B) : result payload :=
  r <- f x ;; Ok (c r).

Definition ROUTES : gmap string (view * bool) :=
  list_to_map
  [("/api/filters", (View0 (lift PFilters api_filters), false));
   ("/api/kpis", (View1 (fun p => lift PKpis (api_kpis p)), true));
   ("/api/attrition-by-department", (View1 (fun p => lift PRate (api_attrition_dept p)), true));
   ("/api/attrition-by-jobrole", (View1 (fun p => lift PRate (api_attrition_jobrole p)), true));
   ("/api/age-distribution", (View1 (fun p => lift PCount (api_age_dist p)), true));
   ("/api/gender-split", (View1 (fun p => lift PCount (api_gender_split p)), true));
   ("/api/income-by-role", (View1 (fun p => lift PIncome (api_income_role p)), true));
   ("/api/satisfaction-distribution", (View1 (fun p => lift PSplit (api_satisfaction p)), true));
   ("/api/overtime-attrition", (View1 (fun p => lift PSplit (api_overtime p)), true));
   ("/api/education-field", (View1 (fun p => lift PCount (api_edu_field p)), true));
   ("/api/years-attrition", (View1 (fun p => lift PYears (api_years_attrition p)), true));
   ("/api/worklife-balance", (View1 (fun p => lift PAvg (api_worklife p)), true))].

(** What the client gets: the JSON body, the 500 page whose reason phrase
    is the message of the exception, a file of the static directory, or
    nothing at all when writing the response raised in its turn. *)
Inductive response :=
  | Json200 (body : payload)
  | Error500 (e : exn)
  | Static (path : string)
  | NoResponse (e : exn).

(** [fn(p)] and [fn()]: a call with the wrong number of arguments raises. *)
Definition call1 (v : view) (p : params) (data : list row) : result payload :=
  match v with
  | View1 fn => fn p data
  | View0 _ => Err TypeError
  end.

Definition call0 (v : view) (data : list row) : result payload :=
  match v with
  | View0 fn => fn data
  | View1 _ => Err TypeError
  end.

(** Whether [str(e)] encodes in latin-1.  The message of a [KeyError] is
    the [repr] of the key; the exceptions that carry no text here have a
    fixed ASCII message. *)
Definition reason_encodes (e : exn) : bool :=
  match e with
  | KeyError k => Py.latin1 (Py.repr k)
  | ValueError msg => Py.latin1 msg
  | _ => true
  end.

(** [self.send_error(500, str(e))]: the status line, with the message as
    its reason phrase, is encoded in latin-1 before anything is written.
    A message with a character above U+00FF makes that raise
    [UnicodeEncodeError] inside the [except] block, and the request ends
    without a response. *)
Definition send_error (e : exn) : response :=
  if reason_encodes e then Error500 e else NoResponse e.

(** [do_GET] on a request for [path], with [p] the dict [get_params]
    builds from the query string.  [json.dumps] escapes every character
    outside ASCII, so that the 200 branch always writes its response. *)
Definition do_GET (path : string) (p : params) (data : list row) : response :=
  match ROUTES !! path with
  | Some (fn, needs_params) =>
      let result := if needs_params : bool then call1 fn p data else call0 fn data in
      match result with
      | Ok body => Json200 body
      | Err e => send_error e
      end
  | None =>
      if String.eqb path "/" || String.eqb path "" then Static "/index.html"
      else Static path
  end.

End Server.

(** * The vocabulary of the statements *)

(** ** Finite floats *)

Definition is_finite (x : spec_float) : Prop :=
  match x with
  | S754_zero _ | S754_finite _ _ _ => True
  | _ => False
  end.

(** ** The fields of a record *)

Definition field (k : string) (r : row) : string := default "" (r !! k).

Definition int_of (k : string) (r : row) : Z := default 0 (r !! k ≫= Py.parse_int).

(** [Attrition] holds the text [v]. *)
Definition attrition (v : string) (r : row) : Prop := r !! "Attrition" = Some v.

#[local] Instance attrition_dec v r : Decision (attrition v r).
Proof. unfold attrition. apply _. Defined.

(** ** The filter of the row loader *)

(** The contract in the words of the specification: a constraint that is
    supplied must hold by exact equality of text. *)
Definition constraint_spec (arg : option string) (k : string) (r : row) : Prop :=
  match arg with
  | Some a => r !! k = Some a
  | None => True
  end.

Definition matches_spec (g j e d : option string) (r : row) : Prop :=
  constraint_spec g "Gender" r /\ constraint_spec j "JobRole" r /\
  constraint_spec e "Education" r /\ constraint_spec d "Department" r.

(** What the loader tests: the empty text, like [None], constrains
    nothing. *)
Definition constraint (arg : option string) (k : string) (r : row) : Prop :=
  match arg with
  | Some a => a = "" \/ r !! k = Some a
  | None => True
  end.

Definition matches (g j e d : option string) (r : row) : Prop :=
  constraint g "Gender" r /\ constraint j "JobRole" r /\
  constraint e "Education" r /\ constraint d "Department" r.

#[local] Instance constraint_spec_dec arg k r : Decision (constraint_spec arg k r).
Proof. destruct arg; simpl; apply _. Defined.

#[local] Instance matches_spec_dec g j e d r : Decision (matches_spec g j e d r).
Proof. unfold matches_spec. apply _. Defined.

#[local] Instance constraint_dec arg k r : Decision (constraint arg k r).
Proof. destruct arg; simpl; apply _. Defined.

#[local] Instance matches_dec g j e d r : Decision (matches g j e d r).
Proof. unfold matches. apply _. Defined.

(** The columns the loader may read. *)
Definition filter_columns (r : row) : Prop :=
  is_Some (r !! "Gender") /\ is_Some (r !! "JobRole") /\
  is_Some (r !! "Education") /\ is_Some (r !! "Department").

(** The body of the loop of [load_data]. *)
Definition load_step (g j e d : option string) (rows : list row) (r : row)
  : result (list row) :=
  c <- excluded g r "Gender" ;;
  if c then Ok rows else
  c <- excluded j r "JobRole" ;;
  if c then Ok rows else
  c <- excluded e r "Education" ;;
  if c then Ok rows else
  c <- excluded d r "Department" ;;
  if c then Ok rows else
  Ok (rows ++ [r])%list.

(** Sample records. *)
Definition record (l : list (string * string)) : row := list_to_map l.

Definition alice : row :=
  record [("Gender", "Female"); ("JobRole", "Dev"); ("Education", "3");
          ("Department", "A"); ("Attrition", "Yes"); ("Age", "41");
          ("MonthlyIncome", "5993"); ("JobSatisfaction", "4"); ("OverTime", "Yes");
          ("EducationField", "Life Sciences"); ("YearsAtCompany", "6");
          ("EnvironmentSatisfaction", "2"); ("RelationshipSatisfaction", "1");
          ("WorkLifeBalance", "1"); ("JobInvolvement", "3")].

Definition bob : row :=
  record [("Gender", "Male"); ("JobRole", "Ops"); ("Education", "2");
          ("Department", "B"); ("Attrition", "No"); ("Age", "61");
          ("MonthlyIncome", "2000"); ("JobSatisfaction", "2"); ("OverTime", "No");
          ("EducationField", "Medical"); ("YearsAtCompany", "2");
          ("EnvironmentSatisfaction", "3"); ("RelationshipSatisfaction", "4");
          ("WorkLifeBalance", "3"); ("JobInvolvement", "2")].

(** ** Counting occurrences *)

(** Occurrences of [k] in [l]. *)
Definition occ `{Countable K} (k : K) (l : list K) : Z := Py.len (filter (eq k) l).

(** ** The category views *)

(** The loop of the department and job-role views, over the column [k]. *)
Definition count_step (k : string) (c : gmap string Z * gmap string Z) (r : row)
  : result (gmap string Z * gmap string Z) :=
  d <- Py.getitem r k ;;
  let total := Counter.incr d c.1 in
  y <- attrition_is "Yes" r ;;
  if y then
    d' <- Py.getitem r k ;;
    Ok (total, Counter.incr d' c.2)
  else Ok (total, c.2).

Definition rate_view (k : string) (rows : list row) : result RateSeries :=
  c <- foldM (count_step k) (∅, ∅) rows ;;
  let labels := Py.sorted (Counter.keys c.1) in
  rate <- mapM (fun l => rate_or_zero (Counter.get c.2 l) (Counter.get c.1 l)) labels ;;
  Ok {| rs_labels := labels;
        rs_total := (Counter.get c.1) <$> labels;
        rs_attrition := (Counter.get c.2) <$> labels;
        rs_rate := rate |}.

(** The gender and education-field views, over the column [k]. *)
Definition count_view (k : string) (rows : list row) : result CountSeries :=
  ks <- mapM (fun r => Py.getitem r k) rows ;;
  let cnt := Counter.of_list ks in
  ys <- comp (attrition_is "Yes") (fun r => Py.getitem r k) rows ;;
  let attr := Counter.of_list ys in
  let labels := Py.sorted (Counter.keys cnt) in
  Ok {| cs_labels := labels;
        cs_total := (Counter.get cnt) <$> labels;
        cs_attrition := (Counter.get attr) <$> labels |}.

(** The records that left. *)
Definition leavers (rows : list row) : list row := filter (attrition "Yes") rows.

(** What a category view returns, in terms of the column's values [ks]
    and of the values [ys] on the records that left. *)
Record counted (labels : list string) (total attr : list Z) (ks ys : list string) : Prop := {
  counted_sorted : Sorted String.le labels;
  counted_nodup : NoDup labels;
  counted_labels : forall l, l ∈ labels <-> l ∈ ks;
  counted_total : total = (fun l => occ l ks) <$> labels;
  counted_attr : attr = (fun l => occ l ys) <$> labels;
}.

(** ** Lists of buckets *)

(** [l[i] += 1] when the record falls in bucket [i], nothing otherwise. *)
Definition bump (i : option nat) (l : list Z) : list Z :=
  match i with
  | Some i => alter (Z.add 1) i l
  | None => l
  end.

(** The buckets after counting the records of [rows], each in the bucket
    [b] gives it. *)
Definition tally {A} (b : A -> option nat) (l : list Z) (rows : list A) : list Z :=
  foldl (fun l r => bump (b r) l) l rows.

(** ** The age view *)

Definition age_view (rows : list row) : result CountSeries :=
  let bins := Py.range3 18 65 5 in
  let labels := (fun b => Py.str b +:+ "-" +:+ Py.str (b + 4)) <$> bins in
  let total_counts := replicate (length bins) 0 in
  let attr_counts := replicate (length bins) 0 in
  c <- foldM (fun (c : list Z * list Z) r =>
         age <- int_field "Age" r ;;
         let idx := Z.min ((age - 18) / 5) (Py.len bins - 1) in
         if (0 <=? idx) && (idx <? Py.len bins) then
           total_counts <- Py.list_incr c.1 idx ;;
           y <- attrition_is "Yes" r ;;
           if y then
             attr_counts <- Py.list_incr c.2 idx ;;
             Ok (total_counts, attr_counts)
           else Ok (total_counts, c.2)
         else Ok c) (total_counts, attr_counts) rows ;;
  Ok {| cs_labels := labels; cs_total := c.1; cs_attrition := c.2 |}.

(** The body of the loop of the age view, with its ten bins. *)
Definition age_step (c : list Z * list Z) (r : row) : result (list Z * list Z) :=
  age <- int_field "Age" r ;;
  let idx := Z.min ((age - 18) / 5) (10 - 1) in
  if (0 <=? idx) && (idx <? 10) then
    total_counts <- Py.list_incr c.1 idx ;;
    y <- attrition_is "Yes" r ;;
    if y then
      attr_counts <- Py.list_incr c.2 idx ;;
      Ok (total_counts, attr_counts)
    else Ok (total_counts, c.2)
  else Ok c.

Definition age (r : row) : Z := int_of "Age" r.

(** The bin a record is counted in, if any. *)
Definition age_bin (r : row) : option nat :=
  let idx := Z.min ((age r - 18) / 5) 9 in
  if (0 <=? idx) && (idx <? 10) then Some (Z.to_nat idx) else None.

Definition leaver_bin (r : row) : option nat :=
  if decide (attrition "Yes" r) then age_bin r else None.

Definition age_labels : list string :=
  ["18-22"; "23-27"; "28-32"; "33-37"; "38-42"; "43-47"; "48-52"; "53-57"; "58-62"; "63-67"].

(** ** The years view *)

Definition years_view (rows : list row) : result YearsSeries :=
  c <- foldM (fun (c : gmap Z Z * gmap Z Z) r =>
         y <- int_field "YearsAtCompany" r ;;
         let year_total := Counter.incr y c.1 in
         a <- attrition_is "Yes" r ;;
         if a then Ok (year_total, Counter.incr y c.2)
         else Ok (year_total, c.2)) (∅, ∅) rows ;;
  max_year <- match Counter.keys c.1 with
              | [] => Ok 0
              | ks => Py.max ks
              end ;;
  let labels := Py.range 0 (Z.min (max_year + 1) 41) in
  rates <- mapM (fun y => rate_or_zero (Counter.get c.2 y) (Counter.get c.1 y)) labels ;;
  Ok {| ys_labels := labels;
        ys_attrition_rate := rates;
        ys_total := (Counter.get c.1) <$> labels |}.

(** The body of the loop of the years view. *)
Definition years_step (c : gmap Z Z * gmap Z Z) (r : row) : result (gmap Z Z * gmap Z Z) :=
  y <- int_field "YearsAtCompany" r ;;
  let year_total := Counter.incr y c.1 in
  a <- attrition_is "Yes" r ;;
  if a then Ok (year_total, Counter.incr y c.2)
  else Ok (year_total, c.2).

Definition years (r : row) : Z := int_of "YearsAtCompany" r.

(** The largest year among the records, 0 when there is none. *)
Definition max_years_seen (rows : list row) : Z :=
  match years <$> rows with
  | [] => 0
  | y :: ys => foldr Z.max y ys
  end.

(** ** Totals *)

(** Whatever the handler returns satisfies [P]. *)
Definition returns {A} (m : result A) (P : A -> Prop) : Prop :=
  forall r, m = Ok r -> P r.

(** The two series count every one of [rows], and every leaver among
    them, once. *)
Definition count_sums (rows : list row) (total attrition : list Z) : Prop :=
  Py.sum total = Py.len rows /\ Py.sum attrition = Py.len (leavers rows).

Definition adult (r : row) : Prop := 18 <= age r.

(** The field [k] reads as an integer. *)
Definition numeric (k : string) (r : row) : Prop := exists z, int_field k r = Ok z.

(** A record the six (a)-shaped views can read. *)
Definition complete (r : row) : Prop :=
  is_Some (r !! "Attrition") /\
  is_Some (r !! "Department") /\ is_Some (r !! "JobRole") /\
  is_Some (r !! "Gender") /\ is_Some (r !! "EducationField") /\
  numeric "Age" r /\ numeric "YearsAtCompany" r.

Definition carol : row :=
  record [("Gender", "Female"); ("JobRole", "Intern"); ("Education", "1");
          ("Department", "A"); ("Attrition", "No"); ("Age", "17");
          ("MonthlyIncome", "900"); ("JobSatisfaction", "0"); ("OverTime", "No");
          ("EducationField", "Other"); ("YearsAtCompany", "55");
          ("EnvironmentSatisfaction", "2"); ("RelationshipSatisfaction", "2");
          ("WorkLifeBalance", "2"); ("JobInvolvement", "2")].

Definition no_filter : params :=
  {| gender := None; job_role := None; education := None; department := None |}.

(** ** Rates and the KPI summary *)

(** [v] is the rate of [a] leavers among [t] records. *)
Definition rate_is (v : num) (a t : Z) : Prop :=
  (t = 0 -> v = Int 0) /\
  (t <> 0 -> exists q, Py.truediv a t = Ok q /\
                       v = Float (Py.round_nd (Py.mul_int q 100) 1)).



Definition no_zde {A} (m : result A) : Prop := m <> Err ZeroDivisionError.

Definition kpi_view (rows : list row) : result Kpis :=
  let total := Py.len rows in
  if total =? 0 then
    Ok {| kp_total := 0; kp_attrition_rate := Int 0; kp_avg_age := Int 0;
          kp_avg_income := 0; kp_avg_satisfaction := Int 0 |}
  else
    ones <- comp (attrition_is "Yes") (fun _ => Ok 1) rows ;;
    let attrition := Py.sum ones in
    ages <- mapM (int_field "Age") rows ;;
    avg_age <- Py.truediv (Py.sum ages) total ;;
    incomes <- mapM (int_field "MonthlyIncome") rows ;;
    avg_income <- Py.truediv (Py.sum incomes) total ;;
    sats <- mapM (int_field "JobSatisfaction") rows ;;
    avg_sat <- Py.truediv (Py.sum sats) total ;;
    q <- Py.truediv attrition total ;;
    income <- Py.round avg_income ;;
    Ok {| kp_total := total;
          kp_attrition_rate := Float (Py.round_nd (Py.mul_int q 100) 1);
          kp_avg_age := Float (Py.round_nd avg_age 1);
          kp_avg_income := income;
          kp_avg_satisfaction := Float (Py.round_nd avg_sat 2) |}.

Definition zero_kpis : Kpis :=
  {| kp_total := 0; kp_attrition_rate := Int 0; kp_avg_age := Int 0;
     kp_avg_income := 0; kp_avg_satisfaction := Int 0 |}.

(** ** The labels of the years view *)

Definition year_labels (rows : list row) (res : YearsSeries) : Prop :=
  ys_labels res = seqZ 0 (Z.min (max_years_seen rows) 40 + 1) /\
  (forall y, y ∈ ys_labels res <-> 0 <= y <= Z.min (max_years_seen rows) 40) /\
  Forall (fun y => y <= 40) (ys_labels res).

(** ** The age bins *)

(** [counts] holds, for each of the ten bins, the number of [rows] whose
    age the bin covers: five years each from 18 on, and everything from 63
    on in the last one; who is younger than 18 is in none. *)
Definition age_bins (rows : list row) (counts : list Z) : Prop :=
  length counts = 10%nat /\
  (forall i : nat, (i < 9)%nat ->
     counts !! i = Some (Py.len (filter
       (fun r => 18 + 5 * Z.of_nat i <= age r <= 22 + 5 * Z.of_nat i) rows))) /\
  counts !! 9%nat = Some (Py.len (filter (fun r => 63 <= age r) rows)) /\
  Py.sum counts = Py.len (filter (fun r => 18 <= age r) rows).

Definition age_histogram (rows : list row) (res : CountSeries) : Prop :=
  cs_labels res = age_labels /\
  age_bins rows (cs_total res) /\
  age_bins (leavers rows) (cs_attrition res).

Definition dave : row := <["Age" := "70"]> bob.

(** ** The satisfaction view *)

Definition satisfaction_view (rows : list row) : result SplitSeries :=
  let sat_labels := ["1 - Low"; "2 - Medium"; "3 - High"; "4 - Very High"] in
  c <- foldM (fun (c : list Z * list Z) r =>
         s <- int_field "JobSatisfaction" r ;;
         let idx := s - 1 in
         y <- attrition_is "Yes" r ;;
         if y then
           left <- Py.list_incr c.2 idx ;; Ok (c.1, left)
         else
           stayed <- Py.list_incr c.1 idx ;; Ok (stayed, c.2))
       ([0; 0; 0; 0], [0; 0; 0; 0]) rows ;;
  Ok {| sp_labels := sat_labels; sp_stayed := c.1; sp_left := c.2 |}.

Definition satisfaction (r : row) : Z := int_of "JobSatisfaction" r.

(** The records that did not leave: the [else] branch of the views. *)
Definition stayers (rows : list row) : list row :=
  filter (fun r => ~ attrition "Yes" r) rows.

(** Where [l[s - 1]] lands in a list of four. *)
Definition sat_bucket (r : row) : option nat :=
  let idx := satisfaction r - 1 in
  let i := if idx <? 0 then idx + 4 else idx in
  if (0 <=? i) && (i <? 4) then Some (Z.to_nat i) else None.

Definition stayed_bucket (r : row) : option nat :=
  if decide (attrition "Yes" r) then None else sat_bucket r.

Definition left_bucket (r : row) : option nat :=
  if decide (attrition "Yes" r) then sat_bucket r else None.

(** Every record has an Attrition field and a JobSatisfaction that reads
    as an integer between [lo] and [hi]. *)
Definition rated (lo hi : Z) (rows : list row) : Prop :=
  forall r, r ∈ rows ->
    is_Some (r !! "Attrition") /\
    exists s, int_field "JobSatisfaction" r = Ok s /\ lo <= s <= hi.

(** The body of the loop of the satisfaction view. *)
Definition sat_step (c : list Z * list Z) (r : row) : result (list Z * list Z) :=
  s <- int_field "JobSatisfaction" r ;;
  let idx := s - 1 in
  y <- attrition_is "Yes" r ;;
  if y then
    left <- Py.list_incr c.2 idx ;; Ok (c.1, left)
  else
    stayed <- Py.list_incr c.1 idx ;; Ok (stayed, c.2).

(** Bucket [i] holds the records rated [i + 1], stayers and leavers apart,
    and every record is in exactly one bucket of one of the two series. *)
Definition satisfaction_counts (rows : list row) (res : SplitSeries) : Prop :=
  length (sp_stayed res) = 4%nat /\ length (sp_left res) = 4%nat /\
  (forall i : nat, (i < 4)%nat ->
     sp_stayed res !! i
       = Some (Py.len (filter (fun r => satisfaction r = Z.of_nat i + 1) (stayers rows))) /\
     sp_left res !! i
       = Some (Py.len (filter (fun r => satisfaction r = Z.of_nat i + 1) (leavers rows)))) /\
  Py.sum (sp_stayed res) + Py.sum (sp_left res) = Py.len rows.

(** A rating of 0 is index -1, the last bucket, which it shares with the
    rating 4. *)
Definition zero_in_last_bucket (rows : list row) (res : SplitSeries) : Prop :=
  sp_stayed res !! 3%nat
    = Some (Py.len (filter (fun r => satisfaction r = 0 \/ satisfaction r = 4) (stayers rows))) /\
  sp_left res !! 3%nat
    = Some (Py.len (filter (fun r => satisfaction r = 0 \/ satisfaction r = 4) (leavers rows))) /\
  Py.sum (sp_stayed res) + Py.sum (sp_left res) = Py.len rows.

(** ** Sorted labels *)




(** ** Messages and their encoding *)




(** ** Malformed records *)




Definition metrics : list string :=
  ["JobSatisfaction"; "EnvironmentSatisfaction"; "RelationshipSatisfaction";
   "WorkLifeBalance"; "JobInvolvement"].


Definition erin : row :=
  record [("Gender", "Female"); ("JobRole", "Ops"); ("Education", "2");
          ("Department", "B"); ("Attrition", "Unknown"); ("Age", "35");
          ("MonthlyIncome", "2500"); ("JobSatisfaction", "n/a"); ("OverTime", "No");
          ("EducationField", "Medical"); ("YearsAtCompany", "4");
          ("EnvironmentSatisfaction", "3"); ("RelationshipSatisfaction", "4");
          ("WorkLifeBalance", "3"); ("JobInvolvement", "2")].

Definition frank : row := <["Age" := "forty"]> bob.

(** ** Distinct values and bounded fields *)

(** [labels] lists, in ascending order and once each, the values the
    column [k] takes on [rows]. *)
Definition distinct_values (k : string) (rows : list row) (labels : list string) : Prop :=
  Sorted String.le labels /\ NoDup labels /\
  forall l, l ∈ labels <-> exists r, r ∈ rows /\ r !! k = Some l.

(** The field [k] reads as an integer of magnitude at most [2 ^ 1022], so
    that no mean of such fields overflows a float. *)
Definition bounded (k : string) (r : row) : Prop :=
  exists z, int_field k r = Ok z /\ Z.abs z <= 2 ^ 1022.

(** ** Average income by job role *)

(** The body of the loop of the income view. *)
Definition income_step (role_income : gmap string (list Z)) (r : row)
  : result (gmap string (list Z)) :=
  k <- Py.getitem r "JobRole" ;;
  v <- int_field "MonthlyIncome" r ;;
  Ok (Counter.append k v role_income).

Definition income_view (rows : list row) : result IncomeSeries :=
  role_income <- foldM income_step ∅ rows ;;
  let labels := Py.sorted (Counter.keys role_income) in
  avg <- mapM (fun l => int_mean_or_zero (Counter.get_list role_income l)) labels ;;
  Ok {| is_labels := labels; is_avg_income := avg |}.

(** The incomes of the records in the role [l], in file order. *)
Definition incomes_of (l : string) (rows : list row) : list Z :=
  int_of "MonthlyIncome" <$> filter (fun r => r !! "JobRole" = Some l) rows.

(** The labels are the roles present, and the entry of each is its mean
    income rounded to the nearest int; no role has an empty list of
    incomes. *)
Definition income_averages (rows : list row) (res : IncomeSeries) : Prop :=
  distinct_values "JobRole" rows (is_labels res) /\
  length (is_avg_income res) = length (is_labels res) /\
  forall (i : nat) l, is_labels res !! i = Some l ->
    incomes_of l rows <> [] /\
    exists q v,
      Py.truediv (Py.sum (incomes_of l rows)) (Py.len (incomes_of l rows)) = Ok q /\
      Py.round q = Ok v /\
      is_avg_income res !! i = Some v.

(** ** The work-life averages *)

(** The body of the loop over the metrics. *)
Definition worklife_step (rows : list row) (c : list num * list num) (m : string)
  : result (list num * list num) :=
  stayed <- comp (attrition_is "No") (int_field m) rows ;;
  left <- comp (attrition_is "Yes") (int_field m) rows ;;
  s <- mean_or_zero 2 stayed ;;
  l <- mean_or_zero 2 left ;;
  Ok (c.1 ++ [s], c.2 ++ [l])%list.

Definition worklife_view (rows : list row) : result AvgSeries :=
  c <- foldM (worklife_step rows) ([], []) metrics ;;
  Ok {| as_labels := ["Job Satisfaction"; "Environment"; "Relationships";
                      "Work-Life Balance"; "Job Involvement"];
        as_stayed := c.1; as_left := c.2 |}.

(** The values of the metric [m] on the records whose Attrition is [v]. *)
Definition metric_values (v m : string) (rows : list row) : list Z :=
  int_of m <$> filter (attrition v) rows.

(** [x] is [round(sum(l) / len(l), nd) if l else 0]. *)
Definition mean_is (nd : Z) (x : num) (l : list Z) : Prop :=
  match l with
  | [] => x = Int 0
  | _ => exists q, Py.truediv (Py.sum l) (Py.len l) = Ok q /\ x = Float (Py.round_nd q nd)
  end.

(** Entry [i] of [stayed] averages metric [i] over the records with
    Attrition = "No", entry [i] of [left] over those with Attrition =
    "Yes". *)
Definition worklife_averages (rows : list row) (res : AvgSeries) : Prop :=
  as_labels res = ["Job Satisfaction"; "Environment"; "Relationships";
                   "Work-Life Balance"; "Job Involvement"] /\
  Forall2 (fun m s => mean_is 2 s (metric_values "No" m rows)) metrics (as_stayed res) /\
  Forall2 (fun m l => mean_is 2 l (metric_values "Yes" m rows)) metrics (as_left res).

(** What the work-life view needs of a record: an Attrition field and,
    under "Yes" or "No", the five metrics. *)
Definition measured (r : row) : Prop :=
  is_Some (r !! "Attrition") /\
  (attrition "Yes" r \/ attrition "No" r -> Forall (fun m => bounded m r) metrics).

(** ** The averages of the KPI summary *)

(** [x] is the mean of the field [k] over [rows], as a float. *)
Definition field_mean (k : string) (rows : list row) (x : spec_float) : Prop :=
  Py.truediv (Py.sum (int_of k <$> rows)) (Py.len rows) = Ok x.

(** The summary of a non-empty selection. *)
Definition kpi_averages (rows : list row) (res : Kpis) : Prop :=
  kp_total res = Py.len rows /\
  (exists x, field_mean "Age" rows x /\ kp_avg_age res = Float (Py.round_nd x 1)) /\
  (exists x, field_mean "MonthlyIncome" rows x /\ Py.round x = Ok (kp_avg_income res)) /\
  (exists x, field_mean "JobSatisfaction" rows x /\
             kp_avg_satisfaction res = Float (Py.round_nd x 2)).

(** What the KPI summary needs of a record. *)
Definition surveyed (r : row) : Prop :=
  is_Some (r !! "Attrition") /\ bounded "Age" r /\ bounded "MonthlyIncome" r /\
  bounded "JobSatisfaction" r.

(** ** Overtime against attrition *)

(** The body of the loop of the overtime view:
    [data[r["OverTime"]][r["Attrition"]] += 1]. *)
Definition overtime_step (data : gmap string (gmap string Z)) (r : row)
  : result (gmap string (gmap string Z)) :=
  o <- Py.getitem r "OverTime" ;;
  inner <- Py.getitem data o ;;
  a <- Py.getitem r "Attrition" ;;
  n <- Py.getitem inner a ;;
  Ok (<[o := <[a := n + 1]> inner]> data).

(** The nested dict of the view, with its four counts: [yy] is
    [data["Yes"]["Yes"]], overtime first. *)
Definition overtime_table (yy yn ny nn : Z) : gmap string (gmap string Z) :=
  {[ "Yes" := {[ "Yes" := yy; "No" := yn ]}; "No" := {[ "Yes" := ny; "No" := nn ]} ]}.

Definition overtime_view (rows : list row) : result SplitSeries :=
  data <- foldM overtime_step (overtime_table 0 0 0 0) rows ;;
  yes <- Py.getitem data "Yes" ;;
  yes_no <- Py.getitem yes "No" ;;
  no <- Py.getitem data "No" ;;
  no_no <- Py.getitem no "No" ;;
  yes' <- Py.getitem data "Yes" ;;
  yes_yes <- Py.getitem yes' "Yes" ;;
  no' <- Py.getitem data "No" ;;
  no_yes <- Py.getitem no' "Yes" ;;
  Ok {| sp_labels := ["With Overtime"; "Without Overtime"];
        sp_stayed := [yes_no; no_no];
        sp_left := [yes_yes; no_yes] |}.

(** The field [k] holds "Yes" or "No". *)
Definition yes_or_no (k : string) (r : row) : Prop :=
  r !! k = Some "Yes" \/ r !! k = Some "No".

(** The records with OverTime = [o] and Attrition = [a]. *)
Definition crossed (o a : string) (rows : list row) : Z :=
  Py.len (filter (fun r => r !! "OverTime" = Some o /\ r !! "Attrition" = Some a) rows).

(** 1 when the record has OverTime = [o] and Attrition = [a]. *)
Definition crossing (o a : string) (r : row) : Z :=
  if decide (r !! "OverTime" = Some o /\ r !! "Attrition" = Some a) then 1 else 0.

(** The key the overtime view fails on at a record: one of the two
    columns, which the record lacks, or the text of one of them, which is
    neither "Yes" nor "No". *)
Definition off_table (r : row) (k : string) : Prop :=
  (k ∈ ["OverTime"; "Attrition"] /\ r !! k = None) \/
  (exists c, c ∈ ["OverTime"; "Attrition"] /\ r !! c = Some k /\ k <> "Yes" /\ k <> "No").

(** The counts of the overtime view. *)
Definition overtime_counts (rows : list row) (res : SplitSeries) : Prop :=
  sp_labels res = ["With Overtime"; "Without Overtime"] /\
  sp_stayed res = [crossed "Yes" "No" rows; crossed "No" "No" rows] /\
  sp_left res = [crossed "Yes" "Yes" rows; crossed "No" "Yes" rows] /\
  Py.sum (sp_stayed res) + Py.sum (sp_left res) = Py.len rows.


(** ** What the row loader reads *)

(** The constraint is supplied and is not the empty text. *)
Definition active (arg : option string) : Prop := exists a, arg = Some a /\ a <> "".

(** The record has the column of every active constraint. *)
Definition filterable (g j e d : option string) (r : row) : Prop :=
  (active g -> is_Some (r !! "Gender")) /\ (active j -> is_Some (r !! "JobRole")) /\
  (active e -> is_Some (r !! "Education")) /\ (active d -> is_Some (r !! "Department")).

(** The loader raised [x] on a record without the column of an active
    constraint. *)
Definition missing_column (g j e d : option string) (data : list row) (x : exn) : Prop :=
  exists k arg r,
    x = KeyError k /\
    (k, arg) ∈ [("Gender", g); ("JobRole", j); ("Education", e); ("Department", d)] /\
    active arg /\ r ∈ data /\ r !! k = None.

(** ** The filter options *)

(** The three lists of options are the values present in the file; the
    education options are the five fixed levels, by ascending value. *)
Definition filter_options (data : list row) (res : Filters) : Prop :=
  distinct_values "Gender" data (genders res) /\
  distinct_values "JobRole" data (job_roles res) /\
  distinct_values "Department" data (departments res) /\
  educations res = [("1", "Below College"); ("2", "College"); ("3", "Bachelor");
                    ("4", "Master"); ("5", "Doctor")].

(** Filtering by the value [v] of the column [k], through the constraints
    [g j e d], answers with at least one record; all of them hold [v]
    unless [v] is the empty text. *)
Definition selects (g j e d : option string) (k v : string) (data : list row) : Prop :=
  exists rows,
    Main.load_data g j e d data = Ok rows /\ Server.load_data g j e d data = Ok rows /\
    rows <> [] /\ (v <> "" -> Forall (fun r => r !! k = Some v) rows).

(** ** The entries of the category and years views *)

(** The labels are the values the column [k] takes on [rows]; the entry
    of a label counts the records that hold it, in [total] among all of
    [rows], in [attrition] among those that left. *)
Definition category_counts (k : string) (rows : list row)
    (labels : list string) (total attrition : list Z) : Prop :=
  distinct_values k rows labels /\
  total = (fun l => Py.len (filter (fun r => r !! k = Some l) rows)) <$> labels /\
  attrition = (fun l => Py.len (filter (fun r => r !! k = Some l) (leavers rows))) <$> labels.

(** Entry by entry, the leavers are among the records counted. *)
Definition within (attrition total : list Z) : Prop :=
  Forall2 (fun a t => 0 <= a <= t) attrition total.

(** Entry [i] is the year [i], with the number of records of that many
    years. *)
Definition year_counts (rows : list row) (res : YearsSeries) : Prop :=
  length (ys_total res) = length (ys_labels res) /\
  length (ys_attrition_rate res) = length (ys_labels res) /\
  forall (i : nat) y, ys_labels res !! i = Some y ->
    y = Z.of_nat i /\
    ys_total res !! i = Some (Py.len (filter (fun r => years r = y) rows)).

(** ** Ratings outside 1 to 4 *)

(** Bucket [i] holds the records rated [i + 1] and, through the negative
    index, those rated [i - 3]. *)
Definition wrapped_counts (rows : list row) (res : SplitSeries) : Prop :=
  length (sp_stayed res) = 4%nat /\ length (sp_left res) = 4%nat /\
  (forall i : nat, (i < 4)%nat ->
     sp_stayed res !! i
       = Some (Py.len (filter (fun r => satisfaction r = Z.of_nat i + 1 \/
                                        satisfaction r = Z.of_nat i - 3) (stayers rows))) /\
     sp_left res !! i
       = Some (Py.len (filter (fun r => satisfaction r = Z.of_nat i + 1 \/
                                        satisfaction r = Z.of_nat i - 3) (leavers rows)))) /\
  Py.sum (sp_stayed res) + Py.sum (sp_left res) = Py.len rows.

Definition gina : row := <["JobSatisfaction" := "-1"]> bob.

Definition hugo : row := <["JobSatisfaction" := "5"]> bob.

(** ** The exceptions of each view *)

(** Whatever [m] raises is [allowed]. *)
Definition raises_only {A} (allowed : exn -> Prop) (m : result A) : Prop :=
  forall e, m = Err e -> allowed e.

(** The fifteen columns the handlers read. *)
Definition columns : list string :=
  ["Gender"; "JobRole"; "Education"; "Department"; "Attrition"; "Age";
   "MonthlyIncome"; "JobSatisfaction"; "OverTime"; "EducationField";
   "YearsAtCompany"; "EnvironmentSatisfaction"; "RelationshipSatisfaction";
   "WorkLifeBalance"; "JobInvolvement"].

(** Every record has text in each of the fifteen columns: the header
    names them all, and no line of the file is short of cells. *)
Definition tabular (data : list row) : Prop :=
  forall r k, r ∈ data -> k ∈ columns -> is_Some (r !! k).

(** The [KeyError] of a column that one of the records lacks. *)
Definition missing (rows : list row) (e : exn) : Prop :=
  exists r k, r ∈ rows /\ k ∈ columns /\ r !! k = None /\ e = KeyError k.

(** What [int] raises on the text of a cell of one of the records: a
    [ValueError] whose message quotes that text, or tells how many digits
    it has. *)
Definition rejected (rows : list row) (e : exn) : Prop :=
  exists r k s, r ∈ rows /\ k ∈ columns /\ r !! k = Some s /\ Py.int s = Err e.

(** The [KeyError] of the overtime view on text, in the OverTime or the
    Attrition cell of one of the records, that is neither "Yes" nor
    "No". *)
Definition off_cell (rows : list row) (e : exn) : Prop :=
  exists r c k, r ∈ rows /\ c ∈ ["OverTime"; "Attrition"] /\ r !! c = Some k /\
    k <> "Yes" /\ k <> "No" /\ e = KeyError k.

Definition field_error (rows : list row) (e : exn) : Prop :=
  missing rows e \/ rejected rows e.

Definition index_error (rows : list row) (e : exn) : Prop :=
  field_error rows e \/ e = IndexError.

Definition mean_error (rows : list row) (e : exn) : Prop :=
  field_error rows e \/ e = OverflowError.

Definition overtime_error (rows : list row) (e : exn) : Prop :=
  missing rows e \/ off_cell rows e.

Definition rejected_or (x : exn) (rows : list row) (e : exn) : Prop :=
  rejected rows e \/ e = x.

(** The two handlers of a view raise nothing but [allowed]. *)
Definition both_raise_only {A} (allowed : exn -> Prop) (main server : result A) : Prop :=
  raises_only allowed main /\ raises_only allowed server.

(** The two handlers of a view return, and the same. *)
Definition both_answer {A} (main server : result A) : Prop :=
  exists res, main = Ok res /\ server = Ok res.

(** ** Malformed records at the HTTP boundary *)


(** ** The views of an empty selection *)

(** Both handlers of a view return [res]. *)
Definition both_return {A} (res : A) (main server : result A) : Prop :=
  main = Ok res /\ server = Ok res.

(** ** Routes and narrowing *)



(** [arg'] is [arg], or no constraint at all. *)
Definition relaxes (arg' arg : option string) : Prop := arg' = arg \/ arg' = None.

(** ** The query string

    [get_params] reads the four parameters off [urllib.parse.parse_qs],
    called with its defaults: fields are separated by [&], a field
    without [=] or with nothing after it is dropped, [+] stands for a
    space, and [%XX] escapes are decoded as UTF-8 with U+FFFD in place of
    what does not decode.  Text being UTF-8 here, a decoded character is
    kept as its bytes. *)

Module Url.

(** [s.split(sep)] for a one-character separator. *)
Fixpoint split (sep : ascii) (s : list ascii) : list (list ascii) :=
  match s with
  | [] => [[]]
  | c :: s' =>
      if Ascii.eqb c sep then [] :: split sep s'
      else match split sep s' with
           | piece :: pieces => (c :: piece) :: pieces
           | [] => [[c]]
           end
  end.

(** [s.split(sep, 1)]: the text before the first separator and, if there
    is one, the text after it. *)
Fixpoint split1 (sep : ascii) (s : list ascii) : list ascii * option (list ascii) :=
  match s with
  | [] => ([], None)
  | c :: s' =>
      if Ascii.eqb c sep then ([], Some s')
      else let '(before, after) := split1 sep s' in (c :: before, after)
  end.

(** [s.replace("+", " ")] *)
Definition plus_to_space (s : list ascii) : list ascii :=
  (fun c => if Ascii.eqb c "+" then " "%char else c) <$> s.

Definition hex_of (c : ascii) : option N :=
  let n := N_of_ascii c in
  if ((48 <=? n) && (n <=? 57))%N then Some (n - 48)%N
  else if ((65 <=? n) && (n <=? 70))%N then Some (n - 55)%N
  else if ((97 <=? n) && (n <=? 102))%N then Some (n - 87)%N
  else None.

(** One piece after a [%]: its two hex digits as a byte, or the piece
    with its [%] back when it does not start with two hex digits. *)
Definition unescape (item : list ascii) : list ascii :=
  match item with
  | h :: l :: rest =>
      match hex_of h, hex_of l with
      | Some x, Some y => ascii_of_N (16 * x + y) :: rest
      | _, _ => "%"%char :: item
      end
  | _ => "%"%char :: item
  end.

(** [unquote_to_bytes] *)
Definition unquote_to_bytes (s : list ascii) : list ascii :=
  match split "%" s with
  | first :: items => first ++ concat (unescape <$> items)
  | [] => s
  end.

Definition continuation (c : ascii) : bool :=
  let n := N_of_ascii c in ((128 <=? n) && (n <? 192))%N.

(** U+FFFD in UTF-8. *)
Definition replacement : list ascii :=
  [ascii_of_N 239; ascii_of_N 191; ascii_of_N 189].

(** [bytes.decode("utf-8", "replace")], the result kept in UTF-8: a
    well-formed sequence is copied, and each maximal ill-formed run of one
    to three bytes becomes one U+FFFD. *)
Fixpoint decode_replace (s : list ascii) : list ascii :=
  match s with
  | [] => []
  | c1 :: s1 =>
      let n1 := N_of_ascii c1 in
      if (n1 <? 128)%N then c1 :: decode_replace s1
      else if (n1 <? 194)%N then replacement ++ decode_replace s1
      else if (n1 <? 224)%N then
        match s1 with
        | [] => replacement
        | c2 :: s2 =>
            if continuation c2 then c1 :: c2 :: decode_replace s2
            else replacement ++ decode_replace s1
        end
      else if (n1 <? 240)%N then
        match s1 with
        | [] => replacement
        | c2 :: s2 =>
            let n2 := N_of_ascii c2 in
            if negb (continuation c2)
               || (if (n2 <? 160)%N then (n1 =? 224)%N else (n1 =? 237)%N)
            then replacement ++ decode_replace s1
            else
              match s2 with
              | [] => replacement
              | c3 :: s3 =>
                  if continuation c3 then c1 :: c2 :: c3 :: decode_replace s3
                  else replacement ++ decode_replace s2
              end
        end
      else if (n1 <? 245)%N then
        match s1 with
        | [] => replacement
        | c2 :: s2 =>
            let n2 := N_of_ascii c2 in
            if negb (continuation c2)
               || (if (n2 <? 144)%N then (n1 =? 240)%N else (n1 =? 244)%N)
            then replacement ++ decode_replace s1
            else
              match s2 with
              | [] => replacement
              | c3 :: s3 =>
                  if negb (continuation c3) then replacement ++ decode_replace s2
                  else
                    match s3 with
                    | [] => replacement
                    | c4 :: s4 =>
                        if continuation c4 then c1 :: c2 :: c3 :: c4 :: decode_replace s4
                        else replacement ++ decode_replace s3
                    end
              end
        end
      else replacement ++ decode_replace s1
  end.

Definition is_ascii (c : ascii) : bool := (N_of_ascii c <? 128)%N.

(** The leading run of bytes on which [p] holds, and the rest. *)
Fixpoint span (p : ascii -> bool) (s : list ascii) : list ascii * list ascii :=
  match s with
  | c :: s' => if p c then let '(run, rest) := span p s' in (c :: run, rest) else ([], s)
  | [] => ([], [])
  end.

(** The loop of [unquote]: a run of ASCII is unescaped and decoded, a run
    of anything else is copied.  [n] bounds the number of runs. *)
Fixpoint unquote_runs (n : nat) (s : list ascii) : list ascii :=
  match n, s with
  | _, [] => []
  | O, _ => []
  | S n', c :: _ =>
      if is_ascii c then
        let '(run, rest) := span is_ascii s in
        decode_replace (unquote_to_bytes run) ++ unquote_runs n' rest
      else
        let '(run, rest) := span (fun c => negb (is_ascii c)) s in
        run ++ unquote_runs n' rest
  end.

(** [unquote(s)] *)
Definition unquote (s : list ascii) : list ascii :=
  if bool_decide ("%"%char ∈ s) then unquote_runs (length s) s else s.

(** [parse_qsl(qs)]: the fields with a value, in order. *)
Definition parse_qsl (qs : list ascii) : list (string * string) :=
  omap (fun name_value =>
    match split1 "=" name_value with
    | (name, Some value) =>
        match value with
        | [] => None
        | _ => Some (string_of_list_ascii (unquote (plus_to_space name)),
                     string_of_list_ascii (unquote (plus_to_space value)))
        end
    | (_, None) => None
    end) (match qs with [] => [] | _ => split "&" qs end).

(** [parse_qs(qs)]: for each name, its values in order. *)
Definition parse_qs (qs : string) : gmap string (list string) :=
  foldl (fun parsed_result '(name, value) =>
           match parsed_result !! name with
           | Some values => <[name := (values ++ [value])%list]> parsed_result
           | None => <[name := [value]]> parsed_result
           end) ∅ (parse_qsl (list_ascii_of_string qs)).

(** [p.get(k, [None])[0]] *)
Definition first_value (p : gmap string (list string)) (k : string)
  : result (option string) :=
  match p !! k with
  | Some (v :: _) => Ok (Some v)
  | Some [] => Err IndexError
  | None => Ok None
  end.

Definition get_params (qs : string) : result params :=
  let p := parse_qs qs in
  g <- first_value p "gender" ;;
  j <- first_value p "job_role" ;;
  e <- first_value p "education" ;;
  d <- first_value p "department" ;;
  Ok {| gender := g; job_role := j; education := e; department := d |}.

End Url.

(** ** What get_params makes of a query *)

(** The values of the fields named [k], in order. *)
Definition field_values (k : string) (pairs : list (string * string)) : list string :=
  (filter (fun kv => kv.1 = k) pairs).*2.

(** The parameters read off the decoded fields: for each name, the value
    of the first field so named. *)
Definition params_of (pairs : list (string * string)) : params :=
  {| gender := head (field_values "gender" pairs);
     job_role := head (field_values "job_role" pairs);
     education := head (field_values "education" pairs);
     department := head (field_values "department" pairs) |}.

(** [do_GET] on the path and the query of the request: the parameters are
    read only for a view that takes them, inside the [try]. *)
Definition do_GET_query (path query : string) (data : list row) : Server.response :=
  match Server.ROUTES !! path with
  | Some (fn, needs_params) =>
      let result :=
        if needs_params : bool
        then p <- Url.get_params query ;; Server.call1 fn p data
        else Server.call0 fn data in
      match result with
      | Ok body => Server.Json200 body
      | Err e => Server.send_error e
      end
  | None =>
      if String.eqb path "/" || String.eqb path "" then Server.Static "/index.html"
      else Server.Static path
  end.

(** No parameter is the empty text. *)
Definition no_empty_value (p : params) : Prop :=
  gender p <> Some "" /\ job_role p <> Some "" /\
  education p <> Some "" /\ department p <> Some "".

(** Neither [&], [%] nor [+]: text that [parse_qs] takes as it is. *)
Definition plain (s : string) : Prop :=
  Forall (fun c => c <> "&"%char /\ c <> "%"%char /\ c <> "+"%char) (list_ascii_of_string s).

(** The first of two optional values that is there. *)
Definition first_of (x y : option string) : option string :=
  match x with
  | Some _ => x
  | None => y
  end.

(** Parameter by parameter, the one of [p] if it is there and else the
    one of [q]. *)
Definition first_params (p q : params) : params :=
  {| gender := first_of (gender p) (gender q);
     job_role := first_of (job_role p) (job_role q);
     education := first_of (education p) (education q);
     department := first_of (department p) (department q) |}.

(** Text without [=]. *)
Definition no_equals (s : string) : Prop :=
  Forall (fun c => c <> "="%char) (list_ascii_of_string s).

(** ** One population behind every chart *)

(** The charts drawn beside a KPI summary of [n] records.  Each premise
    is the view having returned. *)
Record same_population (n : Z) (dept jobrole : result RateSeries)
    (gender_view edu age_view : result CountSeries)
    (satisfaction_view overtime : result SplitSeries) (years_view : result YearsSeries)
    : Prop := {
  population_dept : returns dept (fun res => Py.sum (rs_total res) = n);
  population_jobrole : returns jobrole (fun res => Py.sum (rs_total res) = n);
  population_gender : returns gender_view (fun res => Py.sum (cs_total res) = n);
  population_edu : returns edu (fun res => Py.sum (cs_total res) = n);
  population_satisfaction :
    returns satisfaction_view
      (fun res => Py.sum (sp_stayed res) + Py.sum (sp_left res) = n);
  population_overtime :
    returns overtime (fun res => Py.sum (sp_stayed res) + Py.sum (sp_left res) = n);
  population_age : returns age_view (fun res => Py.sum (cs_total res) <= n);
  population_years : returns years_view (fun res => Py.sum (ys_total res) <= n);
}.

(** * Lemmas and theorems *)

(** ** Floats: the quotient of two ints is finite when it is at most 1 *)

Section FloatBounds.

Lemma digits2_pos_size p : digits2_pos p = Pos.size p.
Proof. induction p; simpl; congruence. Qed.

Lemma Zdigits2_nonneg m : 0 <= Zdigits2 m.
Proof. destruct m; simpl; lia. Qed.

Lemma Zdigits2_lt_pow m k : 0 <= m < 2 ^ k -> 0 <= k -> Zdigits2 m <= k.
Proof.
intros [Hm Hlt] Hk. destruct m as [|p|p]; simpl; try lia.
rewrite digits2_pos_size.
destruct (Z.le_gt_cases (Z.pos (Pos.size p)) k) as [|Hgt]; [done|].
exfalso. pose proof (Pos.size_le p) as Hs.
assert (2 ^ (k + 1) <= 2 ^ Z.pos (Pos.size p)) by (apply Z.pow_le_mono_r; lia).
rewrite Z.pow_add_r in * by lia.
assert (Z.pos (2 ^ Pos.size p) <= Z.pos p~0) by lia.
rewrite Pos2Z.inj_pow in *. lia.
Qed.

Lemma Zdigits2_gt m : 0 <= m -> m < 2 ^ Zdigits2 m.
Proof.
destruct m as [|p|p]; simpl; try lia. intros _.
rewrite digits2_pos_size. pose proof (Pos.size_gt p) as Hs.
rewrite <- Pos2Z.inj_pow. lia.
Qed.

Lemma shr_1_m mrs : 0 <= shr_m mrs -> shr_m (shr_1 mrs) = shr_m mrs / 2.
Proof.
destruct mrs as [m r s]. destruct m as [|[p|p|]|p]; cbn [shr_1 shr_m]; try lia; intros _.
- reflexivity.
- apply Z.div_unique with 1; lia.
- apply Z.div_unique with 0; lia.
- reflexivity.
Qed.

Lemma iter_shr_1_m p mrs :
0 <= shr_m mrs -> shr_m (SpecFloat.iter_pos shr_1 p mrs) = shr_m mrs / 2 ^ Z.pos p.
Proof.
revert mrs. induction p as [p IH|p IH|]; intros mrs Hm; simpl SpecFloat.iter_pos.
- assert (0 <= shr_m (shr_1 mrs)) by (rewrite shr_1_m by done; apply Z.div_pos; lia).
  assert (0 <= shr_m (SpecFloat.iter_pos shr_1 p (shr_1 mrs)))
    by (rewrite IH by done; apply Z.div_pos; lia).
  rewrite IH, IH, shr_1_m by done.
  rewrite !Z.div_div by lia. f_equal.
  replace (Z.pos p~1) with (1 + Z.pos p + Z.pos p) by lia.
  rewrite !Z.pow_add_r by lia. change (2 ^ 1) with 2. ring.
- assert (0 <= shr_m (SpecFloat.iter_pos shr_1 p mrs))
    by (rewrite IH by done; apply Z.div_pos; lia).
  rewrite IH, IH by done. rewrite Z.div_div by lia. f_equal.
  replace (Z.pos p~0) with (Z.pos p + Z.pos p) by lia.
  rewrite Z.pow_add_r by lia. reflexivity.
- rewrite shr_1_m by done. reflexivity.
Qed.

Lemma Zdigits2_div_pow m n :
0 <= m -> 0 < n -> Zdigits2 (m / 2 ^ n) <= Z.max 0 (Zdigits2 m - n).
Proof.
intros Hm Hn. pose proof (Zdigits2_gt m Hm) as Hd.
pose proof (Zdigits2_nonneg m).
destruct (Z.le_gt_cases n (Zdigits2 m)) as [Hle|Hgt].
- rewrite Z.max_r by lia. apply Zdigits2_lt_pow; [|lia]. split.
  + apply Z.div_pos; lia.
  + apply Z.div_lt_upper_bound; [lia|].
    rewrite <- Z.pow_add_r by lia. replace (n + (Zdigits2 m - n)) with (Zdigits2 m) by lia.
    done.
- rewrite Z.div_small; [simpl; lia|]. split; [done|].
  eapply Z.lt_le_trans; [exact Hd|]. apply Z.pow_le_mono_r; lia.
Qed.

Lemma shr_fexp_bounds m e l :
0 <= m ->
let r := shr_fexp 53 1024 m e l in
0 <= shr_m r.1 /\
Zdigits2 (shr_m r.1) + r.2 <= Z.max (Zdigits2 m + e) (-1074) /\
r.2 <= Z.max e (Z.max (Zdigits2 m + e - 53) (-1074)).
Proof.
intros Hm. unfold shr_fexp, shr, fexp, emin.
assert (Hrec : shr_m (shr_record_of_loc m l) = m) by (by destruct l as [|[]]).
set (d := Zdigits2 m) in *.
change (3 - 1024 - 53) with (-1074).
destruct (Z.max (d + e - 53) (-1074) - e) as [|n|n] eqn:Hn; cbn [fst snd];
  rewrite ?Hrec; try lia.
rewrite iter_shr_1_m by lia. rewrite Hrec. split; [apply Z.div_pos; lia|].
pose proof (Zdigits2_div_pow m (Z.pos n) Hm ltac:(lia)). fold d in H. lia.
Qed.

Lemma round_nearest_even_bounds m l :
0 <= m -> m <= round_nearest_even m l <= m + 1.
Proof. intros Hm. destruct l as [|[]]; simpl; try lia. destruct (Z.even m); lia. Qed.

Lemma Zdigits2_succ m k : 0 <= m -> m <= k + 1 -> 0 <= k -> Zdigits2 m <= Zdigits2 k + 1.
Proof.
intros Hm Hk H0. pose proof (Zdigits2_gt k H0). pose proof (Zdigits2_nonneg k).
apply Zdigits2_lt_pow; [|lia]. rewrite Z.pow_add_r by lia. lia.
Qed.

Lemma binary_round_aux_finite s mx ex lx :
0 <= mx -> Zdigits2 mx + ex <= 1023 -> ex <= 971 ->
is_finite (binary_round_aux 53 1024 s mx ex lx).
Proof.
intros Hm Hd He. unfold binary_round_aux.
pose proof (shr_fexp_bounds mx ex lx Hm) as H1. cbv zeta in H1.
destruct (shr_fexp 53 1024 mx ex lx) as [mrs1 e1]. cbn [fst snd] in H1.
destruct H1 as (Hm1 & Hd1 & He1).
pose proof (round_nearest_even_bounds (shr_m mrs1) (loc_of_shr_record mrs1) Hm1) as Hr.
set (m2 := round_nearest_even (shr_m mrs1) (loc_of_shr_record mrs1)) in *.
pose proof (shr_fexp_bounds m2 e1 loc_Exact ltac:(lia)) as H2. cbv zeta in H2.
pose proof (Zdigits2_succ m2 (shr_m mrs1) ltac:(lia) ltac:(lia) Hm1).
destruct (shr_fexp 53 1024 m2 e1 loc_Exact) as [mrs2 e2]. cbn [fst snd] in H2.
destruct H2 as (Hm2 & Hd2 & He2).
destruct (shr_m mrs2) as [|p|p]; [done| |lia].
change (1024 - 53) with 971.
destruct (Z.leb_spec e2 971); [done|lia].
Qed.

Lemma SFdiv_le_finite (a b : positive) :
(a <= b)%positive ->
is_finite (SFdiv 53 1024 (S754_finite false a 0) (S754_finite false b 0)).
Proof.
intros Hab. unfold SFdiv, SFdiv_core_binary.
set (e' := Z.min _ _).
assert (He' : e' <= 0) by (subst e'; lia).
set (m' := match 0 - 0 - e' with Z.pos _ => _ | 0 => _ | Z.neg _ => _ end).
assert (Hm' : 0 <= m' <= Z.pos a * 2 ^ (- e')).
{ subst m'. destruct (0 - 0 - e') as [|n|n] eqn:Hn; try lia.
  - replace (- e') with 0 by lia. simpl. lia.
  - rewrite Z.shiftl_mul_pow2 by lia. replace (- e') with (Z.pos n) by lia.
    split; [|lia]. apply Z.mul_nonneg_nonneg; [lia|]. apply Z.pow_nonneg; lia. }
pose proof (Z.div_eucl_eq m' (Z.pos b) ltac:(lia)) as Hdiv.
pose proof (Z.mod_pos_bound m' (Z.pos b) ltac:(lia)) as Hmod.
unfold Z.modulo in Hmod.
destruct (Z.div_eucl m' (Z.pos b)) as [q r].
assert (0 < 2 ^ (- e')) by (apply Z.pow_pos_nonneg; lia).
assert (Hq : 0 <= q <= 2 ^ (- e')) by nia.
apply binary_round_aux_finite; [lia| |lia].
assert (Zdigits2 q <= - e' + 1); [|lia].
apply Zdigits2_lt_pow; [|lia].
rewrite Z.pow_add_r by lia. lia.
Qed.

Lemma truediv_le_Ok a b : 0 <= a <= b -> 0 < b -> exists q, Py.truediv a b = Ok q.
Proof.
intros Ha Hb. unfold Py.truediv. destruct (Z.eqb_spec b 0); [lia|].
destruct b as [|pb|pb]; try lia. destruct a as [|pa|pa]; try lia.
- simpl. eauto.
- pose proof (SFdiv_le_finite pa pb ltac:(lia)) as Hf. cbn [Py.float_of_int].
  destruct (SFdiv _ _ _ _); simpl in Hf; try done; eauto.
Qed.

(** What [truediv] returns can be rounded to an int. *)
Lemma truediv_round a b q : Py.truediv a b = Ok q -> exists z, Py.round q = Ok z.
Proof.
unfold Py.truediv. destruct (b =? 0); [done|].
destruct (SFdiv _ _ _ _); intros [= <-]; simpl; eauto.
Qed.

End FloatBounds.

(** ** The error monad *)

Lemma bind_Ok {A B} (m : result A) (k : A -> result B) b :
  bind m k = Ok b <-> exists a, m = Ok a /\ k a = Ok b.
Proof.
  destruct m as [a|e]; simpl; split.
  - eauto.
  - by intros (a' & [= <-] & Hk).
  - done.
  - by intros (a' & [=] & _).
Qed.

Lemma bind_Err {A B} (m : result A) (k : A -> result B) e :
  bind m k = Err e <-> m = Err e \/ exists a, m = Ok a /\ k a = Err e.
Proof.
  destruct m as [a|e']; simpl; split.
  - intros Hk. right. by exists a.
  - by intros [[=]|(a' & [= <-] & Hk)].
  - intros [= ->]. by left.
  - intros [[= ->]|(a' & [=] & _)]. done.
Qed.

Lemma mapM_Ok {A B} (f : A -> result B) l ys :
  mapM f l = Ok ys <-> Forall2 (fun x y => f x = Ok y) l ys.
Proof.
  revert ys. induction l as [|x l IH]; intros ys; simpl.
  - split; [intros [= <-]; constructor | by inversion 1].
  - rewrite bind_Ok. split.
    + intros (y & Hy & H). apply bind_Ok in H as (ys' & Hys & [= <-]).
      constructor; [done|by apply IH].
    + inversion 1 as [|? y ? ys' Hy Hys]; subst. exists y. split; [done|].
      apply IH in Hys. by rewrite Hys.
Qed.

Lemma mapM_Ok_fmap {A B} (f : A -> result B) (g : A -> B) l ys :
  (forall x y, f x = Ok y -> y = g x) -> mapM f l = Ok ys -> ys = g <$> l.
Proof.
  intros Hg H. apply mapM_Ok in H. induction H as [|x y l ys Hxy _ IH]; [done|].
  simpl. by rewrite (Hg _ _ Hxy), IH.
Qed.

Lemma mapM_Ok_elem {A B} (f : A -> result B) l ys x :
  mapM f l = Ok ys -> x ∈ l -> exists y, f x = Ok y.
Proof.
  intros H Hx. apply mapM_Ok in H.
  apply list_elem_of_lookup in Hx as [i Hi].
  destruct (Forall2_lookup_l _ _ _ _ _ H Hi) as (y & _ & Hy). eauto.
Qed.

Lemma mapM_total {A B} (f : A -> result B) l :
  (forall x, x ∈ l -> exists y, f x = Ok y) -> exists ys, mapM f l = Ok ys.
Proof.
  induction l as [|x l IH]; intros Hf; simpl; [eauto|].
  destruct (Hf x) as [y ->]; [left|]. destruct IH as [ys ->].
  - intros; apply Hf; by right.
  - simpl. eauto.
Qed.

(** A filtered comprehension whose test computes the decidable [P]. *)
Lemma comp_Ok {A B} (c : A -> result bool) (f : A -> result B)
    (P : A -> Prop) `{HP : !forall x, Decision (P x)} l ys :
  (forall x b, c x = Ok b -> b = bool_decide (P x)) ->
  comp c f l = Ok ys -> mapM f (filter P l) = Ok ys.
Proof.
  intros Hc. revert ys. induction l as [|x l IH]; intros ys; simpl; [done|].
  intros H. apply bind_Ok in H as (b & Hb & H). apply Hc in Hb as ->.
  rewrite filter_cons. destruct (decide (P x)) as [Hx|Hx].
  - rewrite bool_decide_eq_true_2 in H by done. simpl.
    apply bind_Ok in H as (y & -> & H). simpl.
    apply bind_Ok in H as (ys' & H & [= <-]). by rewrite (IH _ H).
  - rewrite bool_decide_eq_false_2 in H by done. by apply IH.
Qed.


Lemma foldM_cons_Ok {A S} (f : S -> A -> result S) s x l s' :
  foldM f s (x :: l) = Ok s' <-> exists s1, f s x = Ok s1 /\ foldM f s1 l = Ok s'.
Proof. simpl. apply bind_Ok. Qed.

Lemma foldM_app {A S} (f : S -> A -> result S) s l1 l2 :
  foldM f s (l1 ++ l2)%list = (s1 <- foldM f s l1 ;; foldM f s1 l2).
Proof.
  revert s. induction l1 as [|x l1 IH]; intros s; simpl; [done|].
  destruct (f s x); simpl; [apply IH|done].
Qed.

(** A loop that ran to its end ran its body on every element. *)
Lemma foldM_Ok_elem {A S} (f : S -> A -> result S) s l s' x :
  foldM f s l = Ok s' -> x ∈ l -> exists s1 s2, f s1 x = Ok s2.
Proof.
  revert s. induction l as [|x' l IH]; intros s H Hx; [by apply elem_of_nil in Hx|].
  apply foldM_cons_Ok in H as (s1 & H1 & H).
  apply elem_of_cons in Hx as [->|Hx]; eauto.
Qed.

(** ** Reading a record *)

Lemma getitem_Ok {V} (d : gmap string V) k v : Py.getitem d k = Ok v <-> d !! k = Some v.
Proof. unfold Py.getitem. destruct (d !! k); split; congruence. Qed.

Lemma getitem_field (r : row) k v : Py.getitem r k = Ok v -> v = field k r.
Proof. intros H%getitem_Ok. unfold field. by rewrite H. Qed.

Lemma int_Ok s z : Py.int s = Ok z <-> Py.parse_int s = Some z.
Proof. unfold Py.int, Py.parse_int. destruct (Py.read_int s); split; congruence. Qed.

Lemma int_field_Ok k (r : row) z :
  int_field k r = Ok z <-> exists s, r !! k = Some s /\ Py.parse_int s = Some z.
Proof.
  unfold int_field. rewrite bind_Ok. setoid_rewrite getitem_Ok. by setoid_rewrite int_Ok.
Qed.

Lemma int_field_int_of k r z : int_field k r = Ok z -> z = int_of k r.
Proof. intros (s & Hs & Hz)%int_field_Ok. unfold int_of. rewrite Hs. simpl. by rewrite Hz. Qed.

Lemma attrition_is_Ok v r b :
  attrition_is v r = Ok b -> b = bool_decide (attrition v r).
Proof.
  unfold attrition_is. intros (a & Ha%getitem_Ok & [= <-])%bind_Ok.
  destruct (String.eqb_spec a v) as [->|Hne].
  - by rewrite bool_decide_eq_true_2.
  - rewrite bool_decide_eq_false_2; [done|]. unfold attrition. congruence.
Qed.

(** ** The row loader *)

Lemma excluded_Ok arg r k b :
  excluded arg r k = Ok b -> if b then ~ constraint arg k r else constraint arg k r.
Proof.
  unfold excluded, constraint. destruct arg as [a|]; [|by intros [= <-]].
  destruct (String.eqb_spec a "") as [->|Ha]; [intros [= <-]; by left|].
  intros (v & Hv%getitem_Ok & [= <-])%bind_Ok.
  destruct (String.eqb_spec v a) as [->|Hne]; simpl; [by right|].
  intros [?|?]; congruence.
Qed.

Lemma excluded_total arg r k : is_Some (r !! k) -> exists b, excluded arg r k = Ok b.
Proof.
  intros [v Hv]. unfold excluded. destruct arg as [a|]; [|eauto].
  destruct (String.eqb a ""); [eauto|].
  apply getitem_Ok in Hv. rewrite Hv. simpl. eauto.
Qed.

Section Loader.

Variables g j e d : option string.

Lemma load_step_Ok rows r rows' :
  load_step g j e d rows r = Ok rows' -> rows' = (rows ++ filter (matches g j e d) [r])%list.
Proof.
  unfold load_step. intros H.
  rewrite filter_cons, filter_nil. unfold matches.
  apply bind_Ok in H as ([] & H1%excluded_Ok & H);
    [injection H as <-; rewrite decide_False by tauto; by rewrite app_nil_r|].
  apply bind_Ok in H as ([] & H2%excluded_Ok & H);
    [injection H as <-; rewrite decide_False by tauto; by rewrite app_nil_r|].
  apply bind_Ok in H as ([] & H3%excluded_Ok & H);
    [injection H as <-; rewrite decide_False by tauto; by rewrite app_nil_r|].
  apply bind_Ok in H as ([] & H4%excluded_Ok & H);
    [injection H as <-; rewrite decide_False by tauto; by rewrite app_nil_r|].
  injection H as <-. by rewrite decide_True by tauto.
Qed.

Lemma load_step_total rows r : filter_columns r -> exists rows', load_step g j e d rows r = Ok rows'.
Proof.
  intros (Hg & Hj & He & Hd). unfold load_step.
  destruct (excluded_total g r _ Hg) as [[] ->]; simpl; [eauto|].
  destruct (excluded_total j r _ Hj) as [[] ->]; simpl; [eauto|].
  destruct (excluded_total e r _ He) as [[] ->]; simpl; [eauto|].
  destruct (excluded_total d r _ Hd) as [[] ->]; simpl; eauto.
Qed.

Lemma load_loop_Ok data acc rows :
  foldM (load_step g j e d) acc data = Ok rows -> rows = (acc ++ filter (matches g j e d) data)%list.
Proof.
  revert acc. induction data as [|r data IH]; intros acc H.
  - injection H as <-. by rewrite filter_nil, app_nil_r.
  - apply foldM_cons_Ok in H as (acc' & H1%load_step_Ok & H%IH). subst.
    rewrite <- app_assoc. f_equal. by rewrite (filter_app _ [r] data).
Qed.

Lemma load_loop_total data acc :
  Forall filter_columns data -> exists rows, foldM (load_step g j e d) acc data = Ok rows.
Proof.
  intros Hd. revert acc. induction Hd as [|r data Hr _ IH]; intros acc; simpl; [eauto|].
  destruct (load_step_total acc r Hr) as [acc' ->]. apply IH.
Qed.

Lemma main_load_data_Ok data rows :
  Main.load_data g j e d data = Ok rows -> rows = filter (matches g j e d) data.
Proof. intros H. by apply load_loop_Ok in H. Qed.

Lemma main_load_data_total data :
  Forall filter_columns data ->
  Main.load_data g j e d data = Ok (filter (matches g j e d) data).
Proof.
  intros Hd. destruct (load_loop_total data [] Hd) as [rows H].
  unfold Main.load_data. change (foldM (load_step g j e d) [] data = Ok (filter (matches g j e d) data)). rewrite H. f_equal. by apply load_loop_Ok in H.
Qed.

End Loader.

Lemma load_data_equiv g j e d data :
  Server.load_data g j e d data = Main.load_data g j e d data.
Proof. reflexivity. Qed.

Lemma load_equiv p data :
  Server.load p data = Main.load_data (gender p) (job_role p) (education p) (department p) data.
Proof. reflexivity. Qed.

(** C3 as stated fails: an empty text supplied as a constraint excludes
    nothing, although no record's field equals it. *)
Lemma C3_counterexample :
  filter_columns bob /\
  Main.load_data (Some "") None None None [bob] = Ok [bob] /\
  Server.load_data (Some "") None None None [bob] = Ok [bob] /\
  Main.load_data (Some "") None None None [bob]
    <> Ok (filter (matches_spec (Some "") None None None) [bob]).
Proof.
  assert (Hload : Main.load_data (Some "") None None None [bob] = Ok [bob])
    by reflexivity.
  assert (Hspec : filter (matches_spec (Some "") None None None) [bob] = [])
    by reflexivity.
  split; [repeat split; by eexists|].
  split; [exact Hload|]. split; [exact Hload|].
  rewrite Hload, Hspec. discriminate.
Qed.

(** C3, amended: the loader returns, in file order, exactly the records on
    which every constraint that is supplied and not the empty text holds
    by exact equality of text; a constraint that is absent or empty
    restricts nothing.  It returns them whenever every record has the four
    filter columns, and whenever it returns at all. *)
Theorem C3_load_data_filter (g j e d : option string) (data : list row) :
  (forall rows, Main.load_data g j e d data = Ok rows ->
     rows = filter (matches g j e d) data) /\
  (forall rows, Server.load_data g j e d data = Ok rows ->
     rows = filter (matches g j e d) data) /\
  (Forall filter_columns data ->
     Main.load_data g j e d data = Ok (filter (matches g j e d) data) /\
     Server.load_data g j e d data = Ok (filter (matches g j e d) data)).
Proof.
  split; [apply main_load_data_Ok|].
  split; [apply main_load_data_Ok|].
  intros Hd. split; by apply main_load_data_total.
Qed.

Lemma C3_witness :
  Forall filter_columns [alice; bob] /\
  Main.load_data (Some "Male") None (Some "") None [alice; bob] = Ok [bob] /\
  Server.load_data (Some "Male") None (Some "") None [alice; bob] = Ok [bob].
Proof.
  assert (Hc : Forall filter_columns [alice; bob]).
  { repeat constructor; by eexists. }
  split; [exact Hc|].
  exact (proj2 (proj2 (C3_load_data_filter (Some "Male") None (Some "") None [alice; bob])) Hc).
Defined.

(** ** Counters *)

Section CounterFacts.

Context `{Countable K}.

Implicit Types (c : gmap K Z) (l : list K) (k : K).

Lemma occ_nil k : occ k [] = 0.
Proof. reflexivity. Qed.

Lemma occ_cons k x l : occ k (x :: l) = (if decide (k = x) then 1 else 0) + occ k l.
Proof.
  unfold occ, Py.len. rewrite filter_cons. destruct (decide (k = x)); simpl; lia.
Qed.

Lemma occ_nonneg k l : 0 <= occ k l.
Proof. unfold occ, Py.len. lia. Qed.

Lemma occ_pos k l : 0 < occ k l <-> k ∈ l.
Proof.
  induction l as [|x l IH]; [rewrite occ_nil, elem_of_nil; lia|].
  rewrite occ_cons, elem_of_cons. pose proof (occ_nonneg k l).
  destruct (decide (k = x)); [intuition lia|]. rewrite <- IH. intuition lia.
Qed.

Lemma occ_filter_le k (P : K -> Prop) `{!forall x, Decision (P x)} l :
  occ k (filter P l) <= occ k l.
Proof.
  induction l as [|x l IH]; [done|]. rewrite filter_cons, (occ_cons k x l).
  destruct (decide (P x)); [rewrite occ_cons|]; destruct (decide (k = x)); lia.
Qed.

Lemma get_incr c k k' :
  Counter.get (Counter.incr k c) k' = (if decide (k' = k) then 1 else 0) + Counter.get c k'.
Proof.
  unfold Counter.incr, Counter.get at 1.
  destruct (decide (k' = k)) as [->|Hne].
  - rewrite lookup_insert_eq. simpl. lia.
  - rewrite lookup_insert_ne by done. reflexivity.
Qed.

Lemma get_foldl_incr l c k :
  Counter.get (foldl (fun c k => Counter.incr k c) c l) k = Counter.get c k + occ k l.
Proof.
  revert c. induction l as [|x l IH]; intros c; simpl; [rewrite occ_nil; lia|].
  rewrite IH, get_incr, occ_cons. lia.
Qed.

Lemma get_of_list l k : Counter.get (Counter.of_list l) k = occ k l.
Proof. unfold Counter.of_list. rewrite get_foldl_incr. unfold Counter.get. by rewrite lookup_empty. Qed.

Lemma lookup_foldl_incr l c k :
  is_Some (foldl (fun c k => Counter.incr k c) c l !! k) <-> is_Some (c !! k) \/ k ∈ l.
Proof.
  revert c. induction l as [|x l IH]; intros c; simpl.
  - rewrite elem_of_nil. tauto.
  - rewrite IH, elem_of_cons. unfold Counter.incr.
    destruct (decide (k = x)) as [->|Hne].
    + rewrite lookup_insert_eq. split; [auto|]. intros _. left. eauto.
    + rewrite lookup_insert_ne by done. tauto.
Qed.

Lemma elem_of_keys {V} (m : gmap K V) k : k ∈ Counter.keys m <-> is_Some (m !! k).
Proof.
  unfold Counter.keys. rewrite list_elem_of_fmap. split.
  - intros ([k' v] & -> & Hkv%elem_of_map_to_list). eauto.
  - intros [v Hv]. exists (k, v). split; [done|]. by apply elem_of_map_to_list.
Qed.

Lemma NoDup_keys {V} (m : gmap K V) : NoDup (Counter.keys m).
Proof. apply NoDup_fst_map_to_list. Qed.

Lemma elem_of_keys_of_list l k : k ∈ Counter.keys (Counter.of_list l) <-> k ∈ l.
Proof.
  rewrite elem_of_keys. unfold Counter.of_list. rewrite lookup_foldl_incr, lookup_empty.
  split; [intros [[? [=]]|]; done | auto].
Qed.

Lemma sum_cons x (l : list Z) : Py.sum (x :: l) = x + Py.sum l.
Proof. reflexivity. Qed.

(** Summing the occurrences over distinct labels counts the elements
    that carry one of the labels. *)
Lemma sum_indicator x (L : list K) :
  NoDup L ->
  Py.sum ((fun k => if decide (k = x) then 1 else 0) <$> L) = if decide (x ∈ L) then 1 else 0.
Proof.
  induction 1 as [|k L Hk _ IH]; [done|]. rewrite fmap_cons, sum_cons, IH.
  rewrite (decide_ext (x ∈ k :: L) (x = k \/ x ∈ L)) by apply elem_of_cons.
  repeat case_decide; try lia; exfalso; subst; intuition congruence.
Qed.

Lemma sum_fmap_add {A} (f g : A -> Z) (L : list A) :
  Py.sum ((fun a => f a + g a) <$> L) = Py.sum (f <$> L) + Py.sum (g <$> L).
Proof. induction L as [|a L IH]; [done|]. rewrite !fmap_cons, !sum_cons. lia. Qed.

Lemma sum_occ (L : list K) l :
  NoDup L -> Py.sum ((fun k => occ k l) <$> L) = Py.len (filter (.∈ L) l).
Proof.
  intros HL. induction l as [|x l IH].
  - rewrite filter_nil. induction L as [|k L IH]; [done|].
    inversion_clear HL. rewrite fmap_cons, sum_cons, IH by done. reflexivity.
  - rewrite (list_fmap_ext (fun k => occ k (x :: l))
               (fun k => (if decide (k = x) then 1 else 0) + occ k l) L)
      by (intros; apply occ_cons).
    rewrite sum_fmap_add, IH, sum_indicator by done.
    rewrite filter_cons. unfold Py.len.
    destruct (decide (x ∈ L)); simpl; lia.
Qed.

Lemma sum_occ_all (L : list K) l :
  NoDup L -> (forall x, x ∈ l -> x ∈ L) ->
  Py.sum ((fun k => occ k l) <$> L) = Py.len l.
Proof.
  intros HL Hl. rewrite sum_occ by done. f_equal.
  induction l as [|x l IH]; [done|]. rewrite filter_cons.
  rewrite decide_True by (apply Hl; left). f_equal. apply IH.
  intros; apply Hl; by right.
Qed.

End CounterFacts.

(** ** Counts by category: the shape the four category views share *)

Lemma main_dept_unfold g j e d data :
  Main.attrition_by_department g j e d data
  = (rows <- Main.load_data g j e d data ;; rate_view "Department" rows).
Proof. reflexivity. Qed.

Lemma main_jobrole_unfold g j e d data :
  Main.attrition_by_jobrole g j e d data
  = (rows <- Main.load_data g j e d data ;; rate_view "JobRole" rows).
Proof. reflexivity. Qed.

Lemma main_gender_unfold g j e d data :
  Main.gender_split g j e d data
  = (rows <- Main.load_data g j e d data ;; count_view "Gender" rows).
Proof. reflexivity. Qed.

Lemma main_edu_unfold g j e d data :
  Main.education_field g j e d data
  = (rows <- Main.load_data g j e d data ;; count_view "EducationField" rows).
Proof. reflexivity. Qed.

Lemma count_loop_Ok k rows c c' :
  foldM (count_step k) c rows = Ok c' ->
  c'.1 = foldl (fun c k => Counter.incr k c) c.1 (field k <$> rows) /\
  c'.2 = foldl (fun c k => Counter.incr k c) c.2 (field k <$> leavers rows).
Proof.
  revert c. induction rows as [|r rows IH]; intros c H.
  - by injection H as <-.
  - apply foldM_cons_Ok in H as (c1 & H1 & H%IH). destruct H as [-> ->].
    unfold count_step in H1.
    apply bind_Ok in H1 as (d0 & ->%getitem_field & H1).
    apply bind_Ok in H1 as (y & ->%attrition_is_Ok & H1).
    unfold leavers. rewrite filter_cons. destruct (decide (attrition "Yes" r)) as [Hy|Hy].
    + rewrite bool_decide_eq_true_2 in H1 by done.
      apply bind_Ok in H1 as (d' & ->%getitem_field & [= <-]). done.
    + rewrite bool_decide_eq_false_2 in H1 by done. by injection H1 as <-.
Qed.

Lemma count_loop_total k rows c :
  Forall (fun r => is_Some (r !! k) /\ is_Some (r !! "Attrition")) rows ->
  exists c', foldM (count_step k) c rows = Ok c'.
Proof.
  intros Hr. revert c. induction Hr as [|r rows [[v Hv] [a Ha]] _ IH]; intros c; simpl; [eauto|].
  unfold count_step at 1, attrition_is.
  apply getitem_Ok in Hv, Ha. rewrite Hv, Ha. simpl.
  destruct (String.eqb a "Yes"); simpl; apply IH.
Qed.

Lemma sorted_keys_spec (ks : list string) :
  let labels := Py.sorted (Counter.keys (Counter.of_list ks)) in
  Sorted String.le labels /\ NoDup labels /\ forall l, l ∈ labels <-> l ∈ ks.
Proof.
  intros labels. subst labels. unfold Py.sorted. split; [apply Sorted_merge_sort, _|].
  split.
  - rewrite merge_sort_Permutation. apply NoDup_keys.
  - intros l. rewrite merge_sort_Permutation. apply elem_of_keys_of_list.
Qed.

Lemma counted_of_list ks ys :
  let cnt := Counter.of_list ks in
  let labels := Py.sorted (Counter.keys cnt) in
  counted labels (Counter.get cnt <$> labels) (Counter.get (Counter.of_list ys) <$> labels) ks ys.
Proof.
  intros cnt labels. destruct (sorted_keys_spec ks) as (Hs & Hn & Hl).
  split; try done.
  - apply list_fmap_ext. intros _ l _. apply get_of_list.
  - apply list_fmap_ext. intros _ l _. apply get_of_list.
Qed.

Lemma counted_sums labels total attr ks ys :
  counted labels total attr ks ys -> (forall y, y ∈ ys -> y ∈ ks) ->
  Py.sum total = Py.len ks /\ Py.sum attr = Py.len ys.
Proof.
  intros [Hs Hn Hl -> ->] Hys. split; apply sum_occ_all; try done.
  - intros x. apply Hl.
  - intros x Hx. apply Hl. auto.
Qed.

Lemma rate_view_Ok k rows res :
  rate_view k rows = Ok res ->
  let ks := field k <$> rows in
  let ys := field k <$> leavers rows in
  counted (rs_labels res) (rs_total res) (rs_attrition res) ks ys /\
  mapM (fun l => rate_or_zero (occ l ys) (occ l ks)) (rs_labels res) = Ok (rs_rate res).
Proof.
  intros H ks ys. unfold rate_view in H.
  apply bind_Ok in H as ([t a] & [Ht Ha]%count_loop_Ok & H). cbn [fst snd] in *.
  apply bind_Ok in H as (rate & Hrate & [= <-]). cbn [rs_labels rs_total rs_attrition rs_rate].
  fold (Counter.of_list (field k <$> rows)) in Ht.
  fold (Counter.of_list (field k <$> leavers rows)) in Ha. subst t a.
  split; [apply counted_of_list|].
  rewrite <- Hrate. clear Hrate.
  induction (Py.sorted _) as [|l ls IH]; [done|]. simpl.
  by rewrite IH, !get_of_list.
Qed.

Lemma count_view_Ok k rows res :
  count_view k rows = Ok res ->
  counted (cs_labels res) (cs_total res) (cs_attrition res)
    (field k <$> rows) (field k <$> leavers rows).
Proof.
  unfold count_view. intros H.
  apply bind_Ok in H as (ks & Hks & H).
  apply bind_Ok in H as (ys & Hys & [= <-]).
  apply (comp_Ok _ _ (attrition "Yes")) in Hys; [|apply attrition_is_Ok].
  apply (mapM_Ok_fmap _ (field k)) in Hks, Hys; try (intros ? ?; apply getitem_field).
  subst ks ys. apply counted_of_list.
Qed.

Lemma leavers_fields k rows y : y ∈ field k <$> leavers rows -> y ∈ field k <$> rows.
Proof.
  rewrite !list_elem_of_fmap. intros (r & -> & Hr). exists r. split; [done|].
  unfold leavers in Hr. by apply list_elem_of_filter in Hr as [_ Hr].
Qed.

(** ** Counts in a list of buckets *)

Section Buckets.

Context {A : Type} (b : A -> option nat).

Lemma length_bump i l : length (bump i l) = length l.
Proof. destruct i; simpl; [apply length_alter|done]. Qed.

Lemma length_tally l rows : length (tally b l rows) = length l.
Proof.
  unfold tally. revert l. induction rows as [|r rows IH]; intros l; [done|].
  simpl. by rewrite IH, length_bump.
Qed.

Lemma lookup_bump i l j :
  bump i l !! j = (fun z => z + (if decide (i = Some j) then 1 else 0)) <$> l !! j.
Proof.
  destruct i as [i|]; simpl.
  - destruct (decide (Some i = Some j)) as [[= ->]|Hne].
    + rewrite list_lookup_alter_eq. destruct (l !! j); simpl; f_equal; lia.
    + rewrite list_lookup_alter_ne by congruence.
      destruct (l !! j); simpl; f_equal; lia.
  - destruct (l !! j); simpl; f_equal; lia.
Qed.

Lemma lookup_tally l rows j :
  tally b l rows !! j
  = (fun z => z + Py.len (filter (fun r => b r = Some j) rows)) <$> l !! j.
Proof.
  unfold tally. revert l. induction rows as [|r rows IH]; intros l.
  - simpl. destruct (l !! j); simpl; f_equal. unfold Py.len. simpl. lia.
  - simpl. rewrite IH, lookup_bump, filter_cons.
    destruct (l !! j); simpl; [|done]. f_equal. unfold Py.len.
    destruct (decide (b r = Some j)); simpl; lia.
Qed.

Lemma sum_alter_succ i (l : list Z) :
  (i < length l)%nat -> Py.sum (alter (Z.add 1) i l) = Py.sum l + 1.
Proof.
  revert i. induction l as [|x l IH]; intros i Hi; simpl in Hi; [lia|].
  destruct i as [|i].
  - simpl. lia.
  - change (alter (Z.add 1) (S i) (x :: l)) with (x :: alter (Z.add 1) i l).
    rewrite !sum_cons, (IH i) by lia. lia.
Qed.

(** Every record that has a bucket is counted once. *)
Lemma sum_tally l rows :
  (forall r i, r ∈ rows -> b r = Some i -> (i < length l)%nat) ->
  Py.sum (tally b l rows) = Py.sum l + Py.len (filter (fun r => is_Some (b r)) rows).
Proof.
  unfold tally. revert l. induction rows as [|r rows IH]; intros l Hb.
  - simpl. unfold Py.len. simpl. lia.
  - simpl. rewrite IH.
    2:{ intros r' i Hr' Hi. rewrite length_bump. apply (Hb r'); [by right|done]. }
    rewrite filter_cons. unfold Py.len.
    destruct (decide (is_Some (b r))) as [[i Hi]|Hn].
    + rewrite Hi. simpl. rewrite sum_alter_succ; [lia|].
      apply (Hb r); [left|done].
    + destruct (b r); [destruct Hn; eauto|]. simpl. lia.
Qed.

End Buckets.

Lemma list_incr_Ok l idx l' :
  Py.list_incr l idx = Ok l' ->
  let i := if idx <? 0 then idx + Py.len l else idx in
  0 <= i < Py.len l /\ l' = bump (Some (Z.to_nat i)) l.
Proof.
  intros H i. unfold Py.list_incr in H. fold i in H.
  destruct (Z.leb_spec 0 i), (Z.ltb_spec i (Py.len l)); simpl in H; try done.
  injection H as <-. split; [lia|done].
Qed.

Lemma list_incr_total l idx :
  - Py.len l <= idx < Py.len l -> exists l', Py.list_incr l idx = Ok l'.
Proof.
  intros Hi. unfold Py.list_incr.
  destruct (Z.ltb_spec idx 0);
    [destruct (Z.leb_spec 0 (idx + Py.len l)), (Z.ltb_spec (idx + Py.len l) (Py.len l))
    |destruct (Z.leb_spec 0 idx), (Z.ltb_spec idx (Py.len l))]; simpl; eauto; lia.
Qed.

(** ** The age histogram *)

Lemma main_age_unfold g j e d data :
  Main.age_distribution g j e d data
  = (rows <- Main.load_data g j e d data ;; age_view rows).
Proof. reflexivity. Qed.

Lemma age_bin_Some r i :
  age_bin r = Some i <->
  (i < 9)%nat /\ 18 + 5 * Z.of_nat i <= age r <= 22 + 5 * Z.of_nat i \/
  i = 9%nat /\ 63 <= age r.
Proof.
  unfold age_bin. generalize (age r). intros a.
  destruct (Z.leb_spec 0 (Z.min ((a - 18) / 5) 9)), (Z.ltb_spec (Z.min ((a - 18) / 5) 9) 10);
    simpl; (split; [intros [= <-]|intros Hi; try f_equal]);
    Z.div_mod_to_equations; lia.
Qed.

Lemma age_bin_is_Some r : is_Some (age_bin r) <-> 18 <= age r.
Proof.
  unfold age_bin. generalize (age r). intros a.
  destruct (Z.leb_spec 0 (Z.min ((a - 18) / 5) 9)), (Z.ltb_spec (Z.min ((a - 18) / 5) 9) 10);
    simpl; (split; [intros [i Hi]; try discriminate|intros Ha; try by eexists]);
    try (exfalso; Z.div_mod_to_equations; lia); Z.div_mod_to_equations; lia.
Qed.

Lemma age_bin_lt r i : age_bin r = Some i -> (i < 10)%nat.
Proof. rewrite age_bin_Some. lia. Qed.

Lemma age_loop_Ok rows c c' :
  foldM age_step c rows = Ok c' ->
  c'.1 = tally age_bin c.1 rows /\ c'.2 = tally leaver_bin c.2 rows.
Proof.
  revert c. induction rows as [|r rows IH]; intros c H.
  - by injection H as <-.
  - apply foldM_cons_Ok in H as (c1 & H1 & H%IH). destruct H as [-> ->].
    unfold age_step in H1.
    apply bind_Ok in H1 as (a & Ha & H1). apply int_field_int_of in Ha.
    simpl. unfold leaver_bin, age_bin, age. rewrite <- Ha. change (10 - 1) with 9 in H1.
    cbv zeta in H1 |- *.
    destruct ((0 <=? Z.min ((a - 18) / 5) 9) && (Z.min ((a - 18) / 5) 9 <? 10)) eqn:Hin.
    + apply andb_prop in Hin as [H0%Z.leb_le _].
      apply bind_Ok in H1 as (tc & Htc%list_incr_Ok & H1).
      apply bind_Ok in H1 as (y & ->%attrition_is_Ok & H1).
      destruct (Z.ltb_spec (Z.min ((a - 18) / 5) 9) 0); [lia|].
      destruct Htc as [_ ->].
      destruct (decide (attrition "Yes" r)).
      * rewrite bool_decide_eq_true_2 in H1 by done.
        apply bind_Ok in H1 as (ac & [_ ->]%list_incr_Ok & [= <-]).
        destruct (Z.ltb_spec (Z.min ((a - 18) / 5) 9) 0); [lia|]. done.
      * rewrite bool_decide_eq_false_2 in H1 by done. by injection H1 as <-.
    + injection H1 as <-. by destruct (decide (attrition "Yes" r)).
Qed.

Lemma age_view_unfold rows :
  age_view rows
  = (c <- foldM age_step (replicate 10 0, replicate 10 0) rows ;;
     Ok {| cs_labels := age_labels; cs_total := c.1; cs_attrition := c.2 |}).
Proof. reflexivity. Qed.

(** The age histogram, bin by bin. *)
Lemma age_view_Ok rows res :
  age_view rows = Ok res ->
  cs_labels res = age_labels /\
  cs_total res = tally age_bin (replicate 10 0) rows /\
  cs_attrition res = tally leaver_bin (replicate 10 0) rows.
Proof.
  rewrite age_view_unfold. intros H.
  apply bind_Ok in H as (c & Hc & [= <-]).
  apply age_loop_Ok in Hc as [-> ->]. done.
Qed.

(** ** Years at company *)

Lemma main_years_unfold g j e d data :
  Main.years_attrition g j e d data
  = (rows <- Main.load_data g j e d data ;; years_view rows).
Proof. reflexivity. Qed.

Lemma foldl_max_spec x (l : list Z) :
  foldl Z.max x l ∈ x :: l /\ forall y, y ∈ x :: l -> y <= foldl Z.max x l.
Proof.
  revert x. induction l as [|z l IH]; intros x; simpl.
  - split; [left|]. intros y ->%list_elem_of_singleton. lia.
  - destruct (IH (Z.max x z)) as [Hin Hub]. split.
    + apply elem_of_cons in Hin as [Hm|Hin]; [|by do 2 right].
      rewrite Hm. destruct (Z.max_spec x z) as [[_ ->]|[_ ->]]; [right|]; left.
    + intros y Hy. apply elem_of_cons in Hy as [->|Hy].
      * etrans; [|apply Hub; left]. lia.
      * apply elem_of_cons in Hy as [->|Hy].
        -- etrans; [|apply Hub; left]. lia.
        -- apply Hub. by right.
Qed.

Lemma foldr_max_spec x (l : list Z) :
  foldr Z.max x l ∈ x :: l /\ forall y, y ∈ x :: l -> y <= foldr Z.max x l.
Proof.
  induction l as [|z l [Hin Hub]]; simpl.
  - split; [left|]. intros y ->%list_elem_of_singleton. lia.
  - split.
    + destruct (Z.max_spec z (foldr Z.max x l)) as [[_ ->]|[_ ->]]; [|right; left].
      apply elem_of_cons in Hin as [->|Hin]; [left|by do 2 right].
    + intros y Hy. apply elem_of_cons in Hy as [->|Hy].
      * etrans; [apply Hub; left|]. lia.
      * apply elem_of_cons in Hy as [->|Hy]; [lia|].
        etrans; [apply Hub; by right|]. lia.
Qed.

Lemma max_keys_of_list (ys : list Z) :
  match Counter.keys (Counter.of_list ys) with
  | [] => Ok 0
  | ks => Py.max ks
  end = Ok (match ys with [] => 0 | y :: ys' => foldr Z.max y ys' end).
Proof.
  pose proof (elem_of_keys_of_list ys) as Hk.
  destruct (Counter.keys (Counter.of_list ys)) as [|k ks].
  - destruct ys as [|y ys]; [done|]. exfalso.
    eapply elem_of_nil, Hk. left.
  - destruct ys as [|y ys].
    + exfalso. eapply elem_of_nil, Hk. left.
    + simpl. f_equal. destruct (foldl_max_spec k ks) as [H1 H2].
      destruct (foldr_max_spec y ys) as [H3 H4].
      apply Z.le_antisymm.
      * apply H4, Hk, H1.
      * apply H2, Hk, H3.
Qed.

Lemma max_years_seen_ub rows r : r ∈ rows -> years r <= max_years_seen rows.
Proof.
  intros Hr. unfold max_years_seen.
  assert (Hy : years r ∈ years <$> rows) by (apply list_elem_of_fmap; eauto).
  destruct (years <$> rows) as [|y ys]; [by apply elem_of_nil in Hy|].
  by apply foldr_max_spec.
Qed.

Lemma years_view_unfold rows :
  years_view rows
  = (c <- foldM years_step (∅, ∅) rows ;;
     max_year <- match Counter.keys c.1 with
                 | [] => Ok 0
                 | ks => Py.max ks
                 end ;;
     rates <- mapM (fun y => rate_or_zero (Counter.get c.2 y) (Counter.get c.1 y))
                (Py.range 0 (Z.min (max_year + 1) 41)) ;;
     Ok {| ys_labels := Py.range 0 (Z.min (max_year + 1) 41);
           ys_attrition_rate := rates;
           ys_total := (Counter.get c.1) <$> Py.range 0 (Z.min (max_year + 1) 41) |}).
Proof. reflexivity. Qed.

Lemma years_loop_Ok rows c c' :
  foldM years_step c rows = Ok c' ->
  c'.1 = foldl (fun c k => Counter.incr k c) c.1 (years <$> rows) /\
  c'.2 = foldl (fun c k => Counter.incr k c) c.2 (years <$> leavers rows).
Proof.
  revert c. induction rows as [|r rows IH]; intros c H.
  - by injection H as <-.
  - apply foldM_cons_Ok in H as (c1 & H1 & H%IH). destruct H as [-> ->].
    unfold years_step in H1.
    apply bind_Ok in H1 as (y & ->%int_field_int_of & H1). cbv zeta in H1.
    apply bind_Ok in H1 as (a & ->%attrition_is_Ok & H1).
    unfold leavers. rewrite filter_cons. destruct (decide (attrition "Yes" r)) as [Hy|Hy].
    + rewrite bool_decide_eq_true_2 in H1 by done. by injection H1 as <-.
    + rewrite bool_decide_eq_false_2 in H1 by done. by injection H1 as <-.
Qed.

Lemma years_view_Ok rows res :
  years_view rows = Ok res ->
  let ys := years <$> rows in
  let ls := years <$> leavers rows in
  ys_labels res = seqZ 0 (Z.min (max_years_seen rows) 40 + 1) /\
  ys_total res = (fun y => occ y ys) <$> ys_labels res /\
  mapM (fun y => rate_or_zero (occ y ls) (occ y ys)) (ys_labels res)
    = Ok (ys_attrition_rate res).
Proof.
  intros H ys ls. rewrite years_view_unfold in H.
  apply bind_Ok in H as ([t a] & [Ht Ha]%years_loop_Ok & H). cbn [fst snd] in *.
  fold (Counter.of_list (years <$> rows)) in Ht.
  fold (Counter.of_list (years <$> leavers rows)) in Ha. subst t a.
  rewrite max_keys_of_list in H. simpl in H.
  fold (max_years_seen rows) in H.
  apply bind_Ok in H as (rates & Hrates & [= <-]).
  cbn [ys_labels ys_total ys_attrition_rate].
  unfold Py.range in *.
  replace (Z.min (max_years_seen rows + 1) 41 - 0)
    with (Z.min (max_years_seen rows) 40 + 1) in * by lia.
  split; [done|]. split.
  - apply list_fmap_ext. intros _ y _. apply get_of_list.
  - rewrite <- Hrates. clear Hrates.
    induction (seqZ _ _) as [|l ll IH]; [done|]. simpl.
    by rewrite IH, !get_of_list.
Qed.

Lemma len_filter_fmap {A B} (f : A -> B) (P : B -> Prop) `{!forall x, Decision (P x)} l :
  Py.len (filter P (f <$> l)) = Py.len (filter (fun x => P (f x)) l).
Proof.
  unfold Py.len. f_equal. induction l as [|x l IH]; [done|].
  rewrite fmap_cons, !filter_cons. destruct (decide (P (f x))); simpl; lia.
Qed.

Lemma filter_ext_elem {A} (P Q : A -> Prop) `{!forall x, Decision (P x)}
    `{!forall x, Decision (Q x)} (l : list A) :
  (forall x, x ∈ l -> P x <-> Q x) -> filter P l = filter Q l.
Proof.
  induction l as [|x l IH]; intros HPQ; [done|]. rewrite !filter_cons.
  rewrite (decide_ext (P x) (Q x)) by (apply HPQ; left).
  rewrite IH; [done|]. intros; apply HPQ; by right.
Qed.

(** The totals of the years view add up to the records whose year is in
    0..40. *)
Lemma years_view_sum rows res :
  years_view rows = Ok res ->
  Py.sum (ys_total res) = Py.len (filter (fun r => 0 <= years r <= 40) rows).
Proof.
  intros (Hl & Ht & _)%years_view_Ok. rewrite Ht, Hl.
  rewrite sum_occ by apply NoDup_seqZ. rewrite len_filter_fmap. f_equal.
  apply filter_ext_elem. intros r Hr. rewrite elem_of_seqZ.
  pose proof (max_years_seen_ub rows r Hr). lia.
Qed.

(** ** main.py and server.py, view by view *)

Section Equiv.

Variable p : params.

Variable data : list row.

Let g := gender p.

Let j := job_role p.

Let e := education p.

Let d := department p.

Lemma educations_equiv :
  merge_sort Server.pair_le Server.EDUCATION_MAP
  = merge_sort (fun x y => String.le x.1 y.1) Main.EDUCATION_MAP.
Proof. vm_compute. reflexivity. Qed.

Lemma filters_equiv : Server.api_filters data = Main.get_filters data.
Proof. unfold Server.api_filters, Main.get_filters. by rewrite educations_equiv. Qed.

Lemma leaver_ones_bounds rows ones :
  comp (attrition_is "Yes") (fun _ : row => Ok 1) rows = Ok ones ->
  0 <= Py.sum ones <= Py.len rows.
Proof.
  revert ones. induction rows as [|r rows IH]; intros ones H.
  - injection H as <-. done.
  - simpl in H. apply bind_Ok in H as ([] & _ & H).
    + simpl in H. apply bind_Ok in H as (ones' & H%IH & [= <-]).
      rewrite sum_cons. unfold Py.len in *. simpl length. lia.
    + apply IH in H. unfold Py.len in *. simpl length. lia.
Qed.

Lemma kpis_equiv : Server.api_kpis p data = Main.get_kpis g j e d data.
Proof.
  unfold Server.api_kpis, Main.get_kpis, Server.load. fold g j e d.
  rewrite load_data_equiv. destruct (Main.load_data g j e d data) as [rows|]; [|done].
  simpl. destruct (Z.eqb_spec (Py.len rows) 0) as [|Hne]; [done|].
  destruct (comp _ _ rows) as [ones|] eqn:Hones; [|done]. simpl.
  apply leaver_ones_bounds in Hones.
  destruct (truediv_le_Ok (Py.sum ones) (Py.len rows)) as [q ->]; [lia|lia|]. simpl.
  destruct (mapM (int_field "Age") rows) as [ages|]; [|done]. simpl.
  destruct (Py.truediv (Py.sum ages) _) as [age|]; [|done]. simpl.
  destruct (mapM (int_field "MonthlyIncome") rows) as [incomes|]; [|done]. simpl.
  destruct (Py.truediv (Py.sum incomes) _) as [income|] eqn:Hinc; [|done]. simpl.
  destruct (truediv_round _ _ _ Hinc) as [z ->]. simpl.
  destruct (mapM (int_field "JobSatisfaction") rows) as [sats|]; [|done]. simpl.
  destruct (Py.truediv (Py.sum sats) _) as [sat|]; done.
Qed.

Lemma dept_equiv :
  Server.api_attrition_dept p data = Main.attrition_by_department g j e d data.
Proof. reflexivity. Qed.

Lemma jobrole_equiv :
  Server.api_attrition_jobrole p data = Main.attrition_by_jobrole g j e d data.
Proof. reflexivity. Qed.

Lemma age_equiv : Server.api_age_dist p data = Main.age_distribution g j e d data.
Proof. reflexivity. Qed.

Lemma gender_equiv : Server.api_gender_split p data = Main.gender_split g j e d data.
Proof. reflexivity. Qed.

Lemma income_equiv : Server.api_income_role p data = Main.income_by_role g j e d data.
Proof. reflexivity. Qed.

Lemma satisfaction_equiv :
  Server.api_satisfaction p data = Main.satisfaction_distribution g j e d data.
Proof. reflexivity. Qed.

Lemma overtime_equiv : Server.api_overtime p data = Main.overtime_attrition g j e d data.
Proof. reflexivity. Qed.

Lemma edu_equiv : Server.api_edu_field p data = Main.education_field g j e d data.
Proof. reflexivity. Qed.

Lemma years_equiv :
  Server.api_years_attrition p data = Main.years_attrition g j e d data.
Proof. reflexivity. Qed.

Lemma worklife_equiv : Server.api_worklife p data = Main.worklife_balance g j e d data.
Proof. reflexivity. Qed.

End Equiv.

(** C10: on the same records and the same filter criteria, every handler of
    [server.py] returns what the handler of [main.py] for the same view
    returns, the raised exception included. *)
Theorem C10_views_equivalent (p : params) (data : list row) :
  let g := gender p in
  let j := job_role p in
  let e := education p in
  let d := department p in
  Server.api_filters data = Main.get_filters data /\
  Server.api_kpis p data = Main.get_kpis g j e d data /\
  Server.api_attrition_dept p data = Main.attrition_by_department g j e d data /\
  Server.api_attrition_jobrole p data = Main.attrition_by_jobrole g j e d data /\
  Server.api_age_dist p data = Main.age_distribution g j e d data /\
  Server.api_gender_split p data = Main.gender_split g j e d data /\
  Server.api_income_role p data = Main.income_by_role g j e d data /\
  Server.api_satisfaction p data = Main.satisfaction_distribution g j e d data /\
  Server.api_overtime p data = Main.overtime_attrition g j e d data /\
  Server.api_edu_field p data = Main.education_field g j e d data /\
  Server.api_years_attrition p data = Main.years_attrition g j e d data /\
  Server.api_worklife p data = Main.worklife_balance g j e d data.
Proof.
  intros g j e d.
  split; [apply filters_equiv|]. split; [apply kpis_equiv|].
  split; [apply dept_equiv|]. split; [apply jobrole_equiv|].
  split; [apply age_equiv|]. split; [apply gender_equiv|].
  split; [apply income_equiv|]. split; [apply satisfaction_equiv|].
  split; [apply overtime_equiv|]. split; [apply edu_equiv|].
  split; [apply years_equiv|]. apply worklife_equiv.
Qed.

(** ** Totals and attrition counts add up (C1) *)

Lemma returns_bind {A B} (m : result A) (k : A -> result B) a (P : B -> Prop) :
  m = Ok a -> returns (k a) P -> returns (bind m k) P.
Proof. intros -> Hk. exact Hk. Qed.

Lemma len_fmap {A B} (f : A -> B) (l : list A) : Py.len (f <$> l) = Py.len l.
Proof. unfold Py.len. by rewrite length_fmap. Qed.

Lemma rate_view_sums k rows :
  returns (rate_view k rows) (fun res => count_sums rows (rs_total res) (rs_attrition res)).
Proof.
  intros res [Hc _]%rate_view_Ok. unfold count_sums.
  rewrite <- (len_fmap (field k) rows), <- (len_fmap (field k) (leavers rows)).
  eapply counted_sums; [exact Hc|]. apply leavers_fields.
Qed.

Lemma count_view_sums k rows :
  returns (count_view k rows) (fun res => count_sums rows (cs_total res) (cs_attrition res)).
Proof.
  intros res Hc%count_view_Ok. unfold count_sums.
  rewrite <- (len_fmap (field k) rows), <- (len_fmap (field k) (leavers rows)).
  eapply counted_sums; [exact Hc|]. apply leavers_fields.
Qed.

Lemma leaver_bin_is_Some r : is_Some (leaver_bin r) <-> attrition "Yes" r /\ adult r.
Proof.
  unfold leaver_bin, adult. rewrite <- age_bin_is_Some.
  destruct (decide (attrition "Yes" r)); [tauto|].
  split; [by intros [? ?]|tauto].
Qed.

Lemma age_view_sums rows :
  returns (age_view rows)
    (fun res => count_sums (filter adult rows) (cs_total res) (cs_attrition res)).
Proof.
  intros res (_ & -> & ->)%age_view_Ok. split.
  - rewrite sum_tally.
    + change (Py.sum (replicate 10 0)) with 0. rewrite Z.add_0_l. f_equal.
      apply list_filter_iff. intros r. apply age_bin_is_Some.
    + intros r i _ Hi%age_bin_lt. rewrite length_replicate. lia.
  - rewrite sum_tally.
    + change (Py.sum (replicate 10 0)) with 0. rewrite Z.add_0_l. f_equal.
      unfold leavers. rewrite list_filter_filter.
      apply list_filter_iff. intros r. apply leaver_bin_is_Some.
    + intros r i _ Hi. rewrite length_replicate. unfold leaver_bin in Hi.
      destruct (decide (attrition "Yes" r)); [|done]. apply age_bin_lt in Hi. lia.
Qed.

Lemma occ_fmap {A} `{Countable B} (f : A -> B) (y : B) (l : list A) :
  occ y (f <$> l) = Py.len (filter (fun r => f r = y) l).
Proof.
  unfold occ. rewrite len_filter_fmap. f_equal. apply list_filter_iff. intros r. split; congruence.
Qed.

(** *** The (a)-shaped views return on complete records *)

Lemma comp_total {A B} (c : A -> result bool) (f : A -> result B) l :
  (forall x, x ∈ l -> exists b, c x = Ok b) ->
  (forall x, x ∈ l -> exists y, f x = Ok y) ->
  exists ys, comp c f l = Ok ys.
Proof.
  induction l as [|x l IH]; intros Hc Hf; simpl; [eauto|].
  destruct IH as [ys Hys]; [intros; apply Hc; by right|intros; apply Hf; by right|].
  destruct (Hc x) as [b ->]; [left|]. simpl. destruct b; [|eauto].
  destruct (Hf x) as [y ->]; [left|]. simpl. rewrite Hys. simpl. eauto.
Qed.

Lemma attrition_is_total v r : is_Some (r !! "Attrition") -> exists b, attrition_is v r = Ok b.
Proof.
  intros [a Ha%getitem_Ok]. unfold attrition_is. rewrite Ha. simpl. eauto.
Qed.

Lemma getitem_total (r : row) k : is_Some (r !! k) -> exists v, Py.getitem r k = Ok v.
Proof. intros [v Hv%getitem_Ok]. eauto. Qed.

Lemma occ_leavers_le {B} `{Countable B} (f : row -> B) (y : B) rows :
  0 <= occ y (f <$> leavers rows) <= occ y (f <$> rows).
Proof.
  split; [apply occ_nonneg|]. rewrite !occ_fmap. unfold leavers, Py.len.
  induction rows as [|r rows IH]; [done|]. rewrite !filter_cons.
  destruct (decide (attrition "Yes" r)); [rewrite filter_cons|];
    destruct (decide (f r = y)); simpl; lia.
Qed.

Lemma rate_or_zero_total a t : 0 <= a <= t -> exists v, rate_or_zero a t = Ok v.
Proof.
  intros Hat. unfold rate_or_zero. destruct (Z.eqb_spec t 0); [eauto|].
  destruct (truediv_le_Ok a t) as [q ->]; [lia..|]. simpl. eauto.
Qed.

Lemma rate_view_total k rows :
  Forall (fun r => is_Some (r !! k) /\ is_Some (r !! "Attrition")) rows ->
  exists res, rate_view k rows = Ok res.
Proof.
  intros Hr. destruct (count_loop_total k rows (∅, ∅) Hr) as [c Hc].
  unfold rate_view. rewrite Hc. simpl.
  apply count_loop_Ok in Hc as [Ht Ha]. simpl in Ht, Ha.
  fold (Counter.of_list (field k <$> rows)) in Ht.
  fold (Counter.of_list (field k <$> leavers rows)) in Ha. rewrite Ht, Ha.
  destruct (mapM_total
    (fun l => rate_or_zero (Counter.get (Counter.of_list (field k <$> leavers rows)) l)
                           (Counter.get (Counter.of_list (field k <$> rows)) l))
    (Py.sorted (Counter.keys (Counter.of_list (field k <$> rows))))) as [rate ->].
  - intros l _. rewrite !get_of_list. apply rate_or_zero_total, occ_leavers_le.
  - simpl. eauto.
Qed.

Lemma count_view_total k rows :
  Forall (fun r => is_Some (r !! k) /\ is_Some (r !! "Attrition")) rows ->
  exists res, count_view k rows = Ok res.
Proof.
  intros Hr. rewrite Forall_forall in Hr. unfold count_view.
  destruct (mapM_total (fun r => Py.getitem r k) rows) as [ks ->].
  { intros r Hin. apply getitem_total, Hr, Hin. }
  destruct (comp_total (attrition_is "Yes") (fun r => Py.getitem r k) rows) as [ys ->].
  { intros r Hin. apply attrition_is_total, Hr, Hin. }
  { intros r Hin. apply getitem_total, Hr, Hin. }
  simpl. eauto.
Qed.

Lemma age_loop_total rows c :
  length c.1 = 10%nat -> length c.2 = 10%nat ->
  Forall (fun r => numeric "Age" r /\ is_Some (r !! "Attrition")) rows ->
  exists c', foldM age_step c rows = Ok c'.
Proof.
  intros H1 H2 Hr. revert c H1 H2.
  induction Hr as [|r rows [[a Ha] Hat] _ IH]; intros c H1 H2; [simpl; eauto|].
  apply attrition_is_total with (v := "Yes") in Hat as [y Hy].
  cbn [foldM]. unfold age_step at 1. rewrite Ha. cbn [bind]. cbv zeta.
  destruct ((0 <=? Z.min ((a - 18) / 5) (10 - 1)) && (Z.min ((a - 18) / 5) (10 - 1) <? 10))
    eqn:Hin; [|apply IH; done].
  apply andb_prop in Hin as [H0%Z.leb_le H9%Z.ltb_lt].
  destruct (list_incr_total c.1 (Z.min ((a - 18) / 5) (10 - 1))) as [tc Htc];
    [unfold Py.len; lia|].
  destruct (list_incr_total c.2 (Z.min ((a - 18) / 5) (10 - 1))) as [ac Hac];
    [unfold Py.len; lia|].
  rewrite Htc. cbn [bind]. rewrite Hy. cbn [bind].
  pose proof (list_incr_Ok _ _ _ Htc) as [_ Etc].
  pose proof (list_incr_Ok _ _ _ Hac) as [_ Eac].
  destruct y.
  - rewrite Hac. cbn [bind]. apply IH; cbn [fst snd]; by rewrite ?Etc, ?Eac, length_bump.
  - apply IH; cbn [fst snd]; by rewrite ?Etc, ?length_bump.
Qed.

Lemma age_view_total rows :
  Forall (fun r => numeric "Age" r /\ is_Some (r !! "Attrition")) rows ->
  exists res, age_view rows = Ok res.
Proof.
  intros Hr.
  destruct (age_loop_total rows (replicate 10 0, replicate 10 0)) as [c Hc]; [done..|].
  rewrite age_view_unfold, Hc. cbn [bind]. eauto.
Qed.

Lemma years_loop_total rows c :
  Forall (fun r => numeric "YearsAtCompany" r /\ is_Some (r !! "Attrition")) rows ->
  exists c', foldM years_step c rows = Ok c'.
Proof.
  intros Hr. revert c. induction Hr as [|r rows [[y Hy] Hat] _ IH]; intros c; [simpl; eauto|].
  apply attrition_is_total with (v := "Yes") in Hat as [a Ha].
  cbn [foldM]. unfold years_step at 1. rewrite Hy. cbn [bind]. cbv zeta.
  rewrite Ha. cbn [bind]. destruct a; apply IH.
Qed.

Lemma years_view_total rows :
  Forall (fun r => numeric "YearsAtCompany" r /\ is_Some (r !! "Attrition")) rows ->
  exists res, years_view rows = Ok res.
Proof.
  intros Hr. destruct (years_loop_total rows (∅, ∅) Hr) as [c Hc].
  rewrite years_view_unfold, Hc. cbn [bind].
  apply years_loop_Ok in Hc as [Ht Ha]. simpl in Ht, Ha.
  fold (Counter.of_list (years <$> rows)) in Ht.
  fold (Counter.of_list (years <$> leavers rows)) in Ha. rewrite Ht, Ha.
  rewrite max_keys_of_list. cbn [bind]. cbv zeta.
  match goal with |- context [mapM ?f ?l] => destruct (mapM_total f l) as [rates ->] end.
  - intros l _. rewrite !get_of_list. apply rate_or_zero_total, occ_leavers_le.
  - simpl. eauto.
Qed.

(** The six views return on complete records. *)
Lemma a_views_total g j e d data rows :
  Main.load_data g j e d data = Ok rows -> Forall complete rows ->
  (exists res, Main.attrition_by_department g j e d data = Ok res) /\
  (exists res, Main.attrition_by_jobrole g j e d data = Ok res) /\
  (exists res, Main.gender_split g j e d data = Ok res) /\
  (exists res, Main.education_field g j e d data = Ok res) /\
  (exists res, Main.age_distribution g j e d data = Ok res) /\
  (exists res, Main.years_attrition g j e d data = Ok res).
Proof.
  intros Hload Hc.
  rewrite main_dept_unfold, main_jobrole_unfold, main_gender_unfold, main_edu_unfold,
    main_age_unfold, main_years_unfold, Hload. cbn [bind].
  split_and!;
    [apply rate_view_total|apply rate_view_total|apply count_view_total
    |apply count_view_total|apply age_view_total|apply years_view_total];
    (eapply Forall_impl; [exact Hc|]); unfold complete; tauto.
Qed.

(** C1 as stated fails on the two views with a bounded label range: a
    record aged 17 is in no age bin, and one with 55 years at the company
    is beyond the last year label. *)
Lemma C1_counterexample :
  Main.load_data None None None None [carol] = Ok [carol] /\
  (exists res, Main.age_distribution None None None None [carol] = Ok res /\
     Py.sum (cs_total res) <> Py.len [carol]) /\
  (exists res, Main.years_attrition None None None None [carol] = Ok res /\
     Py.sum (ys_total res) <> Py.len [carol]).
Proof.
  split; [reflexivity|]. split.
  - eexists. split; [reflexivity|]. by vm_compute.
  - eexists. split; [reflexivity|]. by vm_compute.
Qed.

(** C1, amended: with [rows] the filtered records, in the department,
    job-role, gender and education-field views the [total] series sums to
    the number of [rows] and the [attrition] series to the number of those
    with Attrition = "Yes"; in the age view the two sums count the records
    aged 18 or more; in the years view, which has no [attrition] series,
    [total] sums to the number of records with 0 to 40 years.  The six
    views return whenever the filtered records are complete. *)
Theorem C1_totals_add_up (p : params) (data rows : list row) :
  Server.load p data = Ok rows ->
  let g := gender p in
  let j := job_role p in
  let e := education p in
  let d := department p in
  returns (Main.attrition_by_department g j e d data)
    (fun res => count_sums rows (rs_total res) (rs_attrition res)) /\
  returns (Server.api_attrition_dept p data)
    (fun res => count_sums rows (rs_total res) (rs_attrition res)) /\
  returns (Main.attrition_by_jobrole g j e d data)
    (fun res => count_sums rows (rs_total res) (rs_attrition res)) /\
  returns (Server.api_attrition_jobrole p data)
    (fun res => count_sums rows (rs_total res) (rs_attrition res)) /\
  returns (Main.gender_split g j e d data)
    (fun res => count_sums rows (cs_total res) (cs_attrition res)) /\
  returns (Server.api_gender_split p data)
    (fun res => count_sums rows (cs_total res) (cs_attrition res)) /\
  returns (Main.education_field g j e d data)
    (fun res => count_sums rows (cs_total res) (cs_attrition res)) /\
  returns (Server.api_edu_field p data)
    (fun res => count_sums rows (cs_total res) (cs_attrition res)) /\
  returns (Main.age_distribution g j e d data)
    (fun res => count_sums (filter adult rows) (cs_total res) (cs_attrition res)) /\
  returns (Server.api_age_dist p data)
    (fun res => count_sums (filter adult rows) (cs_total res) (cs_attrition res)) /\
  returns (Main.years_attrition g j e d data)
    (fun res => Py.sum (ys_total res) = Py.len (filter (fun r => 0 <= years r <= 40) rows)) /\
  returns (Server.api_years_attrition p data)
    (fun res => Py.sum (ys_total res) = Py.len (filter (fun r => 0 <= years r <= 40) rows)) /\
  (Forall complete rows ->
   (exists res, Main.attrition_by_department g j e d data = Ok res /\
                Server.api_attrition_dept p data = Ok res) /\
   (exists res, Main.attrition_by_jobrole g j e d data = Ok res /\
                Server.api_attrition_jobrole p data = Ok res) /\
   (exists res, Main.gender_split g j e d data = Ok res /\
                Server.api_gender_split p data = Ok res) /\
   (exists res, Main.education_field g j e d data = Ok res /\
                Server.api_edu_field p data = Ok res) /\
   (exists res, Main.age_distribution g j e d data = Ok res /\
                Server.api_age_dist p data = Ok res) /\
   (exists res, Main.years_attrition g j e d data = Ok res /\
                Server.api_years_attrition p data = Ok res)).
Proof.
  intros Hload g j e d. rewrite load_equiv in Hload. fold g j e d in Hload.
  pose proof (a_views_total g j e d data rows Hload) as Htotal.
  rewrite dept_equiv, jobrole_equiv, gender_equiv, edu_equiv, age_equiv, years_equiv.
  fold g j e d.
  split_and!; [..|intros Hc; destruct (Htotal Hc) as
                    ([r1 H1] & [r2 H2] & [r3 H3] & [r4 H4] & [r5 H5] & [r6 H6]);
                  split_and!; eauto].
  all: rewrite ?main_dept_unfold, ?main_jobrole_unfold, ?main_gender_unfold,
         ?main_edu_unfold, ?main_age_unfold, ?main_years_unfold.
  all: (eapply returns_bind; [exact Hload|]);
    auto using rate_view_sums, count_view_sums, age_view_sums.
  all: intros res Hres; by apply years_view_sum.
Qed.

Lemma C1_witness :
  Server.load no_filter [alice; bob; carol] = Ok [alice; bob; carol] /\
  Forall complete [alice; bob; carol] /\
  (exists res, Server.api_age_dist no_filter [alice; bob; carol] = Ok res /\
     Py.sum (cs_total res) = 2 /\ Py.sum (cs_attrition res) = 1) /\
  (exists res, Main.attrition_by_department None None None None [alice; bob; carol] = Ok res /\
     Server.api_attrition_dept no_filter [alice; bob; carol] = Ok res).
Proof.
  assert (Hload : Server.load no_filter [alice; bob; carol] = Ok [alice; bob; carol])
    by reflexivity.
  assert (Hc : Forall complete [alice; bob; carol]).
  { repeat constructor; try (by eexists); eexists; reflexivity. }
  split; [exact Hload|]. split; [exact Hc|].
  pose proof (C1_totals_add_up no_filter [alice; bob; carol] [alice; bob; carol] Hload) as H.
  cbv zeta in H.
  destruct H as (_ & _ & _ & _ & _ & _ & _ & _ & _ & H & _ & _ & Ht).
  split.
  - eexists. split; [reflexivity|].
    destruct (H _ eq_refl) as [H1 H2]. split.
    + rewrite H1. reflexivity.
    + rewrite H2. reflexivity.
  - exact (proj1 (Ht Hc)).
Defined.

(** ** Rates (C2) *)


Lemma mapM_lookup {A B} (f : A -> result B) l ys i x :
  mapM f l = Ok ys -> l !! i = Some x -> exists y, ys !! i = Some y /\ f x = Ok y.
Proof.
  intros H%mapM_Ok Hx. destruct (Forall2_lookup_l _ _ _ _ _ H Hx) as (y & Hy & Hf). eauto.
Qed.



(** *** No handler divides by zero *)

Lemma no_zde_Ok {A} (a : A) : no_zde (Ok a).
Proof. done. Qed.

Lemma no_zde_bind {A B} (m : result A) (k : A -> result B) :
  no_zde m -> (forall a, m = Ok a -> no_zde (k a)) -> no_zde (bind m k).
Proof. destruct m as [a|e]; simpl; [auto|]. intros Hm _ [= ->]. by apply Hm. Qed.

Lemma no_zde_foldM {A S} (f : S -> A -> result S) s l :
  (forall s x, no_zde (f s x)) -> no_zde (foldM f s l).
Proof.
  intros Hf. revert s. induction l as [|x l IH]; intros s; simpl; [done|].
  apply no_zde_bind; auto.
Qed.



Lemma no_zde_getitem {V} (d : gmap string V) k : no_zde (Py.getitem d k).
Proof. unfold Py.getitem. by destruct (d !! k). Qed.

Lemma no_zde_int s : no_zde (Py.int s).
Proof. unfold Py.int. by destruct (Py.read_int s). Qed.

Lemma no_zde_int_field k r : no_zde (int_field k r).
Proof. apply no_zde_bind; [apply no_zde_getitem|]. intros; apply no_zde_int. Qed.

Lemma no_zde_attrition_is v r : no_zde (attrition_is v r).
Proof. apply no_zde_bind; [apply no_zde_getitem|]. done. Qed.

Lemma no_zde_excluded arg r k : no_zde (excluded arg r k).
Proof.
  unfold excluded. destruct arg as [a|]; [|done]. destruct (String.eqb a ""); [done|].
  apply no_zde_bind; [apply no_zde_getitem|]. done.
Qed.

Lemma no_zde_truediv a b : b <> 0 -> no_zde (Py.truediv a b).
Proof.
  intros Hb. unfold Py.truediv. destruct (Z.eqb_spec b 0); [done|].
  by destruct (SFdiv _ _ _ _).
Qed.

Lemma no_zde_rate_or_zero a t : no_zde (rate_or_zero a t).
Proof.
  unfold rate_or_zero. destruct (Z.eqb_spec t 0); [done|].
  apply no_zde_bind; [by apply no_zde_truediv|]. done.
Qed.

Lemma no_zde_load_data g j e d data : no_zde (Main.load_data g j e d data).
Proof.
  apply no_zde_foldM. intros rows r.
  repeat (apply no_zde_bind; [apply no_zde_excluded|]; intros [] _; [done|]). done.
Qed.

Create HintDb zde.

#[local] Hint Resolve no_zde_Ok no_zde_getitem no_zde_int no_zde_int_field
  no_zde_attrition_is no_zde_rate_or_zero no_zde_load_data : zde.



(** *** The KPI summary *)

Lemma main_kpis_unfold g j e d data :
  Main.get_kpis g j e d data = (rows <- Main.load_data g j e d data ;; kpi_view rows).
Proof. reflexivity. Qed.

Lemma leaver_ones rows ones :
  comp (attrition_is "Yes") (fun _ : row => Ok 1) rows = Ok ones ->
  Py.sum ones = Py.len (leavers rows).
Proof.
  intros H. apply (comp_Ok _ _ (attrition "Yes")) in H; [|apply attrition_is_Ok].
  apply (mapM_Ok_fmap _ (fun _ => 1)) in H; [|by intros ? ? [= <-]]. subst ones.
  fold (leavers rows). induction (leavers rows) as [|r l IH]; [done|].
  rewrite fmap_cons, sum_cons, IH. unfold Py.len. simpl length. lia.
Qed.

Lemma kpi_view_rate rows :
  returns (kpi_view rows)
    (fun res => kp_total res = Py.len rows /\
                rate_is (kp_attrition_rate res) (Py.len (leavers rows)) (kp_total res)).
Proof.
  intros res H. unfold kpi_view in H.
  destruct (Z.eqb_spec (Py.len rows) 0) as [H0|H0].
  - injection H as <-. simpl. split; [done|]. split; [done|]. intros []; done.
  - apply bind_Ok in H as (ones & Hones%leaver_ones & H).
    apply bind_Ok in H as (ages & _ & H). apply bind_Ok in H as (avg_age & _ & H).
    apply bind_Ok in H as (incomes & _ & H). apply bind_Ok in H as (avg_income & _ & H).
    apply bind_Ok in H as (sats & _ & H). apply bind_Ok in H as (avg_sat & _ & H).
    apply bind_Ok in H as (q & Hq & H). apply bind_Ok in H as (income & _ & [= <-]).
    simpl. split; [done|]. split; [done|]. intros _. exists q. by rewrite <- Hones.
Qed.





(** ** The KPI summary of an empty selection (C5) *)

(** C5: when no record passes the filter, the KPI summary is the all-zero
    object, returned by the emptiness test before any division is
    evaluated. *)
Theorem C5_kpis_empty (p : params) (data : list row) :
  Server.load p data = Ok [] ->
  Main.get_kpis (gender p) (job_role p) (education p) (department p) data = Ok zero_kpis /\
  Server.api_kpis p data = Ok zero_kpis.
Proof.
  intros Hload. rewrite kpis_equiv, main_kpis_unfold. rewrite load_equiv in Hload.
  rewrite Hload. done.
Qed.

Lemma C5_witness :
  Server.load {| gender := Some "Other"; job_role := None; education := None;
                 department := None |} [alice; bob] = Ok [] /\
  Server.api_kpis {| gender := Some "Other"; job_role := None; education := None;
                     department := None |} [alice; bob] = Ok zero_kpis.
Proof.
  assert (Hload : Server.load {| gender := Some "Other"; job_role := None;
             education := None; department := None |} [alice; bob] = Ok []) by reflexivity.
  split; [exact Hload|]. exact (proj2 (C5_kpis_empty _ _ Hload)).
Defined.

(** ** The labels of the years view (C6) *)

Lemma years_view_labels rows : returns (years_view rows) (year_labels rows).
Proof.
  intros res (Hl & _ & _)%years_view_Ok. unfold year_labels. rewrite Hl.
  split; [done|]. split.
  - intros y. rewrite elem_of_seqZ. lia.
  - apply Forall_forall. intros y Hy%elem_of_seqZ. lia.
Qed.

(** C6: the labels of the years view are the integers from 0 to
    [min(max_years_seen, 40)], in this order, where [max_years_seen] is
    the largest YearsAtCompany among the filtered records (0 when there is
    none); no label exceeds 40.  The view returns whenever every filtered
    record has an Attrition field and a numeric YearsAtCompany. *)
Theorem C6_year_labels (p : params) (data rows : list row) :
  Server.load p data = Ok rows ->
  returns (Main.years_attrition (gender p) (job_role p) (education p) (department p) data)
    (year_labels rows) /\
  returns (Server.api_years_attrition p data) (year_labels rows) /\
  (Forall (fun r => numeric "YearsAtCompany" r /\ is_Some (r !! "Attrition")) rows ->
   exists res,
     Main.years_attrition (gender p) (job_role p) (education p) (department p) data = Ok res /\
     Server.api_years_attrition p data = Ok res).
Proof.
  intros Hload. rewrite years_equiv, main_years_unfold. rewrite load_equiv in Hload.
  rewrite Hload. cbn [bind]. split; [apply years_view_labels|].
  split; [apply years_view_labels|].
  intros [res Hres]%years_view_total. eauto.
Qed.

Lemma C6_witness :
  Server.load no_filter [alice; bob; carol] = Ok [alice; bob; carol] /\
  years carol = 55 /\
  exists res, Server.api_years_attrition no_filter [alice; bob; carol] = Ok res /\
    ys_labels res = seqZ 0 41.
Proof.
  assert (Hload : Server.load no_filter [alice; bob; carol] = Ok [alice; bob; carol])
    by reflexivity.
  split; [exact Hload|]. split; [reflexivity|].
  destruct (C6_year_labels no_filter _ _ Hload) as (_ & H & Ht).
  destruct Ht as (res & _ & Hres).
  { repeat constructor; try (by eexists); eexists; reflexivity. }
  exists res. split; [exact Hres|]. exact (proj1 (H res Hres)).
Defined.

(** ** The age bins (C4) *)

Lemma lookup_replicate_zero (n i : nat) : (i < n)%nat -> replicate n 0 !! i = Some 0.
Proof. intros Hi. by apply lookup_replicate_2. Qed.

Lemma tally_age_bins rows : age_bins rows (tally age_bin (replicate 10 0) rows).
Proof.
  unfold age_bins. split; [by rewrite length_tally|]. split; [|split].
  - intros i Hi. rewrite lookup_tally, lookup_replicate_zero by lia. simpl. rewrite Z.add_0_l. do 2 f_equal.
    apply list_filter_iff. intros r. rewrite age_bin_Some. lia.
  - rewrite lookup_tally, lookup_replicate_zero by lia. simpl. rewrite Z.add_0_l. do 2 f_equal.
    apply list_filter_iff. intros r. rewrite age_bin_Some. lia.
  - rewrite sum_tally.
    + change (Py.sum (replicate 10 0)) with 0. rewrite Z.add_0_l. f_equal.
      apply list_filter_iff. intros r. apply age_bin_is_Some.
    + intros r i _ Hi%age_bin_lt. rewrite length_replicate. lia.
Qed.

Lemma tally_leaver_bin l rows :
  tally leaver_bin l rows = tally age_bin l (leavers rows).
Proof.
  revert l. induction rows as [|r rows IH]; intros l; [done|].
  unfold leavers. rewrite filter_cons. simpl. unfold leaver_bin at 2.
  destruct (decide (attrition "Yes" r)); simpl; apply IH.
Qed.

Lemma age_view_histogram rows : returns (age_view rows) (age_histogram rows).
Proof.
  intros res (Hl & Ht & Ha)%age_view_Ok. unfold age_histogram. rewrite Ht, Ha.
  split; [done|]. split.
  - apply tally_age_bins.
  - rewrite tally_leaver_bin. apply tally_age_bins.
Qed.

(** C4 as stated fails: the last bin is "63-67", and a record aged 61 is
    counted in the bin before it, "58-62". *)
Lemma C4_counterexample :
  age bob = 61 /\
  exists res, Main.age_distribution None None None None [bob] = Ok res /\
    last (cs_labels res) = Some "63-67" /\
    last (cs_labels res) <> Some "58-62" /\
    last (cs_total res) = Some 0 /\
    cs_total res !! 8%nat = Some 1.
Proof.
  split; [reflexivity|].
  destruct (Main.age_distribution None None None None [bob]) as [res|] eqn:Hres;
    [|by vm_compute in Hres].
  exists res. split; [reflexivity|].
  vm_compute in Hres. injection Hres as <-. simpl. repeat split. discriminate.
Qed.

(** C4, amended: the age view has ten bins of width 5 starting at 18,
    labelled "18-22" to "63-67".  A record aged 17 or less is in no bin
    and in no total; ages 18 to 62 fall in the bin of their five-year
    range (61 and 62 in "58-62", the ninth); every age from 63 on is
    counted in the last bin, "63-67", to which an index past the end is
    clamped.  The view returns whenever every filtered record has an
    Attrition field and a numeric Age. *)
Theorem C4_age_bins (p : params) (data rows : list row) :
  Server.load p data = Ok rows ->
  returns (Main.age_distribution (gender p) (job_role p) (education p) (department p) data)
    (age_histogram rows) /\
  returns (Server.api_age_dist p data) (age_histogram rows) /\
  (Forall (fun r => numeric "Age" r /\ is_Some (r !! "Attrition")) rows ->
   exists res,
     Main.age_distribution (gender p) (job_role p) (education p) (department p) data = Ok res /\
     Server.api_age_dist p data = Ok res).
Proof.
  intros Hload. rewrite age_equiv, main_age_unfold. rewrite load_equiv in Hload.
  rewrite Hload. cbn [bind]. split; [apply age_view_histogram|].
  split; [apply age_view_histogram|].
  intros [res Hres]%age_view_total. eauto.
Qed.

Lemma C4_witness :
  Server.load no_filter [alice; bob; carol; dave] = Ok [alice; bob; carol; dave] /\
  age carol = 17 /\ age bob = 61 /\ age dave = 70 /\
  exists res, Server.api_age_dist no_filter [alice; bob; carol; dave] = Ok res /\
    cs_labels res !! 9%nat = Some "63-67" /\
    cs_total res !! 8%nat = Some 1 /\
    cs_total res !! 9%nat = Some 1 /\
    Py.sum (cs_total res) = 3.
Proof.
  assert (Hload : Server.load no_filter [alice; bob; carol; dave]
                  = Ok [alice; bob; carol; dave]) by reflexivity.
  split; [exact Hload|]. do 3 (split; [reflexivity|]).
  destruct (C4_age_bins no_filter _ _ Hload) as (_ & H & Ht).
  destruct Ht as (res & _ & Hres).
  { repeat constructor; try (by eexists); eexists; reflexivity. }
  exists res. split; [exact Hres|].
  destruct (H res Hres) as (Hl & (_ & Hi & H9 & Hs) & _).
  split; [by rewrite Hl|]. split; [exact (Hi 8%nat ltac:(lia))|].
  split; [exact H9|exact Hs].
Defined.

(** ** The satisfaction buckets (C9) *)

Lemma main_satisfaction_unfold g j e d data :
  Main.satisfaction_distribution g j e d data
  = (rows <- Main.load_data g j e d data ;; satisfaction_view rows).
Proof. reflexivity. Qed.

Lemma list_incr_four l idx l' :
  length l = 4%nat -> Py.list_incr l idx = Ok l' ->
  let i := if idx <? 0 then idx + 4 else idx in
  0 <= i < 4 /\ l' = bump (Some (Z.to_nat i)) l.
Proof.
  intros Hl H. apply list_incr_Ok in H. unfold Py.len in H. rewrite Hl in H. exact H.
Qed.

Section SatLoop.

Lemma sat_step_Ok c r c' :
  length c.1 = 4%nat -> length c.2 = 4%nat -> sat_step c r = Ok c' ->
  c'.1 = bump (stayed_bucket r) c.1 /\ c'.2 = bump (left_bucket r) c.2.
Proof.
  intros H1 H2 H. unfold sat_step in H.
  apply bind_Ok in H as (s & Hs%int_field_int_of & H). cbv zeta in H.
  apply bind_Ok in H as (y & ->%attrition_is_Ok & H).
  unfold stayed_bucket, left_bucket, sat_bucket, satisfaction. rewrite <- Hs.
  destruct (decide (attrition "Yes" r)).
  - rewrite bool_decide_eq_true_2 in H by done.
    apply bind_Ok in H as (l' & [Hi ->]%(list_incr_four _ _ _ H2) & [= <-]).
    cbv zeta. destruct (Z.leb_spec 0 (if s - 1 <? 0 then s - 1 + 4 else s - 1)); [|lia].
    destruct (Z.ltb_spec (if s - 1 <? 0 then s - 1 + 4 else s - 1) 4); [|lia]. done.
  - rewrite bool_decide_eq_false_2 in H by done.
    apply bind_Ok in H as (l' & [Hi ->]%(list_incr_four _ _ _ H1) & [= <-]).
    cbv zeta. destruct (Z.leb_spec 0 (if s - 1 <? 0 then s - 1 + 4 else s - 1)); [|lia].
    destruct (Z.ltb_spec (if s - 1 <? 0 then s - 1 + 4 else s - 1) 4); [|lia]. done.
Qed.

Lemma sat_step_total c r :
  length c.1 = 4%nat -> length c.2 = 4%nat -> rated (-3) 4 [r] ->
  exists c', sat_step c r = Ok c'.
Proof.
  intros H1 H2 Hr. destruct (Hr r) as ([a Ha] & s & Hs & Hrange); [left|].
  unfold sat_step. rewrite Hs. simpl. unfold attrition_is.
  apply getitem_Ok in Ha. rewrite Ha. simpl.
  destruct (String.eqb a "Yes").
  - destruct (list_incr_total c.2 (s - 1)) as [l' ->]; [|simpl; eauto].
    unfold Py.len. rewrite H2. lia.
  - destruct (list_incr_total c.1 (s - 1)) as [l' ->]; [|simpl; eauto].
    unfold Py.len. rewrite H1. lia.
Qed.

Lemma sat_loop_Ok rows c c' :
  length c.1 = 4%nat -> length c.2 = 4%nat -> foldM sat_step c rows = Ok c' ->
  c'.1 = tally stayed_bucket c.1 rows /\ c'.2 = tally left_bucket c.2 rows.
Proof.
  revert c. induction rows as [|r rows IH]; intros c H1 H2 H.
  - by injection H as <-.
  - apply foldM_cons_Ok in H as (c1 & Hc1 & H).
    destruct (sat_step_Ok _ _ _ H1 H2 Hc1) as [E1 E2].
    apply IH in H; [|by rewrite ?E1, ?E2, length_bump..].
    destruct H as [-> ->]. simpl. by rewrite E1, E2.
Qed.

Lemma sat_loop_total rows c :
  length c.1 = 4%nat -> length c.2 = 4%nat -> rated (-3) 4 rows ->
  exists c', foldM sat_step c rows = Ok c'.
Proof.
  revert c. induction rows as [|r rows IH]; intros c H1 H2 Hr; simpl; [eauto|].
  destruct (sat_step_total c r H1 H2) as [c1 Hc1].
  { intros r' ->%list_elem_of_singleton. apply Hr. left. }
  rewrite Hc1. simpl.
  destruct (sat_step_Ok _ _ _ H1 H2 Hc1) as [E1 E2].
  apply IH; [by rewrite E1, length_bump|by rewrite E2, length_bump|].
  intros r' Hr'. apply Hr. by right.
Qed.

Lemma satisfaction_view_Ok rows res :
  satisfaction_view rows = Ok res ->
  sp_stayed res = tally stayed_bucket [0; 0; 0; 0] rows /\
  sp_left res = tally left_bucket [0; 0; 0; 0] rows.
Proof.
  intros H. unfold satisfaction_view in H.
  apply bind_Ok in H as (c & Hc & [= <-]). by apply sat_loop_Ok in Hc.
Qed.

Lemma satisfaction_view_total rows :
  rated (-3) 4 rows -> exists res, satisfaction_view rows = Ok res.
Proof.
  intros Hr. unfold satisfaction_view.
  destruct (sat_loop_total rows ([0; 0; 0; 0], [0; 0; 0; 0])) as [c Hc]; [done..|].
  change (exists res, (c <- foldM sat_step ([0; 0; 0; 0], [0; 0; 0; 0]) rows ;;
    Ok {| sp_labels := ["1 - Low"; "2 - Medium"; "3 - High"; "4 - Very High"];
          sp_stayed := c.1; sp_left := c.2 |}) = Ok res).
rewrite Hc. simpl. eauto.
Qed.

End SatLoop.

Lemma rated_range lo hi rows r :
  rated lo hi rows -> r ∈ rows -> lo <= satisfaction r <= hi.
Proof. intros Hr Hin. destruct (Hr r Hin) as (_ & s & ->%int_field_int_of & Hs). exact Hs. Qed.

Lemma rated_weaken lo hi lo' hi' rows :
  lo' <= lo -> hi <= hi' -> rated lo hi rows -> rated lo' hi' rows.
Proof.
  intros Hlo Hhi Hr r Hin. destruct (Hr r Hin) as (Ha & s & Hs & Hrange).
  split; [done|]. exists s. split; [done|lia].
Qed.

Lemma sat_bucket_valid r i :
  1 <= satisfaction r <= 4 -> sat_bucket r = Some i <-> satisfaction r = Z.of_nat i + 1.
Proof.
  unfold sat_bucket. generalize (satisfaction r). intros s Hs. cbv zeta.
  destruct (Z.ltb_spec (s - 1) 0); [lia|].
  destruct (Z.leb_spec 0 (s - 1)); [|lia]. destruct (Z.ltb_spec (s - 1) 4); [|lia].
  simpl. split; [intros [= <-]; lia|intros ->; f_equal; lia].
Qed.

Lemma sat_bucket_last r :
  0 <= satisfaction r <= 4 ->
  sat_bucket r = Some 3%nat <-> satisfaction r = 0 \/ satisfaction r = 4.
Proof.
  unfold sat_bucket. generalize (satisfaction r). intros s Hs. cbv zeta.
  destruct (Z.ltb_spec (s - 1) 0).
  - assert (s = 0) as -> by lia. simpl. split; [auto|done].
  - destruct (Z.leb_spec 0 (s - 1)); [|lia]. destruct (Z.ltb_spec (s - 1) 4); [|lia].
    simpl. split; [intros [= E]; lia|intros [->| ->]; [lia|done]].
Qed.

Lemma sat_bucket_is_Some r : -3 <= satisfaction r <= 4 -> is_Some (sat_bucket r).
Proof.
  unfold sat_bucket. generalize (satisfaction r). intros s Hs. cbv zeta.
  destruct (Z.ltb_spec (s - 1) 0);
    [destruct (Z.leb_spec 0 (s - 1 + 4)), (Z.ltb_spec (s - 1 + 4) 4)
    |destruct (Z.leb_spec 0 (s - 1)), (Z.ltb_spec (s - 1) 4)]; simpl; eauto; lia.
Qed.

Lemma sat_bucket_lt r i : sat_bucket r = Some i -> (i < 4)%nat.
Proof.
  unfold sat_bucket. cbv zeta.
  destruct ((0 <=? _) && (_ <? 4)) eqn:Hb; [|done]. intros [= <-].
  apply andb_prop in Hb as [H0%Z.leb_le H4%Z.ltb_lt]. lia.
Qed.

Lemma tally_stayed l rows : tally stayed_bucket l rows = tally sat_bucket l (stayers rows).
Proof.
  revert l. induction rows as [|r rows IH]; intros l; [done|].
  unfold stayers. rewrite filter_cons. simpl. unfold stayed_bucket at 2.
  destruct (decide (attrition "Yes" r)).
  - rewrite decide_False by tauto. apply IH.
  - rewrite decide_True by done. apply IH.
Qed.

Lemma tally_left l rows : tally left_bucket l rows = tally sat_bucket l (leavers rows).
Proof.
  revert l. induction rows as [|r rows IH]; intros l; [done|].
  unfold leavers. rewrite filter_cons. simpl. unfold left_bucket at 2.
  destruct (decide (attrition "Yes" r)); apply IH.
Qed.

Lemma len_stayers_leavers rows : Py.len (stayers rows) + Py.len (leavers rows) = Py.len rows.
Proof.
  unfold stayers, leavers, Py.len. induction rows as [|r rows IH]; [done|].
  rewrite !filter_cons. destruct (decide (attrition "Yes" r)).
  - rewrite decide_False by tauto. simpl. lia.
  - rewrite decide_True by done. simpl. lia.
Qed.

Lemma elem_of_stayers rows r : r ∈ stayers rows -> r ∈ rows.
Proof. unfold stayers. by intros [_ ?]%list_elem_of_filter. Qed.

Lemma elem_of_leavers rows r : r ∈ leavers rows -> r ∈ rows.
Proof. unfold leavers. by intros [_ ?]%list_elem_of_filter. Qed.

(** One group of records (the stayers, or the leavers) in four buckets. *)
Lemma tally_sat_bucket (P : row -> Prop) `{!forall r, Decision (P r)} (i : nat) group :
  (i < 4)%nat ->
  (forall r, r ∈ group -> sat_bucket r = Some i <-> P r) ->
  tally sat_bucket [0; 0; 0; 0] group !! i = Some (Py.len (filter P group)).
Proof.
  intros Hi HP. rewrite lookup_tally.
  replace ([0; 0; 0; 0] !! i) with (Some 0)
    by (by destruct i as [|[|[|[|]]]]; [..|lia]).
  simpl. rewrite Z.add_0_l. do 2 f_equal. by apply filter_ext_elem.
Qed.

Lemma sum_tally_sat group :
  (forall r, r ∈ group -> -3 <= satisfaction r <= 4) ->
  Py.sum (tally sat_bucket [0; 0; 0; 0] group) = Py.len group.
Proof.
  intros Hg. rewrite sum_tally.
  - change (Py.sum [0; 0; 0; 0]) with 0. rewrite Z.add_0_l. f_equal.
    rewrite (filter_ext_elem _ (fun _ => True)).
    + clear Hg. induction group as [|r group IH]; [done|].
      rewrite filter_cons. simpl. by rewrite IH.
    + intros r Hr. split; [done|]. intros _. by apply sat_bucket_is_Some, Hg.
  - intros r i _ Hb%sat_bucket_lt. simpl. lia.
Qed.

Lemma satisfaction_view_counts rows :
  rated 1 4 rows ->
  exists res, satisfaction_view rows = Ok res /\ satisfaction_counts rows res.
Proof.
  intros Hr.
  destruct (satisfaction_view_total rows) as [res Hres];
    [by apply (rated_weaken 1 4)|].
  exists res. split; [done|]. apply satisfaction_view_Ok in Hres as [Hs Hl].
  unfold satisfaction_counts. rewrite Hs, Hl, tally_stayed, tally_left.
  split; [by rewrite length_tally|]. split; [by rewrite length_tally|]. split.
  - intros i Hi. split; apply tally_sat_bucket; try done.
    + intros r Hin%elem_of_stayers. apply sat_bucket_valid. by eapply rated_range.
    + intros r Hin%elem_of_leavers. apply sat_bucket_valid. by eapply rated_range.
  - rewrite !sum_tally_sat, len_stayers_leavers; [done|..].
    + intros r Hin%elem_of_leavers. pose proof (rated_range _ _ _ _ Hr Hin). lia.
    + intros r Hin%elem_of_stayers. pose proof (rated_range _ _ _ _ Hr Hin). lia.
Qed.

Lemma satisfaction_view_zero rows :
  rated 0 4 rows ->
  exists res, satisfaction_view rows = Ok res /\ zero_in_last_bucket rows res.
Proof.
  intros Hr.
  destruct (satisfaction_view_total rows) as [res Hres];
    [by apply (rated_weaken 0 4)|].
  exists res. split; [done|]. apply satisfaction_view_Ok in Hres as [Hs Hl].
  unfold zero_in_last_bucket. rewrite Hs, Hl, tally_stayed, tally_left.
  split; [|split].
  - apply tally_sat_bucket; [lia|].
    intros r Hin%elem_of_stayers. apply sat_bucket_last. by eapply rated_range.
  - apply tally_sat_bucket; [lia|].
    intros r Hin%elem_of_leavers. apply sat_bucket_last. by eapply rated_range.
  - rewrite !sum_tally_sat, len_stayers_leavers; [done|..].
    + intros r Hin%elem_of_leavers. pose proof (rated_range _ _ _ _ Hr Hin). lia.
    + intros r Hin%elem_of_stayers. pose proof (rated_range _ _ _ _ Hr Hin). lia.
Qed.

(** C9: when every filtered record has a JobSatisfaction from 1 to 4, the
    index [int(JobSatisfaction) - 1] is valid, the view returns, each
    record is counted in the bucket of its rating in exactly one of
    [stayed] and [left], and the two series sum to the number of records.
    The index is not guarded: a rating of 0 does not fail either, and is
    counted in the last bucket. *)
Theorem C9_satisfaction_buckets (p : params) (data rows : list row) :
  Server.load p data = Ok rows ->
  (rated 1 4 rows ->
   exists res,
     Main.satisfaction_distribution (gender p) (job_role p) (education p) (department p) data
       = Ok res /\
     Server.api_satisfaction p data = Ok res /\
     satisfaction_counts rows res) /\
  (rated 0 4 rows ->
   exists res,
     Main.satisfaction_distribution (gender p) (job_role p) (education p) (department p) data
       = Ok res /\
     Server.api_satisfaction p data = Ok res /\
     zero_in_last_bucket rows res).
Proof.
  intros Hload. rewrite satisfaction_equiv, main_satisfaction_unfold.
  rewrite load_equiv in Hload. rewrite Hload. simpl bind. split.
  - intros (res & Hres & Hc)%satisfaction_view_counts. eauto.
  - intros (res & Hres & Hc)%satisfaction_view_zero. eauto.
Qed.

Lemma C9_witness :
  (Server.load no_filter [alice; bob] = Ok [alice; bob] /\
   rated 1 4 [alice; bob] /\
   exists res, Server.api_satisfaction no_filter [alice; bob] = Ok res /\
     sp_stayed res !! 1%nat = Some 1 /\ sp_left res !! 3%nat = Some 1 /\
     Py.sum (sp_stayed res) + Py.sum (sp_left res) = 2) /\
  (Server.load no_filter [alice; bob; carol] = Ok [alice; bob; carol] /\
   satisfaction carol = 0 /\
   rated 0 4 [alice; bob; carol] /\
   exists res, Server.api_satisfaction no_filter [alice; bob; carol] = Ok res /\
     sp_stayed res !! 3%nat = Some 1 /\ sp_left res !! 3%nat = Some 1).
Proof.
  assert (Hload2 : Server.load no_filter [alice; bob] = Ok [alice; bob]) by reflexivity.
  assert (Hload3 : Server.load no_filter [alice; bob; carol] = Ok [alice; bob; carol])
    by reflexivity.
  assert (Hr2 : rated 1 4 [alice; bob]).
  { intros r Hr. repeat (apply elem_of_cons in Hr as [->|Hr]);
      [split; [by eexists|exists 4; split; [reflexivity|lia]]
      |split; [by eexists|exists 2; split; [reflexivity|lia]]
      |by apply elem_of_nil in Hr]. }
  assert (Hr3 : rated 0 4 [alice; bob; carol]).
  { intros r Hr. repeat (apply elem_of_cons in Hr as [->|Hr]);
      [split; [by eexists|exists 4; split; [reflexivity|lia]]
      |split; [by eexists|exists 2; split; [reflexivity|lia]]
      |split; [by eexists|exists 0; split; [reflexivity|lia]]
      |by apply elem_of_nil in Hr]. }
  split.
  - split; [exact Hload2|]. split; [exact Hr2|].
    destruct (proj1 (C9_satisfaction_buckets no_filter _ _ Hload2) Hr2)
      as (res & _ & Hres & _ & _ & Hi & Hsum).
    exists res. split; [exact Hres|].
    split; [exact (proj1 (Hi 1%nat ltac:(lia)))|].
    split; [exact (proj2 (Hi 3%nat ltac:(lia)))|exact Hsum].
  - split; [exact Hload3|]. split; [reflexivity|]. split; [exact Hr3|].
    destruct (proj2 (C9_satisfaction_buckets no_filter _ _ Hload3) Hr3)
      as (res & _ & Hres & H3s & H3l & _).
    exists res. split; [exact Hres|]. split; [exact H3s|exact H3l].
Defined.

(** ** Sorted labels (C7) *)

Lemma Sorted_sorted l : Sorted String.le (Py.sorted l).
Proof. apply Sorted_merge_sort, _. Qed.










Lemma returns_bind_all {A B} (m : result A) (k : A -> result B) (P : B -> Prop) :
  (forall a, returns (k a) P) -> returns (bind m k) P.
Proof. intros Hk r (a & _ & Hr)%bind_Ok. by apply (Hk a). Qed.




(** ** Messages and their encoding *)
























(** ** Malformed records (C8) *)




Section Routes.

Variable p : params.

Variable data : list row.

Lemma do_GET_route {A} (path : string) (c : A -> Server.payload)
    (fn : params -> list row -> result A) :
  Server.ROUTES !! path = Some (Server.View1 (fun p => Server.lift c (fn p)), true) ->
  Server.do_GET path p data
  = match fn p data with
    | Ok r => Server.Json200 (c r)
    | Err e => Server.send_error e
    end.
Proof.
  intros Hr. unfold Server.do_GET. rewrite Hr. simpl. unfold Server.lift.
  by destruct (fn p data).
Qed.


End Routes.

Lemma send_error_500 e : Server.reason_encodes e = true -> Server.send_error e = Server.Error500 e.
Proof. unfold Server.send_error. by intros ->. Qed.








(** ** Floats: a mean of bounded ints is finite *)

Lemma SFdiv_bounded_finite (s : bool) (a b : positive) (k : Z) :
  0 <= k <= 1022 -> Z.pos a <= Z.pos b * 2 ^ k ->
  is_finite (SFdiv 53 1024 (S754_finite s a 0) (S754_finite false b 0)).
Proof.
  intros Hk Hab. unfold SFdiv, SFdiv_core_binary.
  set (e' := Z.min _ _).
  assert (He' : e' <= 0) by (subst e'; lia).
  set (m' := match 0 - 0 - e' with Z.pos _ => _ | 0 => _ | Z.neg _ => _ end).
  assert (Hm' : 0 <= m' <= Z.pos a * 2 ^ (- e')).
  { subst m'. destruct (0 - 0 - e') as [|n|n] eqn:Hn; try lia.
    - replace (- e') with 0 by lia. simpl. lia.
    - rewrite Z.shiftl_mul_pow2 by lia. replace (- e') with (Z.pos n) by lia.
      split; [|lia]. apply Z.mul_nonneg_nonneg; [lia|]. apply Z.pow_nonneg; lia. }
  pose proof (Z.div_eucl_eq m' (Z.pos b) ltac:(lia)) as Hdiv.
  pose proof (Z.mod_pos_bound m' (Z.pos b) ltac:(lia)) as Hmod.
  unfold Z.modulo in Hmod.
  destruct (Z.div_eucl m' (Z.pos b)) as [q r].
  assert (0 < 2 ^ (- e')) by (apply Z.pow_pos_nonneg; lia).
  assert (0 < 2 ^ k) by (apply Z.pow_pos_nonneg; lia).
  assert (Hq : 0 <= q <= 2 ^ k * 2 ^ (- e')).
  { split; [nia|].
    assert (Z.pos b * q <= Z.pos b * (2 ^ k * 2 ^ (- e'))); [|nia].
    transitivity (Z.pos a * 2 ^ (- e')); [lia|]. nia. }
  apply binary_round_aux_finite; [lia| |lia].
  assert (Zdigits2 q <= k - e' + 1); [|lia].
  apply Zdigits2_lt_pow; [|lia].
  replace (k - e' + 1) with (k + - e' + 1) by lia.
  rewrite !Z.pow_add_r by lia. lia.
Qed.

Lemma truediv_bounded_Ok a b :
  0 < b -> Z.abs a <= b * 2 ^ 1022 -> exists q, Py.truediv a b = Ok q.
Proof.
  intros Hb Ha. unfold Py.truediv. destruct (Z.eqb_spec b 0); [lia|].
  destruct b as [|pb|pb]; try lia. destruct a as [|pa|pa].
  - simpl. eauto.
  - pose proof (SFdiv_bounded_finite false pa pb 1022 ltac:(lia) ltac:(lia)) as Hf.
    cbn [Py.float_of_int]. destruct (SFdiv _ _ _ _); simpl in Hf; try done; eauto.
  - pose proof (SFdiv_bounded_finite true pa pb 1022 ltac:(lia) ltac:(lia)) as Hf.
    cbn [Py.float_of_int]. destruct (SFdiv _ _ _ _); simpl in Hf; try done; eauto.
Qed.

Lemma sum_abs_le (l : list Z) (M : Z) :
  Forall (fun x => Z.abs x <= M) l -> Z.abs (Py.sum l) <= Py.len l * M.
Proof.
  induction 1 as [|x l Hx _ IH]; [done|].
  rewrite sum_cons. unfold Py.len in *. simpl length. lia.
Qed.

(** The mean of a non-empty list of ints of magnitude at most [2 ^ 1022]
    is a finite float. *)
Lemma mean_Ok (l : list Z) :
  l <> [] -> Forall (fun x => Z.abs x <= 2 ^ 1022) l ->
  exists q, Py.truediv (Py.sum l) (Py.len l) = Ok q.
Proof.
  intros Hne Hl. apply truediv_bounded_Ok.
  - destruct l; [done|]. unfold Py.len. simpl length. lia.
  - by apply sum_abs_le.
Qed.

(** ** Distinct values of a column *)

Lemma sorted_Permutation (l : list string) : Py.sorted l ≡ₚ l.
Proof. apply merge_sort_Permutation. Qed.

Lemma elem_of_sorted (l : list string) x : x ∈ Py.sorted l <-> x ∈ l.
Proof. by rewrite sorted_Permutation. Qed.

Lemma NoDup_sorted (l : list string) : NoDup l -> NoDup (Py.sorted l).
Proof. by rewrite sorted_Permutation. Qed.

Lemma elem_of_fields k (rows : list row) l :
  Forall (fun r => is_Some (r !! k)) rows ->
  l ∈ field k <$> rows <-> exists r, r ∈ rows /\ r !! k = Some l.
Proof.
  intros Hall. rewrite list_elem_of_fmap. split.
  - intros (r & -> & Hr). exists r. split; [done|].
    rewrite Forall_forall in Hall. destruct (Hall r Hr) as [v Hv].
    unfold field. by rewrite Hv.
  - intros (r & Hr & Hl). exists r. split; [|done]. unfold field. by rewrite Hl.
Qed.

Lemma bounded_numeric k r : bounded k r -> numeric k r.
Proof. intros (z & Hz & _). by exists z. Qed.

Lemma bounded_int_of k r : bounded k r -> Z.abs (int_of k r) <= 2 ^ 1022.
Proof. intros (z & Hz & Hb). by rewrite <- (int_field_int_of _ _ _ Hz). Qed.

(** ** Average income by job role *)

Lemma main_income_unfold g j e d data :
  Main.income_by_role g j e d data
  = (rows <- Main.load_data g j e d data ;; income_view rows).
Proof. reflexivity. Qed.

Lemma incomes_of_cons l r rows :
  incomes_of l (r :: rows)
  = ((if decide (r !! "JobRole" = Some l) then [int_of "MonthlyIncome" r] else [])
     ++ incomes_of l rows)%list.
Proof.
  unfold incomes_of. rewrite filter_cons. by destruct (decide _).
Qed.

Lemma income_loop_Ok rows m m' :
  foldM income_step m rows = Ok m' ->
  Forall (fun r => is_Some (r !! "JobRole")) rows /\
  forall l,
    Counter.get_list m' l = (Counter.get_list m l ++ incomes_of l rows)%list /\
    (is_Some (m' !! l) <->
     is_Some (m !! l) \/ exists r, r ∈ rows /\ r !! "JobRole" = Some l).
Proof.
  revert m. induction rows as [|r rows IH]; intros m H.
  - injection H as <-. split; [done|]. intros l. split.
    + by rewrite app_nil_r.
    + split; [auto|]. intros [|(r & Hr%elem_of_nil & _)]; done.
  - apply foldM_cons_Ok in H as (m1 & Hstep & H).
    apply IH in H as [Hall H]. unfold income_step in Hstep.
    apply bind_Ok in Hstep as (k & Hk%getitem_Ok & Hstep).
    apply bind_Ok in Hstep as (v & Hv%int_field_int_of & [= <-]).
    split; [constructor; eauto|]. intros l. destruct (H l) as [Hget Hdom].
    rewrite Hget, Hdom, incomes_of_cons. clear Hget Hdom H.
    unfold Counter.append, Counter.get_list. rewrite Hk.
    destruct (decide (Some k = Some l)) as [[= ->]|Hne].
    + rewrite lookup_insert_eq. simpl. rewrite <- Hv, <- app_assoc. split; [done|].
      split; [|intros _; left; eauto].
      intros _. right. exists r. split; [left|done].
    + assert (k <> l) by congruence. rewrite lookup_insert_ne by done.
      split; [done|]. split.
      * intros [?|(r' & Hr' & Hl)]; [by left|]. right. exists r'. split; [by right|done].
      * intros [?|(r' & [->|Hr']%elem_of_cons & Hl)]; [by left|congruence|].
        right. eauto.
Qed.

Lemma income_view_Ok rows res : income_view rows = Ok res -> income_averages rows res.
Proof.
  intros H. unfold income_view in H.
  apply bind_Ok in H as (m & Hm & H). apply bind_Ok in H as (avg & Havg & [= <-]).
  apply income_loop_Ok in Hm as [Hall Hm]. cbn [is_labels is_avg_income].
  assert (Hlab : forall l, l ∈ Py.sorted (Counter.keys m)
                           <-> exists r, r ∈ rows /\ r !! "JobRole" = Some l).
  { intros l. rewrite elem_of_sorted, elem_of_keys. destruct (Hm l) as [_ ->].
    rewrite lookup_empty. split; [intros [[]%is_Some_None|]; done|auto]. }
  split; [|split].
  - split; [apply Sorted_sorted|]. split; [apply NoDup_sorted, NoDup_keys|done].
  - apply mapM_Ok in Havg. symmetry. by eapply Forall2_length.
  - intros i l Hi.
    assert (Hne : incomes_of l rows <> []).
    { destruct (proj1 (Hlab l)) as (r & Hr & Hl); [by eapply list_elem_of_lookup_2|].
      unfold incomes_of. intros Hnil%fmap_nil_inv.
      assert (r ∈ filter (fun r => r !! "JobRole" = Some l) rows)
        by (by apply list_elem_of_filter).
      rewrite Hnil in *. by apply elem_of_nil in H. }
    split; [done|].
    destruct (mapM_lookup _ _ _ _ _ Havg Hi) as (v & Hv & Hmean).
    destruct (Hm l) as [Hget _]. rewrite Hget in Hmean.
    unfold Counter.get_list in Hmean. rewrite lookup_empty in Hmean. simpl in Hmean.
    unfold int_mean_or_zero in Hmean.
    destruct (incomes_of l rows) as [|x xs] eqn:Hinc; [done|].
    apply bind_Ok in Hmean as (q & Hq & Hround). eauto.
Qed.

Lemma income_loop_total rows m :
  Forall (fun r => is_Some (r !! "JobRole") /\ numeric "MonthlyIncome" r) rows ->
  exists m', foldM income_step m rows = Ok m'.
Proof.
  intros Hall. revert m. induction Hall as [|r rows [[k Hk] [z Hz]] _ IH]; intros m.
  - by eexists.
  - cbn [foldM].
    assert (income_step m r = Ok (Counter.append k z m)) as ->.
    { unfold income_step. rewrite (proj2 (getitem_Ok r "JobRole" k) Hk). cbn [bind].
      by rewrite Hz. }
    apply IH.
Qed.

Lemma int_mean_total (l : list Z) :
  Forall (fun x => Z.abs x <= 2 ^ 1022) l -> exists v, int_mean_or_zero l = Ok v.
Proof.
  intros Hl. unfold int_mean_or_zero. destruct l as [|x xs] eqn:E; [by eexists|].
  rewrite <- E in *. destruct (mean_Ok l) as [q Hq]; [by subst|done|].
  rewrite Hq. simpl. by eapply truediv_round.
Qed.

Lemma income_view_total rows :
  Forall (fun r => is_Some (r !! "JobRole") /\ bounded "MonthlyIncome" r) rows ->
  exists res, income_view rows = Ok res.
Proof.
  intros Hall. unfold income_view.
  destruct (income_loop_total rows ∅) as [m Hm].
  { eapply Forall_impl; [exact Hall|]. intros r [? ?]. eauto using bounded_numeric. }
  rewrite Hm. simpl. apply income_loop_Ok in Hm as [_ Hm].
  destruct (mapM_total (fun l => int_mean_or_zero (Counter.get_list m l))
              (Py.sorted (Counter.keys m))) as [avg Havg].
  { intros l _. apply int_mean_total. destruct (Hm l) as [-> _].
    unfold Counter.get_list at 1. rewrite lookup_empty. simpl.
    unfold incomes_of. apply Forall_fmap, Forall_forall.
    intros r [_ Hr]%list_elem_of_filter. simpl.
    rewrite Forall_forall in Hall. destruct (Hall r Hr) as [_ Hb].
    by apply bounded_int_of. }
  rewrite Havg. simpl. by eexists.
Qed.

(** X1: in the income view the labels are the job roles present among the
    filtered records, ascending and without repetition, and the entry of a
    role is the mean of the MonthlyIncome of its records, rounded to the
    nearest int; the guard against a role without incomes never applies.
    The view returns whenever every filtered record has a JobRole and a
    MonthlyIncome that reads as an int of magnitude at most 2 ^ 1022. *)
Theorem X1_income_by_role (p : params) (data rows : list row) :
  Server.load p data = Ok rows ->
  returns (Main.income_by_role (gender p) (job_role p) (education p) (department p) data)
    (income_averages rows) /\
  returns (Server.api_income_role p data) (income_averages rows) /\
  (Forall (fun r => is_Some (r !! "JobRole") /\ bounded "MonthlyIncome" r) rows ->
   exists res,
     Main.income_by_role (gender p) (job_role p) (education p) (department p) data = Ok res /\
     Server.api_income_role p data = Ok res).
Proof.
  intros Hload. rewrite income_equiv, main_income_unfold. rewrite load_equiv in Hload.
  rewrite Hload. cbn [bind].
  split; [intros res; apply income_view_Ok|].
  split; [intros res; apply income_view_Ok|].
  intros [res Hres]%income_view_total. eauto.
Qed.

Lemma X1_witness :
  Server.load no_filter [alice; bob; carol] = Ok [alice; bob; carol] /\
  Forall (fun r => is_Some (r !! "JobRole") /\ bounded "MonthlyIncome" r)
    [alice; bob; carol] /\
  exists res, Server.api_income_role no_filter [alice; bob; carol] = Ok res /\
    is_labels res = ["Dev"; "Intern"; "Ops"] /\ is_avg_income res = [5993; 900; 2000].
Proof.
  assert (Hload : Server.load no_filter [alice; bob; carol] = Ok [alice; bob; carol])
    by reflexivity.
  assert (Hall : Forall (fun r => is_Some (r !! "JobRole") /\ bounded "MonthlyIncome" r)
            [alice; bob; carol]).
  { repeat apply Forall_cons_2; [| | |constructor];
      (split; [eexists; reflexivity|]); eexists; (split; [reflexivity|by vm_compute]). }
  split; [exact Hload|]. split; [exact Hall|].
  destruct (X1_income_by_role no_filter _ _ Hload) as (_ & _ & Ht).
  destruct (Ht Hall) as (res & _ & Hres).
  exists res. split; [exact Hres|].
  vm_compute in Hres. injection Hres as <-. split; reflexivity.
Defined.

(** ** The work-life averages *)

Lemma main_worklife_unfold g j e d data :
  Main.worklife_balance g j e d data
  = (rows <- Main.load_data g j e d data ;; worklife_view rows).
Proof. reflexivity. Qed.

Lemma mean_or_zero_Ok nd l x : mean_or_zero nd l = Ok x -> mean_is nd x l.
Proof.
  unfold mean_or_zero, mean_is. destruct l; [by intros [= <-]|].
  intros (q & Hq & [= <-])%bind_Ok. eauto.
Qed.

Lemma comp_int_field v m rows l :
  comp (attrition_is v) (int_field m) rows = Ok l -> l = metric_values v m rows.
Proof.
  intros H. apply (comp_Ok _ _ (attrition v)) in H; [|apply attrition_is_Ok].
  by apply (mapM_Ok_fmap _ (int_of m)) in H; [|apply int_field_int_of].
Qed.

Lemma worklife_loop_Ok rows ms c c' :
  foldM (worklife_step rows) c ms = Ok c' ->
  exists ss ls,
    c'.1 = (c.1 ++ ss)%list /\ c'.2 = (c.2 ++ ls)%list /\
    Forall2 (fun m s => mean_is 2 s (metric_values "No" m rows)) ms ss /\
    Forall2 (fun m l => mean_is 2 l (metric_values "Yes" m rows)) ms ls.
Proof.
  revert c. induction ms as [|m ms IH]; intros c H.
  - injection H as <-. exists [], []. by rewrite !app_nil_r.
  - apply foldM_cons_Ok in H as (c1 & Hstep & H).
    apply IH in H as (ss & ls & H1 & H2 & Hs & Hl).
    unfold worklife_step in Hstep.
    apply bind_Ok in Hstep as (stayed & ->%comp_int_field & Hstep).
    apply bind_Ok in Hstep as (left & ->%comp_int_field & Hstep).
    apply bind_Ok in Hstep as (s & Hms%mean_or_zero_Ok & Hstep).
    apply bind_Ok in Hstep as (l & Hml%mean_or_zero_Ok & [= <-]).
    exists (s :: ss), (l :: ls). cbn [fst snd] in *.
    rewrite H1, H2, <- !app_assoc. split_and!; try done; by constructor.
Qed.

Lemma worklife_view_Ok rows res : worklife_view rows = Ok res -> worklife_averages rows res.
Proof.
  intros H. unfold worklife_view in H. apply bind_Ok in H as (c & Hc & [= <-]).
  apply worklife_loop_Ok in Hc as (ss & ls & -> & -> & Hs & Hl). by split.
Qed.

Lemma comp_total_if {A B} (c : A -> result bool) (f : A -> result B) l :
  (forall x, x ∈ l -> exists b, c x = Ok b /\ (b = true -> exists y, f x = Ok y)) ->
  exists ys, comp c f l = Ok ys.
Proof.
  induction l as [|x l IH]; intros Hc; simpl; [eauto|].
  destruct IH as [ys Hys]; [intros; apply Hc; by right|].
  destruct (Hc x) as (b & -> & Hf); [left|]. simpl. destruct b; [|eauto].
  destruct Hf as [y ->]; [done|]. simpl. rewrite Hys. simpl. eauto.
Qed.

Lemma mean_or_zero_total nd (l : list Z) :
  Forall (fun x => Z.abs x <= 2 ^ 1022) l -> exists v, mean_or_zero nd l = Ok v.
Proof.
  intros Hl. unfold mean_or_zero. destruct l as [|x xs] eqn:E; [by eexists|].
  rewrite <- E in *. destruct (mean_Ok l) as [q Hq]; [by subst|done|].
  rewrite Hq. simpl. by eexists.
Qed.

Lemma comp_metric_total v m rows :
  (v = "Yes" \/ v = "No") -> m ∈ metrics -> Forall measured rows ->
  comp (attrition_is v) (int_field m) rows = Ok (metric_values v m rows) /\
  Forall (fun x => Z.abs x <= 2 ^ 1022) (metric_values v m rows).
Proof.
  intros Hv Hm Hall. rewrite Forall_forall in Hall. split.
  - destruct (comp_total_if (attrition_is v) (int_field m) rows) as [l Hl].
    + intros r Hr. destruct (Hall r Hr) as [Ha Hb].
      destruct (attrition_is_total v r Ha) as [b Hb']. exists b. split; [done|].
      intros ->. apply attrition_is_Ok in Hb'. symmetry in Hb'.
      apply bool_decide_eq_true in Hb'.
      assert (Forall (fun m => bounded m r) metrics) as Hf
        by (apply Hb; destruct Hv as [-> | ->]; auto).
      rewrite Forall_forall in Hf. by apply bounded_numeric, Hf.
    + by rewrite Hl, (comp_int_field _ _ _ _ Hl).
  - unfold metric_values. apply Forall_fmap, Forall_forall.
    intros r [Ha Hr]%list_elem_of_filter. simpl.
    destruct (Hall r Hr) as [_ Hb].
    assert (Forall (fun m => bounded m r) metrics) as Hf
      by (apply Hb; destruct Hv as [-> | ->]; auto).
    rewrite Forall_forall in Hf. by apply bounded_int_of, Hf.
Qed.

Lemma worklife_loop_total rows ms c :
  (forall m, m ∈ ms -> m ∈ metrics) -> Forall measured rows ->
  exists c', foldM (worklife_step rows) c ms = Ok c'.
Proof.
  intros Hms Hall. revert c. induction ms as [|m ms IH]; intros c; [by eexists|].
  cbn [foldM].
  assert (exists c1, worklife_step rows c m = Ok c1) as [c1 ->].
  { unfold worklife_step.
    destruct (comp_metric_total "No" m rows) as [-> Hno]; [auto|apply Hms; left|done|].
    destruct (comp_metric_total "Yes" m rows) as [-> Hyes]; [auto|apply Hms; left|done|].
    cbn [bind].
    destruct (mean_or_zero_total 2 _ Hno) as [s ->].
    destruct (mean_or_zero_total 2 _ Hyes) as [l ->]. cbn [bind]. by eexists. }
  cbn [bind]. apply IH. intros m' Hm'. apply Hms. by right.
Qed.

Lemma worklife_view_total rows :
  Forall measured rows -> exists res, worklife_view rows = Ok res.
Proof.
  intros Hall. unfold worklife_view.
  destruct (worklife_loop_total rows metrics ([], [])) as [c ->]; [done|done|].
  by eexists.
Qed.

(** X2: the work-life view returns five entries per series, in the order
    of its metrics: entry [i] of [stayed] is 0 when no filtered record
    has Attrition = "No" and otherwise the mean of metric [i] over those
    records rounded to 2 decimals, and [left] is the same over the records
    with Attrition = "Yes"; a record with any other Attrition value enters
    neither series.  The view returns whenever every filtered record has
    an Attrition field and, under "Yes" or "No", five metrics that read as
    ints of magnitude at most 2 ^ 1022. *)
Theorem X2_worklife_balance (p : params) (data rows : list row) :
  Server.load p data = Ok rows ->
  returns (Main.worklife_balance (gender p) (job_role p) (education p) (department p) data)
    (worklife_averages rows) /\
  returns (Server.api_worklife p data) (worklife_averages rows) /\
  (Forall measured rows ->
   exists res,
     Main.worklife_balance (gender p) (job_role p) (education p) (department p) data
       = Ok res /\
     Server.api_worklife p data = Ok res).
Proof.
  intros Hload. rewrite worklife_equiv, main_worklife_unfold. rewrite load_equiv in Hload.
  rewrite Hload. cbn [bind].
  split; [intros res; apply worklife_view_Ok|].
  split; [intros res; apply worklife_view_Ok|].
  intros [res Hres]%worklife_view_total. eauto.
Qed.

Lemma X2_witness :
  Server.load no_filter [alice; bob; erin] = Ok [alice; bob; erin] /\
  Forall measured [alice; bob; erin] /\
  exists res,
    Main.worklife_balance None None None None [alice; bob; erin] = Ok res /\
    Server.api_worklife no_filter [alice; bob; erin] = Ok res.
Proof.
  assert (Hload : Server.load no_filter [alice; bob; erin] = Ok [alice; bob; erin])
    by reflexivity.
  assert (Hall : Forall measured [alice; bob; erin]).
  { repeat apply Forall_cons_2; [| | |constructor].
    - split; [by eexists|]. intros _.
      repeat constructor; eexists; (split; [reflexivity|by vm_compute]).
    - split; [by eexists|]. intros _.
      repeat constructor; eexists; (split; [reflexivity|by vm_compute]).
    - split; [by eexists|]. intros [H|H]; by vm_compute in H. }
  split; [exact Hload|]. split; [exact Hall|].
  exact (proj2 (proj2 (X2_worklife_balance no_filter _ _ Hload)) Hall).
Defined.

(** ** The averages of the KPI summary *)

Lemma mapM_int_field k rows l : mapM (int_field k) rows = Ok l -> l = int_of k <$> rows.
Proof. apply mapM_Ok_fmap, int_field_int_of. Qed.

Lemma kpi_view_Ok rows res :
  rows <> [] -> kpi_view rows = Ok res -> kpi_averages rows res.
Proof.
  intros Hne H. unfold kpi_view in H.
  destruct (Z.eqb_spec (Py.len rows) 0) as [H0|H0].
  { destruct rows; [done|]. unfold Py.len in H0. simpl in H0. lia. }
  apply bind_Ok in H as (ones & _ & H).
  apply bind_Ok in H as (ages & ->%mapM_int_field & H).
  apply bind_Ok in H as (avg_age & Hage & H).
  apply bind_Ok in H as (incomes & ->%mapM_int_field & H).
  apply bind_Ok in H as (avg_income & Hinc & H).
  apply bind_Ok in H as (sats & ->%mapM_int_field & H).
  apply bind_Ok in H as (avg_sat & Hsat & H).
  apply bind_Ok in H as (q & _ & H). apply bind_Ok in H as (income & Hr & [= <-]).
  unfold kpi_averages, field_mean. simpl. eauto 10.
Qed.

Lemma mapM_int_field_total k rows :
  Forall (numeric k) rows -> mapM (int_field k) rows = Ok (int_of k <$> rows).
Proof.
  intros Hall. destruct (mapM_total (int_field k) rows) as [l Hl].
  - intros r Hr. rewrite Forall_forall in Hall. by apply Hall.
  - by rewrite Hl, (mapM_int_field _ _ _ Hl).
Qed.

Lemma field_mean_total k rows :
  rows <> [] -> Forall (bounded k) rows -> exists x, field_mean k rows x.
Proof.
  intros Hne Hall. unfold field_mean. rewrite <- (len_fmap (int_of k)).
  apply mean_Ok; [by destruct rows|].
  apply Forall_fmap. eapply Forall_impl; [exact Hall|]. intros r. apply bounded_int_of.
Qed.

Lemma kpi_view_total rows : Forall surveyed rows -> exists res, kpi_view rows = Ok res.
Proof.
  intros Hall. unfold kpi_view.
  destruct (Z.eqb_spec (Py.len rows) 0) as [H0|H0]; [by eexists|].
  assert (Hne : rows <> []) by (by intros ->).
  destruct (comp_total (attrition_is "Yes") (fun _ : row => Ok 1) rows) as [ones Hones].
  { intros r Hr. rewrite Forall_forall in Hall. apply attrition_is_total, Hall, Hr. }
  { intros; by eexists. }
  rewrite Hones. cbn [bind].
  rewrite (mapM_int_field_total "Age")
    by (eapply Forall_impl; [exact Hall|]; intros r (_ & ? & _); by apply bounded_numeric).
  cbn [bind].
  destruct (field_mean_total "Age" rows Hne) as [xa Ha];
    [eapply Forall_impl; [exact Hall|]; by intros r (_ & ? & _)|].
  unfold field_mean in Ha. rewrite Ha. cbn [bind].
  rewrite (mapM_int_field_total "MonthlyIncome")
    by (eapply Forall_impl; [exact Hall|]; intros r (_ & _ & ? & _); by apply bounded_numeric).
  cbn [bind].
  destruct (field_mean_total "MonthlyIncome" rows Hne) as [xi Hi];
    [eapply Forall_impl; [exact Hall|]; by intros r (_ & _ & ? & _)|].
  unfold field_mean in Hi. rewrite Hi. cbn [bind].
  rewrite (mapM_int_field_total "JobSatisfaction")
    by (eapply Forall_impl; [exact Hall|]; intros r (_ & _ & _ & ?); by apply bounded_numeric).
  cbn [bind].
  destruct (field_mean_total "JobSatisfaction" rows Hne) as [xs Hs];
    [eapply Forall_impl; [exact Hall|]; by intros r (_ & _ & _ & ?)|].
  unfold field_mean in Hs. rewrite Hs. cbn [bind].
  apply leaver_ones_bounds in Hones.
  destruct (truediv_le_Ok (Py.sum ones) (Py.len rows)) as [q ->]; [lia|lia|]. cbn [bind].
  destruct (truediv_round _ _ _ Hi) as [z ->]. cbn [bind]. by eexists.
Qed.

(** X3: when some record passes the filter, the KPI summary holds the
    number of filtered records, the mean Age rounded to 1 decimal, the
    mean MonthlyIncome rounded to the nearest int and the mean
    JobSatisfaction rounded to 2 decimals, each mean taken over all the
    filtered records.  The summary is returned whenever every filtered
    record has an Attrition field and the three fields read as ints of
    magnitude at most 2 ^ 1022. *)
Theorem X3_kpi_averages (p : params) (data rows : list row) :
  Server.load p data = Ok rows -> rows <> [] ->
  returns (Main.get_kpis (gender p) (job_role p) (education p) (department p) data)
    (kpi_averages rows) /\
  returns (Server.api_kpis p data) (kpi_averages rows) /\
  (Forall surveyed rows ->
   exists res,
     Main.get_kpis (gender p) (job_role p) (education p) (department p) data = Ok res /\
     Server.api_kpis p data = Ok res).
Proof.
  intros Hload Hne. rewrite kpis_equiv, main_kpis_unfold. rewrite load_equiv in Hload.
  rewrite Hload. cbn [bind].
  split; [intros res; by apply kpi_view_Ok|].
  split; [intros res; by apply kpi_view_Ok|].
  intros [res Hres]%kpi_view_total. eauto.
Qed.

Lemma X3_witness :
  Server.load no_filter [alice; bob] = Ok [alice; bob] /\
  [alice; bob] <> [] /\
  Forall surveyed [alice; bob] /\
  exists res, Server.api_kpis no_filter [alice; bob] = Ok res /\
    kp_total res = 2 /\ kp_avg_income res = 3996.
Proof.
  assert (Hload : Server.load no_filter [alice; bob] = Ok [alice; bob]) by reflexivity.
  assert (Hne : [alice; bob] <> []) by discriminate.
  assert (Hall : Forall surveyed [alice; bob]).
  { repeat apply Forall_cons_2; [| |constructor];
      (split; [by eexists|]); split_and!; eexists; (split; [reflexivity|by vm_compute]). }
  split; [exact Hload|]. split; [exact Hne|]. split; [exact Hall|].
  destruct (X3_kpi_averages no_filter _ _ Hload Hne) as (_ & _ & Ht).
  destruct (Ht Hall) as (res & _ & Hres).
  exists res. split; [exact Hres|].
  vm_compute in Hres. injection Hres as <-. split; reflexivity.
Defined.

(** ** Overtime against attrition *)

Lemma main_overtime_unfold g j e d data :
  Main.overtime_attrition g j e d data
  = (rows <- Main.load_data g j e d data ;; overtime_view rows).
Proof. reflexivity. Qed.

Lemma overtime_table_other yy yn ny nn o :
  o <> "Yes" -> o <> "No" -> overtime_table yy yn ny nn !! o = None.
Proof.
  intros. unfold overtime_table.
  rewrite lookup_insert_ne by done. by apply lookup_singleton_ne.
Qed.

Lemma overtime_inner_other (y n : Z) a :
  a <> "Yes" -> a <> "No" -> ({[ "Yes" := y; "No" := n ]} : gmap string Z) !! a = None.
Proof.
  intros. rewrite lookup_insert_ne by done. by apply lookup_singleton_ne.
Qed.

Lemma crossed_cons o a r rows : crossed o a (r :: rows) = crossing o a r + crossed o a rows.
Proof.
  unfold crossed, crossing. rewrite filter_cons.
  destruct (decide _); unfold Py.len; simpl length; lia.
Qed.

Lemma getitem_None {V} (d : gmap string V) k :
  d !! k = None -> Py.getitem d k = Err (KeyError k).
Proof. unfold Py.getitem. by intros ->. Qed.

Lemma getitem_Some {V} (d : gmap string V) k v : d !! k = Some v -> Py.getitem d k = Ok v.
Proof. apply getitem_Ok. Qed.

(** One step on a table either counts a record with both fields "Yes" or
    "No", or raises KeyError, on the key that is off the table, on a
    record that is not so. *)
Lemma overtime_step_cases yy yn ny nn r :
  (yes_or_no "OverTime" r /\ yes_or_no "Attrition" r /\
   overtime_step (overtime_table yy yn ny nn) r
   = Ok (overtime_table (yy + crossing "Yes" "Yes" r) (yn + crossing "Yes" "No" r)
           (ny + crossing "No" "Yes" r) (nn + crossing "No" "No" r))) \/
  (~ (yes_or_no "OverTime" r /\ yes_or_no "Attrition" r) /\
   exists k, overtime_step (overtime_table yy yn ny nn) r = Err (KeyError k) /\
     off_table r k).
Proof.
  assert (Hot : "OverTime" ∈ ["OverTime"; "Attrition"]) by left.
  assert (Hat : "Attrition" ∈ ["OverTime"; "Attrition"]) by (right; left).
  unfold overtime_step, yes_or_no, crossing.
  assert (exists o, r !! "OverTime" = o) as [[o|] Ho] by eauto.
  2:{ right. split; [intros [[|] _]; congruence|].
      rewrite (getitem_None r) by done. eexists. split; [reflexivity|]. by left. }
  rewrite (getitem_Some r _ _ Ho). cbn [bind].
  assert (exists a, r !! "Attrition" = a) as [[a|] Ha] by eauto.
  2:{ right. split; [intros [_ [|]]; congruence|].
      destruct (Py.getitem (overtime_table yy yn ny nn) o) as [inner|k] eqn:Hg; cbn [bind].
      - rewrite (getitem_None r) by done. eexists. split; [reflexivity|]. by left.
      - unfold Py.getitem in Hg. destruct (_ !! o) eqn:Hl; [done|]. injection Hg as <-.
        eexists. split; [reflexivity|]. right. exists "OverTime".
        split_and!; [done|done|intros ->; by vm_compute in Hl..]. }
  assert (Hc : forall o' a' : string,
             (if decide (r !! "OverTime" = Some o' /\ r !! "Attrition" = Some a')
              then 1 else 0) = if decide (o = o' /\ a = a') then 1 else 0).
  { intros o' a'.
    destruct (decide (r !! "OverTime" = Some o' /\ r !! "Attrition" = Some a'))
      as [[H1 H2]|Hn];
      destruct (decide (o = o' /\ a = a')) as [[-> ->]|Hn']; try done.
    - exfalso. apply Hn'. split; congruence.
    - exfalso. by apply Hn. }
  rewrite !Hc, Ho, Ha. clear Hc.
  destruct (decide (o = "Yes")) as [->|Ho1]; [|destruct (decide (o = "No")) as [->|Ho2]].
  - rewrite (getitem_Some _ "Yes" ({[ "Yes" := yy; "No" := yn ]})) by reflexivity.
    cbn [bind]. rewrite (getitem_Some r _ _ Ha). cbn [bind].
    destruct (decide (a = "Yes")) as [->|Ha1]; [|destruct (decide (a = "No")) as [->|Ha2]].
    + left. split; [by left|]. split; [by left|].
      rewrite (getitem_Some _ "Yes" yy) by reflexivity. cbn [bind].
      simpl. rewrite !Z.add_0_r. reflexivity.
    + left. split; [by left|]. split; [by right|].
      rewrite (getitem_Some _ "No" yn) by reflexivity. cbn [bind].
      simpl. rewrite !Z.add_0_r. reflexivity.
    + right. split; [intros [_ [[= ?]|[= ?]]]; done|].
      rewrite (getitem_None _ a) by (by apply overtime_inner_other).
      eexists. split; [reflexivity|]. right. by exists "Attrition".
  - rewrite (getitem_Some _ "No" ({[ "Yes" := ny; "No" := nn ]})) by reflexivity.
    cbn [bind]. rewrite (getitem_Some r _ _ Ha). cbn [bind].
    destruct (decide (a = "Yes")) as [->|Ha1]; [|destruct (decide (a = "No")) as [->|Ha2]].
    + left. split; [by right|]. split; [by left|].
      rewrite (getitem_Some _ "Yes" ny) by reflexivity. cbn [bind].
      simpl. rewrite !Z.add_0_r. reflexivity.
    + left. split; [by right|]. split; [by right|].
      rewrite (getitem_Some _ "No" nn) by reflexivity. cbn [bind].
      simpl. rewrite !Z.add_0_r. reflexivity.
    + right. split; [intros [_ [[= ?]|[= ?]]]; done|].
      rewrite (getitem_None _ a) by (by apply overtime_inner_other).
      eexists. split; [reflexivity|]. right. by exists "Attrition".
  - right. split; [intros [[[= ?]|[= ?]] _]; done|].
    rewrite (getitem_None _ o) by (by apply overtime_table_other).
    eexists. split; [reflexivity|]. right. by exists "OverTime".
Qed.

Lemma overtime_loop_Ok rows yy yn ny nn :
  Forall (fun r => yes_or_no "OverTime" r /\ yes_or_no "Attrition" r) rows ->
  foldM overtime_step (overtime_table yy yn ny nn) rows
  = Ok (overtime_table (yy + crossed "Yes" "Yes" rows) (yn + crossed "Yes" "No" rows)
          (ny + crossed "No" "Yes" rows) (nn + crossed "No" "No" rows)).
Proof.
  intros Hall. revert yy yn ny nn. induction Hall as [|r rows Hr _ IH]; intros.
  - cbn [foldM]. unfold crossed, Py.len. simpl. by rewrite !Z.add_0_r.
  - cbn [foldM].
    destruct (overtime_step_cases yy yn ny nn r) as [(_ & _ & ->)|[Hn _]]; [|done].
    cbn [bind]. rewrite IH, !crossed_cons. by rewrite !Z.add_assoc.
Qed.

Lemma overtime_loop_Err rows yy yn ny nn r :
  r ∈ rows -> ~ (yes_or_no "OverTime" r /\ yes_or_no "Attrition" r) ->
  exists k r', foldM overtime_step (overtime_table yy yn ny nn) rows = Err (KeyError k) /\
    r' ∈ rows /\ off_table r' k.
Proof.
  intros Hr Hn. revert yy yn ny nn.
  induction rows as [|r0 rows IH]; intros; [by apply elem_of_nil in Hr|].
  cbn [foldM].
  destruct (overtime_step_cases yy yn ny nn r0) as [(Ho & Ha & ->)|[_ (k & -> & Hk)]].
  2:{ exists k, r0. split; [done|]. split; [by left|done]. }
  cbn [bind]. apply elem_of_cons in Hr as [->|Hr]; [by destruct Hn|].
  edestruct (IH Hr) as (k & r' & -> & Hin & Hk).
  exists k, r'. split; [done|]. split; [by right|done].
Qed.

(** The loop ends on a table, or on the first record it cannot index the
    table with. *)
Lemma overtime_loop_cases rows yy yn ny nn :
  (exists yy' yn' ny' nn',
     foldM overtime_step (overtime_table yy yn ny nn) rows
     = Ok (overtime_table yy' yn' ny' nn')) \/
  (exists k r, foldM overtime_step (overtime_table yy yn ny nn) rows = Err (KeyError k) /\
     r ∈ rows /\ off_table r k).
Proof.
  revert yy yn ny nn. induction rows as [|r0 rows IH]; intros; [left; by eexists _, _, _, _|].
  cbn [foldM].
  destruct (overtime_step_cases yy yn ny nn r0) as [(Ho & Ha & ->)|[_ (k & -> & Hk)]].
  2:{ right. exists k, r0. split; [done|]. split; [by left|done]. }
  cbn [bind].
  destruct (IH (yy + crossing "Yes" "Yes" r0) (yn + crossing "Yes" "No" r0)
              (ny + crossing "No" "Yes" r0) (nn + crossing "No" "No" r0))
    as [Hok|(k & r' & -> & Hin & Hk)]; [by left|].
  right. exists k, r'. split; [done|]. split; [by right|done].
Qed.

Lemma sum_pair (x y : Z) : Py.sum [x; y] = x + y.
Proof. unfold Py.sum. simpl. lia. Qed.

Lemma crossing_here o a r :
  r !! "OverTime" = Some o -> r !! "Attrition" = Some a -> crossing o a r = 1.
Proof. intros Ho Ha. unfold crossing. by rewrite decide_True. Qed.

Lemma crossing_elsewhere o a o' a' r :
  r !! "OverTime" = Some o -> r !! "Attrition" = Some a -> o <> o' \/ a <> a' ->
  crossing o' a' r = 0.
Proof.
  intros Ho Ha Hne. unfold crossing. rewrite decide_False; [done|].
  intros [Ho' Ha']. destruct Hne; congruence.
Qed.

Lemma crossing_total r :
  yes_or_no "OverTime" r -> yes_or_no "Attrition" r ->
  crossing "Yes" "No" r + crossing "No" "No" r
  + (crossing "Yes" "Yes" r + crossing "No" "Yes" r) = 1.
Proof.
  intros [Ho|Ho] [Ha|Ha].
  - rewrite (crossing_here _ _ _ Ho Ha).
    by rewrite !(crossing_elsewhere _ _ _ _ _ Ho Ha) by (by left + by right).
  - rewrite (crossing_here _ _ _ Ho Ha).
    by rewrite !(crossing_elsewhere _ _ _ _ _ Ho Ha) by (by left + by right).
  - rewrite (crossing_here _ _ _ Ho Ha).
    by rewrite !(crossing_elsewhere _ _ _ _ _ Ho Ha) by (by left + by right).
  - rewrite (crossing_here _ _ _ Ho Ha).
    by rewrite !(crossing_elsewhere _ _ _ _ _ Ho Ha) by (by left + by right).
Qed.

Lemma crossed_total rows :
  Forall (fun r => yes_or_no "OverTime" r /\ yes_or_no "Attrition" r) rows ->
  crossed "Yes" "No" rows + crossed "No" "No" rows
  + (crossed "Yes" "Yes" rows + crossed "No" "Yes" rows) = Py.len rows.
Proof.
  induction 1 as [|r rows [Ho Ha] _ IH]; [done|].
  rewrite !crossed_cons. unfold Py.len in *. simpl length.
  pose proof (crossing_total r Ho Ha). lia.
Qed.

Lemma overtime_view_Ok rows :
  Forall (fun r => yes_or_no "OverTime" r /\ yes_or_no "Attrition" r) rows ->
  exists res, overtime_view rows = Ok res /\ overtime_counts rows res.
Proof.
  intros Hall. unfold overtime_view. rewrite (overtime_loop_Ok _ _ _ _ _ Hall).
  eexists. split; [reflexivity|]. unfold overtime_counts. cbn [sp_labels sp_stayed sp_left].
  split_and!; try done. rewrite !sum_pair. by apply crossed_total.
Qed.

Lemma overtime_view_Err rows r :
  r ∈ rows -> ~ (yes_or_no "OverTime" r /\ yes_or_no "Attrition" r) ->
  exists k r', overtime_view rows = Err (KeyError k) /\ r' ∈ rows /\ off_table r' k.
Proof.
  intros Hr Hn. unfold overtime_view.
  destruct (overtime_loop_Err rows 0 0 0 0 r Hr Hn) as (k & r' & -> & Hin & Hk).
  by exists k, r'.
Qed.


(** X4: when OverTime and Attrition are "Yes" or "No" on every filtered
    record, the overtime view returns; [stayed] holds the number of
    records with Attrition = "No", with overtime and then without, [left]
    the same for Attrition = "Yes", and the four counts add up to the
    number of filtered records. *)
Theorem X4_overtime_counts (p : params) (data rows : list row) :
  Server.load p data = Ok rows ->
  Forall (fun r => yes_or_no "OverTime" r /\ yes_or_no "Attrition" r) rows ->
  exists res,
    Main.overtime_attrition (gender p) (job_role p) (education p) (department p) data
      = Ok res /\
    Server.api_overtime p data = Ok res /\
    overtime_counts rows res.
Proof.
  intros Hload Hall. rewrite overtime_equiv, main_overtime_unfold.
  rewrite load_equiv in Hload. rewrite Hload. cbn [bind].
  destruct (overtime_view_Ok rows Hall) as (res & Hres & Hc). eauto.
Qed.

Lemma X4_witness :
  Server.load no_filter [alice; bob; carol] = Ok [alice; bob; carol] /\
  Forall (fun r => yes_or_no "OverTime" r /\ yes_or_no "Attrition" r) [alice; bob; carol] /\
  exists res, Server.api_overtime no_filter [alice; bob; carol] = Ok res /\
    sp_stayed res = [0; 2] /\ sp_left res = [1; 0].
Proof.
  assert (Hload : Server.load no_filter [alice; bob; carol] = Ok [alice; bob; carol])
    by reflexivity.
  assert (Hall : Forall (fun r => yes_or_no "OverTime" r /\ yes_or_no "Attrition" r)
            [alice; bob; carol]).
  { repeat apply Forall_cons_2; [| | |constructor].
    - split; left; reflexivity.
    - split; right; reflexivity.
    - split; right; reflexivity. }
  split; [exact Hload|]. split; [exact Hall|].
  destruct (X4_overtime_counts no_filter _ _ Hload Hall) as (res & _ & Hres & _).
  exists res. split; [exact Hres|].
  vm_compute in Hres. injection Hres as <-. split; reflexivity.
Defined.



(** ** What the row loader reads *)

Lemma eqb_empty (a : string) : String.eqb a "" = bool_decide (a = "").
Proof.
  destruct (String.eqb_spec a "");
    [by rewrite bool_decide_eq_true_2|by rewrite bool_decide_eq_false_2].
Qed.

Lemma excluded_cases arg r k :
  (exists b, excluded arg r k = Ok b) \/
  (active arg /\ r !! k = None /\ excluded arg r k = Err (KeyError k)).
Proof.
  unfold excluded. destruct arg as [a|]; [|eauto].
  rewrite eqb_empty. case_bool_decide as Ha; [eauto|].
  destruct (r !! k) as [v|] eqn:Hv.
  - left. rewrite (getitem_Some _ _ _ Hv). simpl. eauto.
  - right. rewrite (getitem_None _ _ Hv). split; [by exists a|done].
Qed.

Lemma excluded_inactive arg r k :
  (active arg -> is_Some (r !! k)) -> exists b, excluded arg r k = Ok b.
Proof.
  intros H. destruct (excluded_cases arg r k) as [|(Ha & Hk & _)]; [done|].
  destruct (H Ha) as [v Hv]. congruence.
Qed.

Section LoaderErrors.

Variables g j e d : option string.

Lemma load_step_filterable rows r :
  filterable g j e d r -> exists rows', load_step g j e d rows r = Ok rows'.
Proof.
  intros (Hg & Hj & He & Hd). unfold load_step.
  destruct (excluded_inactive g r _ Hg) as [[] ->]; simpl; [eauto|].
  destruct (excluded_inactive j r _ Hj) as [[] ->]; simpl; [eauto|].
  destruct (excluded_inactive e r _ He) as [[] ->]; simpl; [eauto|].
  destruct (excluded_inactive d r _ Hd) as [[] ->]; simpl; eauto.
Qed.

Lemma load_loop_filterable data acc :
  Forall (filterable g j e d) data ->
  foldM (load_step g j e d) acc data = Ok (acc ++ filter (matches g j e d) data)%list.
Proof.
  intros Hd.
  assert (exists rows, foldM (load_step g j e d) acc data = Ok rows) as [rows Hrows].
  { revert acc. induction Hd as [|r data Hr _ IH]; intros acc; simpl; [eauto|].
    destruct (load_step_filterable acc r Hr) as [acc' ->]. apply IH. }
  by rewrite Hrows, (load_loop_Ok _ _ _ _ _ _ _ Hrows).
Qed.

Lemma load_step_Err rows r x :
  load_step g j e d rows r = Err x -> missing_column g j e d [r] x.
Proof.
  unfold load_step, missing_column. intros H.
  destruct (excluded_cases g r "Gender") as [[b Hb]|(Ha & Hk & He)].
  2:{ rewrite He in H. injection H as <-. exists "Gender", g, r.
      split_and!; try done; [set_solver|by left]. }
  rewrite Hb in H. cbn [bind] in H. destruct b; [done|].
  destruct (excluded_cases j r "JobRole") as [[b Hb']|(Ha & Hk & He)].
  2:{ rewrite He in H. injection H as <-. exists "JobRole", j, r.
      split_and!; try done; [set_solver|by left]. }
  rewrite Hb' in H. cbn [bind] in H. destruct b; [done|].
  destruct (excluded_cases e r "Education") as [[b Hb'']|(Ha & Hk & He)].
  2:{ rewrite He in H. injection H as <-. exists "Education", e, r.
      split_and!; try done; [set_solver|by left]. }
  rewrite Hb'' in H. cbn [bind] in H. destruct b; [done|].
  destruct (excluded_cases d r "Department") as [[b Hb3]|(Ha & Hk & He)].
  2:{ rewrite He in H. injection H as <-. exists "Department", d, r.
      split_and!; try done; [set_solver|by left]. }
  rewrite Hb3 in H. cbn [bind] in H. by destruct b.
Qed.

Lemma load_loop_Err data acc x :
  foldM (load_step g j e d) acc data = Err x -> missing_column g j e d data x.
Proof.
  revert acc. induction data as [|r data IH]; intros acc H; [done|].
  cbn [foldM] in H. apply bind_Err in H as [H|(acc' & _ & H)].
  - destruct (load_step_Err _ _ _ H) as (k & arg & r' & -> & Hin & Ha & Hr%list_elem_of_singleton & Hk).
    subst r'. exists k, arg, r. split_and!; try done. by left.
  - destruct (IH _ H) as (k & arg & r' & -> & Hin & Ha & Hr & Hk).
    exists k, arg, r'. split_and!; try done. by right.
Qed.

End LoaderErrors.

(** X6: the loader reads a column only for a constraint that is supplied
    and not empty: it returns the matching records whenever every record
    has the columns of those constraints, so without any it returns the
    whole file, whatever the records hold.  The only exception it raises
    is the KeyError of one of the four filter columns, under such a
    constraint, on a record that lacks the column. *)
Theorem X6_loader_reads (g j e d : option string) (data : list row) :
  (Forall (filterable g j e d) data ->
     Main.load_data g j e d data = Ok (filter (matches g j e d) data) /\
     Server.load_data g j e d data = Ok (filter (matches g j e d) data)) /\
  (~ active g -> ~ active j -> ~ active e -> ~ active d ->
     Main.load_data g j e d data = Ok data /\ Server.load_data g j e d data = Ok data) /\
  (forall x, Main.load_data g j e d data = Err x -> missing_column g j e d data x) /\
  (forall x, Server.load_data g j e d data = Err x -> missing_column g j e d data x).
Proof.
  pose proof (load_data_equiv g j e d data) as Heq.
  assert (Hf : Forall (filterable g j e d) data ->
               Main.load_data g j e d data = Ok (filter (matches g j e d) data)).
  { intros Hall. exact (load_loop_filterable g j e d data [] Hall). }
  split; [intros H%Hf; by rewrite Heq|].
  split; [|split; intros x; rewrite ?Heq; apply load_loop_Err].
  intros Hg Hj He Hd. rewrite Heq.
  assert (Hall : Forall (filterable g j e d) data).
  { apply Forall_forall. intros r _. by split_and!. }
  rewrite (Hf Hall).
  assert (filter (matches g j e d) data = data) as ->; [|done].
  clear Hall Hf Heq. induction data as [|r data IH]; [done|].
  rewrite filter_cons, IH, decide_True; [done|].
  unfold matches, constraint.
  assert (Hc : forall arg k, ~ active arg ->
            match arg with Some a => a = "" \/ r !! k = Some a | None => True end).
  { intros [a|] k Hn; [|done]. destruct (decide (a = "")); [by left|].
    destruct Hn. by exists a. }
  split_and!; by apply Hc.
Qed.

Lemma X6_witness :
  Forall (filterable (Some "Male") None (Some "") None) [alice; {[ "Gender" := "Male" ]}] /\
  Main.load_data (Some "Male") None (Some "") None [alice; {[ "Gender" := "Male" ]}]
  = Ok [{[ "Gender" := "Male" ]}] /\
  Main.load_data None (Some "") None None [∅; bob] = Ok [∅; bob] /\
  Main.load_data (Some "Male") None None None [alice; ∅] = Err (KeyError "Gender") /\
  missing_column (Some "Male") None None None [alice; ∅] (KeyError "Gender").
Proof.
  pose proof (X6_loader_reads (Some "Male") None (Some "") None
                [alice; {[ "Gender" := "Male" ]}]) as (H1 & _).
  pose proof (X6_loader_reads None (Some "") None None [∅; bob]) as (_ & H2 & _).
  pose proof (X6_loader_reads (Some "Male") None None None [alice; ∅]) as (_ & _ & H3 & _).
  assert (Hn : ~ active None) by (by intros (a & [=] & _)).
  assert (He : ~ active (Some "")) by (by intros (a & [= <-] & Ha)).
  assert (Hall : Forall (filterable (Some "Male") None (Some "") None)
                   [alice; {[ "Gender" := "Male" ]}]).
  { repeat apply Forall_cons_2; [| |constructor]; split_and!; try done;
      intros _; by eexists. }
  assert (Herr : Main.load_data (Some "Male") None None None [alice; ∅]
                 = Err (KeyError "Gender")) by reflexivity.
  split; [exact Hall|]. split; [exact (proj1 (H1 Hall))|].
  split; [exact (proj1 (H2 Hn He Hn Hn))|]. split; [exact Herr|].
  exact (H3 _ Herr).
Defined.

(** ** The filter options *)

Lemma mapM_getitem k (rows : list row) l :
  mapM (fun r => Py.getitem r k) rows = Ok l ->
  l = field k <$> rows /\ Forall (fun r => is_Some (r !! k)) rows.
Proof.
  intros H. split.
  - eapply mapM_Ok_fmap; [|exact H]. intros r v. apply getitem_field.
  - apply Forall_forall. intros r Hr.
    destruct (mapM_Ok_elem _ _ _ _ H Hr) as [v Hv%getitem_Ok]. eauto.
Qed.

Lemma mapM_getitem_total k (rows : list row) :
  Forall (fun r => is_Some (r !! k)) rows ->
  mapM (fun r => Py.getitem r k) rows = Ok (field k <$> rows).
Proof.
  intros Hall. destruct (mapM_total (fun r => Py.getitem r k) rows) as [l Hl].
  - intros r Hr. rewrite Forall_forall in Hall. by apply getitem_total, Hall.
  - rewrite Hl. by destruct (mapM_getitem _ _ _ Hl) as [-> _].
Qed.

Lemma distinct_sorted_set k (rows : list row) :
  Forall (fun r => is_Some (r !! k)) rows ->
  distinct_values k rows
    (Py.sorted (elements (list_to_set (field k <$> rows) : gset string))).
Proof.
  intros Hall. split; [apply Sorted_sorted|]. split; [apply NoDup_sorted, NoDup_elements|].
  intros l. rewrite elem_of_sorted, elem_of_elements, elem_of_list_to_set.
  by apply elem_of_fields.
Qed.

Lemma load_data_all data : Main.load_data None None None None data = Ok data.
Proof.
  change (foldM (load_step None None None None) [] data = Ok data).
  assert (forall acc, foldM (load_step None None None None) acc data = Ok (acc ++ data)%list)
    as ->; [|done].
  induction data as [|r data IH]; intros acc; [by rewrite app_nil_r|].
  cbn [foldM]. change (load_step None None None None acc r) with (Ok (acc ++ [r])%list).
  cbn [bind]. by rewrite IH, <- app_assoc.
Qed.

Lemma get_filters_Ok data res :
  Main.get_filters data = Ok res ->
  filter_options data res /\
  Forall (fun r => is_Some (r !! "Gender") /\ is_Some (r !! "JobRole") /\
                   is_Some (r !! "Department")) data.
Proof.
  unfold Main.get_filters. rewrite load_data_all. cbn [bind]. intros H.
  apply bind_Ok in H as (g & [-> Hg]%mapM_getitem & H).
  apply bind_Ok in H as (j & [-> Hj]%mapM_getitem & H).
  apply bind_Ok in H as (d & [-> Hd]%mapM_getitem & [= <-]).
  split.
  - unfold filter_options. cbn [genders job_roles departments educations].
    split_and!; try by apply distinct_sorted_set. by vm_compute.
  - rewrite Forall_forall in *. intros r Hr. split_and!; auto.
Qed.

Lemma get_filters_total data :
  Forall (fun r => is_Some (r !! "Gender") /\ is_Some (r !! "JobRole") /\
                   is_Some (r !! "Department")) data ->
  exists res, Main.get_filters data = Ok res.
Proof.
  intros Hall. unfold Main.get_filters. rewrite load_data_all. cbn [bind].
  rewrite !mapM_getitem_total; [cbn [bind]; by eexists|..];
    (eapply Forall_impl; [exact Hall|]; by intros r (? & ? & ?)).
Qed.

Lemma mapM_getitem_Err k (rows : list row) e :
  mapM (fun r => Py.getitem r k) rows = Err e -> e = KeyError k.
Proof.
  induction rows as [|r rows IH]; [done|]. cbn [mapM].
  intros [H|(v & _ & H)]%bind_Err.
  - unfold Py.getitem in H. destruct (r !! k); [done|]. by injection H as <-.
  - apply bind_Err in H as [H|(vs & _ & H)]; [by apply IH|done].
Qed.

(** The filter options fail on a missing column only, and the message of
    that [KeyError] is ASCII. *)
Lemma get_filters_Err data e :
  Main.get_filters data = Err e -> Server.reason_encodes e = true.
Proof.
  unfold Main.get_filters. rewrite load_data_all. cbn [bind]. intros H.
  apply bind_Err in H as [->%mapM_getitem_Err|(g & _ & H)]; [reflexivity|].
  apply bind_Err in H as [->%mapM_getitem_Err|(j & _ & H)]; [reflexivity|].
  apply bind_Err in H as [->%mapM_getitem_Err|(d & _ & H)]; [reflexivity|done].
Qed.

(** X7: the gender, job-role and department options are the values
    present in the whole file, each once and in ascending order; the
    education options are the five fixed levels whatever the file holds.
    The options are returned whenever every record has the three columns,
    and [do_GET] serves them without reading the query parameters. *)
Theorem X7_filter_options (data : list row) :
  returns (Main.get_filters data) (filter_options data) /\
  returns (Server.api_filters data) (filter_options data) /\
  (Forall (fun r => is_Some (r !! "Gender") /\ is_Some (r !! "JobRole") /\
                    is_Some (r !! "Department")) data ->
   exists res, Main.get_filters data = Ok res /\ Server.api_filters data = Ok res) /\
  (forall p, Server.do_GET "/api/filters" p data
             = match Server.api_filters data with
               | Ok res => Server.Json200 (Server.PFilters res)
               | Err e => Server.Error500 e
               end).
Proof.
  pose proof (filters_equiv data) as Heq.
  split; [intros res H; by apply get_filters_Ok|].
  split; [intros res H; rewrite Heq in H; by apply get_filters_Ok|].
  split.
  - intros [res Hres]%get_filters_total. exists res. by rewrite Heq.
  - intros p. unfold Server.do_GET.
    change (Server.ROUTES !! "/api/filters")
      with (Some (Server.View0 (Server.lift Server.PFilters Server.api_filters), false)).
    cbn [Server.call0]. unfold Server.lift.
    destruct (Server.api_filters data) as [res|e] eqn:He; [done|]. cbn [bind].
    rewrite Heq in He. by apply send_error_500, (get_filters_Err data).
Qed.

Lemma X7_witness :
  Forall (fun r => is_Some (r !! "Gender") /\ is_Some (r !! "JobRole") /\
                   is_Some (r !! "Department")) [bob; alice; carol] /\
  exists res, Server.api_filters [bob; alice; carol] = Ok res /\
    genders res = ["Female"; "Male"] /\ job_roles res = ["Dev"; "Intern"; "Ops"] /\
    departments res = ["A"; "B"].
Proof.
  assert (Hall : Forall (fun r => is_Some (r !! "Gender") /\ is_Some (r !! "JobRole") /\
                   is_Some (r !! "Department")) [bob; alice; carol]).
  { repeat apply Forall_cons_2; [| | |constructor]; split_and!; by eexists. }
  split; [exact Hall|].
  destruct (proj1 (proj2 (proj2 (X7_filter_options [bob; alice; carol]))) Hall)
    as (res & _ & Hres).
  exists res. split; [exact Hres|].
  vm_compute in Hres. injection Hres as <-. split_and!; reflexivity.
Defined.

Lemma option_selects data g j e d k v :
  (forall r, r ∈ data -> filterable g j e d r) ->
  (forall r, r !! k = Some v -> matches g j e d r) ->
  (forall r, matches g j e d r -> v = "" \/ r !! k = Some v) ->
  (exists r, r ∈ data /\ r !! k = Some v) ->
  selects g j e d k v data.
Proof.
  intros Hf Hm Hc (r & Hr & Hv).
  exists (filter (matches g j e d) data).
  pose proof (load_loop_filterable g j e d data [] (proj2 (Forall_forall _ _) Hf)) as Hl.
  split; [exact Hl|]. split; [rewrite load_data_equiv; exact Hl|]. split.
  - intros Hnil. assert (r ∈ filter (matches g j e d) data) as Hin
      by (apply list_elem_of_filter; auto).
    rewrite Hnil in Hin. by apply elem_of_nil in Hin.
  - intros Hne. apply Forall_forall. intros r' [Hm' _]%list_elem_of_filter.
    by destruct (Hc r' Hm').
Qed.

(** X8: every gender, job role and department that the filter options
    offer selects something: the loader, given the option as its only
    constraint, returns at least one record, and unless the option is the
    empty text every record it returns holds that value. *)
Theorem X8_options_select (data : list row) (res : Filters) :
  Main.get_filters data = Ok res ->
  (forall g, g ∈ genders res -> selects (Some g) None None None "Gender" g data) /\
  (forall j, j ∈ job_roles res -> selects None (Some j) None None "JobRole" j data) /\
  (forall d, d ∈ departments res -> selects None None None (Some d) "Department" d data).
Proof.
  intros [(Hg & Hj & Hd & _) Hall]%get_filters_Ok.
  rewrite Forall_forall in Hall.
  assert (Hn : ~ active None) by (by intros (a & [=] & _)).
  split_and!.
  - intros g Hin. destruct Hg as (_ & _ & Hg). apply Hg in Hin.
    apply option_selects; try done.
    + intros r Hr. destruct (Hall r Hr) as (? & ? & ?). by split_and!.
    + intros r Hr. unfold matches, constraint. split_and!; auto.
    + by intros r [? _].
  - intros j Hin. destruct Hj as (_ & _ & Hj). apply Hj in Hin.
    apply option_selects; try done.
    + intros r Hr. destruct (Hall r Hr) as (? & ? & ?). by split_and!.
    + intros r Hr. unfold matches, constraint. split_and!; auto.
    + by intros r (_ & ? & _).
  - intros d Hin. destruct Hd as (_ & _ & Hd). apply Hd in Hin.
    apply option_selects; try done.
    + intros r Hr. destruct (Hall r Hr) as (? & ? & ?). by split_and!.
    + intros r Hr. unfold matches, constraint. split_and!; auto.
    + by intros r (_ & _ & _ & ?).
Qed.

Lemma X8_witness :
  exists res, Main.get_filters [bob; alice; carol] = Ok res /\
    "Female" ∈ genders res /\
    selects (Some "Female") None None None "Gender" "Female" [bob; alice; carol].
Proof.
  destruct (Main.get_filters [bob; alice; carol]) as [res|] eqn:Hres;
    [|by vm_compute in Hres].
  exists res. split; [reflexivity|].
  assert (Hin : "Female" ∈ genders res).
  { vm_compute in Hres. injection Hres as <-. simpl. left. }
  split; [exact Hin|].
  exact (proj1 (X8_options_select _ _ Hres) _ Hin).
Defined.

(** ** The entries of the category views *)

Lemma occ_field k (rows : list row) l :
  Forall (fun r => is_Some (r !! k)) rows ->
  occ l (field k <$> rows) = Py.len (filter (fun r => r !! k = Some l) rows).
Proof.
  intros Hall. rewrite occ_fmap. f_equal. apply filter_ext_elem. intros r Hr.
  rewrite Forall_forall in Hall. destruct (Hall r Hr) as [v Hv].
  unfold field. rewrite Hv. simpl. split; congruence.
Qed.

Lemma Forall_leavers (P : row -> Prop) rows : Forall P rows -> Forall P (leavers rows).
Proof.
  rewrite !Forall_forall. intros H r [_ Hr]%list_elem_of_filter. by apply H.
Qed.

Lemma counted_category k rows labels total attr :
  Forall (fun r => is_Some (r !! k)) rows ->
  counted labels total attr (field k <$> rows) (field k <$> leavers rows) ->
  category_counts k rows labels total attr.
Proof.
  intros Hall [Hs Hn Hl -> ->]. split; [|split].
  - split; [done|]. split; [done|]. intros l. rewrite Hl. by apply elem_of_fields.
  - apply list_fmap_ext. intros _ l _. by apply occ_field.
  - apply list_fmap_ext. intros _ l _. by apply occ_field, Forall_leavers.
Qed.

Lemma Forall2_fmap_same {A B} (R : B -> B -> Prop) (f g : A -> B) (l : list A) :
  (forall x, R (f x) (g x)) -> Forall2 R (f <$> l) (g <$> l).
Proof. intros H. induction l; constructor; auto. Qed.

Lemma counted_within labels total attr k rows :
  counted labels total attr (field k <$> rows) (field k <$> leavers rows) ->
  within attr total.
Proof.
  intros [_ _ _ -> ->]. apply Forall2_fmap_same. intros l. apply occ_leavers_le.
Qed.

Lemma rate_view_reads k rows res :
  rate_view k rows = Ok res -> Forall (fun r => is_Some (r !! k)) rows.
Proof.
  intros H. unfold rate_view in H. apply bind_Ok in H as (c & Hc & _).
  apply Forall_forall. intros r Hr.
  destruct (foldM_Ok_elem _ _ _ _ _ Hc Hr) as (s1 & s2 & Hs).
  apply bind_Ok in Hs as (v & Hv%getitem_Ok & _). eauto.
Qed.

Lemma count_view_reads k rows res :
  count_view k rows = Ok res -> Forall (fun r => is_Some (r !! k)) rows.
Proof.
  intros H. unfold count_view in H. apply bind_Ok in H as (ks & Hks & _).
  by apply mapM_getitem in Hks as [_ ?].
Qed.

Lemma rate_view_category k rows :
  returns (rate_view k rows)
    (fun res => category_counts k rows (rs_labels res) (rs_total res) (rs_attrition res)).
Proof.
  intros res H. apply counted_category; [by eapply rate_view_reads|].
  by apply rate_view_Ok in H as [? _].
Qed.

Lemma count_view_category k rows :
  returns (count_view k rows)
    (fun res => category_counts k rows (cs_labels res) (cs_total res) (cs_attrition res)).
Proof.
  intros res H. apply counted_category; [by eapply count_view_reads|].
  by apply count_view_Ok.
Qed.

(** X9: in the department, job-role, gender and education-field views
    the labels are the values of the column present among the filtered
    records, ascending and each once; [total] holds for each label the
    number of filtered records with that value and [attrition] the number
    of those among them whose Attrition is "Yes". *)
Theorem X9_category_counts (p : params) (data rows : list row) :
  Server.load p data = Ok rows ->
  let g := gender p in
  let j := job_role p in
  let e := education p in
  let d := department p in
  (returns (Main.attrition_by_department g j e d data)
     (fun res => category_counts "Department" rows
                   (rs_labels res) (rs_total res) (rs_attrition res)) /\
   returns (Server.api_attrition_dept p data)
     (fun res => category_counts "Department" rows
                   (rs_labels res) (rs_total res) (rs_attrition res))) /\
  (returns (Main.attrition_by_jobrole g j e d data)
     (fun res => category_counts "JobRole" rows
                   (rs_labels res) (rs_total res) (rs_attrition res)) /\
   returns (Server.api_attrition_jobrole p data)
     (fun res => category_counts "JobRole" rows
                   (rs_labels res) (rs_total res) (rs_attrition res))) /\
  (returns (Main.gender_split g j e d data)
     (fun res => category_counts "Gender" rows
                   (cs_labels res) (cs_total res) (cs_attrition res)) /\
   returns (Server.api_gender_split p data)
     (fun res => category_counts "Gender" rows
                   (cs_labels res) (cs_total res) (cs_attrition res))) /\
  (returns (Main.education_field g j e d data)
     (fun res => category_counts "EducationField" rows
                   (cs_labels res) (cs_total res) (cs_attrition res)) /\
   returns (Server.api_edu_field p data)
     (fun res => category_counts "EducationField" rows
                   (cs_labels res) (cs_total res) (cs_attrition res))).
Proof.
  intros Hload g j e d. rewrite load_equiv in Hload. fold g j e d in Hload.
  split_and!.
  - rewrite main_dept_unfold, Hload. apply rate_view_category.
  - rewrite dept_equiv. fold g j e d. rewrite main_dept_unfold, Hload.
    apply rate_view_category.
  - rewrite main_jobrole_unfold, Hload. apply rate_view_category.
  - rewrite jobrole_equiv. fold g j e d. rewrite main_jobrole_unfold, Hload.
    apply rate_view_category.
  - rewrite main_gender_unfold, Hload. apply count_view_category.
  - rewrite gender_equiv. fold g j e d. rewrite main_gender_unfold, Hload.
    apply count_view_category.
  - rewrite main_edu_unfold, Hload. apply count_view_category.
  - rewrite edu_equiv. fold g j e d. rewrite main_edu_unfold, Hload.
    apply count_view_category.
Qed.

Lemma X9_witness :
  Server.load no_filter [alice; bob; carol] = Ok [alice; bob; carol] /\
  exists res, Server.api_attrition_dept no_filter [alice; bob; carol] = Ok res /\
    category_counts "Department" [alice; bob; carol]
      (rs_labels res) (rs_total res) (rs_attrition res) /\
    rs_labels res = ["A"; "B"] /\ rs_total res = [2; 1] /\ rs_attrition res = [1; 0].
Proof.
  assert (Hload : Server.load no_filter [alice; bob; carol] = Ok [alice; bob; carol])
    by reflexivity.
  split; [exact Hload|].
  pose proof (X9_category_counts no_filter _ _ Hload) as H. cbv zeta in H.
  destruct H as ((_ & H) & _).
  destruct (Server.api_attrition_dept no_filter [alice; bob; carol]) as [res|] eqn:Hres;
    [|by vm_compute in Hres].
  exists res. split; [reflexivity|]. split; [exact (H res eq_refl)|].
  vm_compute in Hres. injection Hres as <-. split_and!; reflexivity.
Defined.

(** ** Leavers are among the records counted *)

Lemma len_filter_le {A} (P Q : A -> Prop) `{!forall x, Decision (P x)}
    `{!forall x, Decision (Q x)} (l : list A) :
  (forall x, P x -> Q x) -> 0 <= Py.len (filter P l) <= Py.len (filter Q l).
Proof.
  intros HPQ. unfold Py.len. split; [lia|].
  induction l as [|x l IH]; [done|]. rewrite !filter_cons.
  destruct (decide (P x)) as [HP|HP], (decide (Q x)) as [HQ|HQ]; simpl length;
    [lia|by destruct HQ; auto|lia|lia].
Qed.

Lemma age_view_within rows :
  returns (age_view rows) (fun res => within (cs_attrition res) (cs_total res)).
Proof.
  intros res (_ & -> & ->)%age_view_Ok. unfold within.
  apply Forall2_same_length_lookup. split; [by rewrite !length_tally|].
  intros i a t. rewrite !lookup_tally. intros Ha Ht.
  destruct (replicate 10 0 !! i) as [z|] eqn:Hz; [|done]. simpl in Ha, Ht.
  apply lookup_replicate in Hz as [-> _]. injection Ha as <-. injection Ht as <-.
  assert (0 <= Py.len (filter (fun r => leaver_bin r = Some i) rows)
          <= Py.len (filter (fun r => age_bin r = Some i) rows)); [|lia].
  apply len_filter_le. intros r. unfold leaver_bin. by destruct (decide _).
Qed.

Lemma rate_view_within k rows :
  returns (rate_view k rows) (fun res => within (rs_attrition res) (rs_total res)).
Proof. intros res [H _]%rate_view_Ok. by eapply counted_within. Qed.

Lemma count_view_within k rows :
  returns (count_view k rows) (fun res => within (cs_attrition res) (cs_total res)).
Proof. intros res H%count_view_Ok. by eapply counted_within. Qed.

(** X10: in the five views that return an [attrition] series beside
    [total] (department, job role, gender, education field, age), the two
    series have the same length and at every index the attrition count is
    at least 0 and at most the total. *)
Theorem X10_attrition_within_total (p : params) (data : list row) :
  let g := gender p in
  let j := job_role p in
  let e := education p in
  let d := department p in
  (returns (Main.attrition_by_department g j e d data)
     (fun res => within (rs_attrition res) (rs_total res)) /\
   returns (Server.api_attrition_dept p data)
     (fun res => within (rs_attrition res) (rs_total res))) /\
  (returns (Main.attrition_by_jobrole g j e d data)
     (fun res => within (rs_attrition res) (rs_total res)) /\
   returns (Server.api_attrition_jobrole p data)
     (fun res => within (rs_attrition res) (rs_total res))) /\
  (returns (Main.gender_split g j e d data)
     (fun res => within (cs_attrition res) (cs_total res)) /\
   returns (Server.api_gender_split p data)
     (fun res => within (cs_attrition res) (cs_total res))) /\
  (returns (Main.education_field g j e d data)
     (fun res => within (cs_attrition res) (cs_total res)) /\
   returns (Server.api_edu_field p data)
     (fun res => within (cs_attrition res) (cs_total res))) /\
  (returns (Main.age_distribution g j e d data)
     (fun res => within (cs_attrition res) (cs_total res)) /\
   returns (Server.api_age_dist p data)
     (fun res => within (cs_attrition res) (cs_total res))).
Proof.
  intros g j e d. split_and!.
  - rewrite main_dept_unfold. apply returns_bind_all, rate_view_within.
  - rewrite dept_equiv. fold g j e d. rewrite main_dept_unfold.
    apply returns_bind_all, rate_view_within.
  - rewrite main_jobrole_unfold. apply returns_bind_all, rate_view_within.
  - rewrite jobrole_equiv. fold g j e d. rewrite main_jobrole_unfold.
    apply returns_bind_all, rate_view_within.
  - rewrite main_gender_unfold. apply returns_bind_all, count_view_within.
  - rewrite gender_equiv. fold g j e d. rewrite main_gender_unfold.
    apply returns_bind_all, count_view_within.
  - rewrite main_edu_unfold. apply returns_bind_all, count_view_within.
  - rewrite edu_equiv. fold g j e d. rewrite main_edu_unfold.
    apply returns_bind_all, count_view_within.
  - rewrite main_age_unfold. apply returns_bind_all, age_view_within.
  - rewrite age_equiv. fold g j e d. rewrite main_age_unfold.
    apply returns_bind_all, age_view_within.
Qed.

Lemma X10_witness :
  exists res, Server.api_age_dist no_filter [alice; bob; carol] = Ok res /\
    within (cs_attrition res) (cs_total res) /\
    cs_total res = [0; 0; 0; 0; 1; 0; 0; 0; 1; 0] /\
    cs_attrition res = [0; 0; 0; 0; 1; 0; 0; 0; 0; 0].
Proof.
  pose proof (X10_attrition_within_total no_filter [alice; bob; carol]) as H.
  cbv zeta in H. destruct H as (_ & _ & _ & _ & _ & H).
  destruct (Server.api_age_dist no_filter [alice; bob; carol]) as [res|] eqn:Hres;
    [|by vm_compute in Hres].
  exists res. split; [reflexivity|]. split; [exact (H res eq_refl)|].
  vm_compute in Hres. injection Hres as <-. split; reflexivity.
Defined.

(** ** The entries of the years view *)

Lemma years_view_counts rows : returns (years_view rows) (year_counts rows).
Proof.
  intros res (Hl & Ht & Hr)%years_view_Ok. cbv zeta in *. split; [|split].
  - by rewrite Ht, length_fmap.
  - apply mapM_Ok in Hr. symmetry. by eapply Forall2_length.
  - intros i y Hi. split.
    + rewrite Hl in Hi. apply lookup_seqZ in Hi. lia.
    + rewrite Ht, list_lookup_fmap, Hi. simpl. by rewrite occ_fmap.
Qed.

(** X11: in the years view the label at index [i] is the year [i], the
    three series have the same length, and [total] holds at that index
    the number of filtered records whose YearsAtCompany is [i]. *)
Theorem X11_year_counts (p : params) (data rows : list row) :
  Server.load p data = Ok rows ->
  returns (Main.years_attrition (gender p) (job_role p) (education p) (department p) data)
    (year_counts rows) /\
  returns (Server.api_years_attrition p data) (year_counts rows).
Proof.
  intros Hload. rewrite years_equiv, main_years_unfold. rewrite load_equiv in Hload.
  rewrite Hload. split; apply years_view_counts.
Qed.

Lemma X11_witness :
  Server.load no_filter [alice; bob; carol] = Ok [alice; bob; carol] /\
  exists res, Server.api_years_attrition no_filter [alice; bob; carol] = Ok res /\
    year_counts [alice; bob; carol] res /\
    ys_total res = [0; 0; 1; 0; 0; 0; 1; 0; 0; 0; 0; 0; 0; 0; 0; 0; 0; 0; 0; 0; 0;
                    0; 0; 0; 0; 0; 0; 0; 0; 0; 0; 0; 0; 0; 0; 0; 0; 0; 0; 0; 0].
Proof.
  assert (Hload : Server.load no_filter [alice; bob; carol] = Ok [alice; bob; carol])
    by reflexivity.
  split; [exact Hload|].
  destruct (X11_year_counts no_filter _ _ Hload) as [_ H].
  destruct (Server.api_years_attrition no_filter [alice; bob; carol]) as [res|] eqn:Hres;
    [|by vm_compute in Hres].
  exists res. split; [reflexivity|]. split; [exact (H res eq_refl)|].
  vm_compute in Hres. injection Hres as <-. reflexivity.
Defined.

(** ** Ratings outside 1 to 4 *)

Lemma sat_bucket_wrap r i :
  (i < 4)%nat -> -3 <= satisfaction r <= 4 ->
  sat_bucket r = Some i <->
  satisfaction r = Z.of_nat i + 1 \/ satisfaction r = Z.of_nat i - 3.
Proof.
  intros Hi. unfold sat_bucket. generalize (satisfaction r). intros s Hs. cbv zeta.
  destruct (Z.ltb_spec (s - 1) 0).
  - destruct (Z.leb_spec 0 (s - 1 + 4)); [|lia].
    destruct (Z.ltb_spec (s - 1 + 4) 4); [|lia].
    cbn [andb]. split; [intros [= <-]; rewrite Z2Nat.id by lia; lia|].
    intros [->| ->]; [exfalso; lia|]. f_equal. lia.
  - destruct (Z.leb_spec 0 (s - 1)); [|lia]. destruct (Z.ltb_spec (s - 1) 4); [|lia].
    cbn [andb]. split; [intros [= <-]; rewrite Z2Nat.id by lia; lia|].
    intros [->| ->]; [|exfalso; lia]. f_equal. lia.
Qed.

Lemma satisfaction_view_wrapped rows :
  rated (-3) 4 rows ->
  exists res, satisfaction_view rows = Ok res /\ wrapped_counts rows res.
Proof.
  intros Hr. destruct (satisfaction_view_total rows Hr) as [res Hres].
  exists res. split; [done|]. apply satisfaction_view_Ok in Hres as [Hs Hl].
  unfold wrapped_counts. rewrite Hs, Hl, tally_stayed, tally_left.
  split; [by rewrite length_tally|]. split; [by rewrite length_tally|]. split.
  - intros i Hi. split; apply tally_sat_bucket; try done.
    + intros r Hin%elem_of_stayers. apply sat_bucket_wrap; [done|]. by eapply rated_range.
    + intros r Hin%elem_of_leavers. apply sat_bucket_wrap; [done|]. by eapply rated_range.
  - rewrite !sum_tally_sat, len_stayers_leavers; [done|..].
    + intros r Hin%elem_of_leavers. by eapply rated_range.
    + intros r Hin%elem_of_stayers. by eapply rated_range.
Qed.

Lemma satisfaction_view_unfold rows :
  satisfaction_view rows
  = (c <- foldM sat_step ([0; 0; 0; 0], [0; 0; 0; 0]) rows ;;
     Ok {| sp_labels := ["1 - Low"; "2 - Medium"; "3 - High"; "4 - Very High"];
           sp_stayed := c.1; sp_left := c.2 |}).
Proof. reflexivity. Qed.

Lemma list_incr_Err l idx :
  ~ (- Py.len l <= idx < Py.len l) -> Py.list_incr l idx = Err IndexError.
Proof.
  intros Hn. unfold Py.list_incr. cbv zeta.
  destruct (Z.ltb_spec idx 0);
    [destruct (Z.leb_spec 0 (idx + Py.len l)), (Z.ltb_spec (idx + Py.len l) (Py.len l))
    |destruct (Z.leb_spec 0 idx), (Z.ltb_spec idx (Py.len l))]; simpl; try done; lia.
Qed.

(** On a record with an Attrition field and a numeric rating, one step
    counts a rating from -3 to 4 and raises IndexError on any other. *)
Lemma sat_step_cases c r :
  length c.1 = 4%nat -> length c.2 = 4%nat ->
  is_Some (r !! "Attrition") -> numeric "JobSatisfaction" r ->
  (-3 <= satisfaction r <= 4 /\
   exists c', sat_step c r = Ok c' /\ length c'.1 = 4%nat /\ length c'.2 = 4%nat) \/
  (~ (-3 <= satisfaction r <= 4) /\ sat_step c r = Err IndexError).
Proof.
  intros H1 H2 [a Ha] [s Hs]. pose proof (int_field_int_of _ _ _ Hs) as Hsat.
  fold (satisfaction r) in Hsat.
  destruct (decide (-3 <= satisfaction r <= 4)) as [Hin|Hout].
  - left. split; [done|].
    destruct (sat_step_total c r H1 H2) as [c' Hc'].
    { intros r' ->%list_elem_of_singleton. split; [by eexists|]. exists s. split; [done|lia]. }
    exists c'. split; [done|].
    destruct (sat_step_Ok _ _ _ H1 H2 Hc') as [-> ->]. by rewrite !length_bump.
  - right. split; [done|]. unfold sat_step. rewrite Hs. cbn [bind].
    unfold attrition_is. rewrite (getitem_Some _ _ _ Ha). cbn [bind].
    destruct (String.eqb a "Yes").
    + rewrite list_incr_Err; [done|]. unfold Py.len. rewrite H2. lia.
    + rewrite list_incr_Err; [done|]. unfold Py.len. rewrite H1. lia.
Qed.

Lemma sat_loop_Err rows c r :
  length c.1 = 4%nat -> length c.2 = 4%nat ->
  Forall (fun r => is_Some (r !! "Attrition") /\ numeric "JobSatisfaction" r) rows ->
  r ∈ rows -> ~ (-3 <= satisfaction r <= 4) ->
  foldM sat_step c rows = Err IndexError.
Proof.
  intros H1 H2 Hall Hr Hout. revert c H1 H2.
  induction Hall as [|r' rows [Ha Hn] _ IH]; intros c H1 H2; [by apply elem_of_nil in Hr|].
  cbn [foldM].
  destruct (sat_step_cases c r' H1 H2 Ha Hn) as [(Hin & c' & -> & H1' & H2')|[_ ->]];
    [|done].
  cbn [bind]. apply elem_of_cons in Hr as [->|Hr]; [done|]. by apply IH.
Qed.

(** X12: the satisfaction view indexes its two lists of four with
    [int(JobSatisfaction) - 1] unchecked.  When every filtered record has
    an Attrition field and a rating from -3 to 4 the view returns, and a
    rating of 0 or less is counted through the negative index, in the
    bucket of the rating four higher.  When the ratings are numeric and
    one of them is below -3 or above 4, the handler raises IndexError in
    both files and [do_GET] answers 500. *)
Theorem X12_satisfaction_index (p : params) (data rows : list row) :
  Server.load p data = Ok rows ->
  (rated (-3) 4 rows ->
   exists res,
     Main.satisfaction_distribution (gender p) (job_role p) (education p) (department p) data
       = Ok res /\
     Server.api_satisfaction p data = Ok res /\
     wrapped_counts rows res) /\
  (forall r,
     Forall (fun r => is_Some (r !! "Attrition") /\ numeric "JobSatisfaction" r) rows ->
     r ∈ rows -> ~ (-3 <= satisfaction r <= 4) ->
     Main.satisfaction_distribution (gender p) (job_role p) (education p) (department p) data
       = Err IndexError /\
     Server.api_satisfaction p data = Err IndexError /\
     Server.do_GET "/api/satisfaction-distribution" p data = Server.Error500 IndexError).
Proof.
  intros Hload.
  rewrite (do_GET_route p data "/api/satisfaction-distribution" Server.PSplit
             Server.api_satisfaction eq_refl).
  rewrite satisfaction_equiv, main_satisfaction_unfold. rewrite load_equiv in Hload.
  rewrite Hload. cbn [bind]. split.
  - intros (res & Hres & Hc)%satisfaction_view_wrapped. eauto.
  - intros r Hall Hr Hout. rewrite satisfaction_view_unfold.
    by rewrite (sat_loop_Err rows ([0; 0; 0; 0], [0; 0; 0; 0]) r eq_refl eq_refl
                  Hall Hr Hout).
Qed.

Lemma X12_witness :
  (Server.load no_filter [alice; gina] = Ok [alice; gina] /\
   rated (-3) 4 [alice; gina] /\
   exists res, Server.api_satisfaction no_filter [alice; gina] = Ok res /\
     sp_stayed res = [0; 0; 1; 0] /\ sp_left res = [0; 0; 0; 1]) /\
  (Server.load no_filter [alice; hugo] = Ok [alice; hugo] /\
   Forall (fun r => is_Some (r !! "Attrition") /\ numeric "JobSatisfaction" r)
     [alice; hugo] /\
   hugo ∈ [alice; hugo] /\ ~ (-3 <= satisfaction hugo <= 4) /\
   Server.do_GET "/api/satisfaction-distribution" no_filter [alice; hugo]
   = Server.Error500 IndexError).
Proof.
  split.
  - assert (Hload : Server.load no_filter [alice; gina] = Ok [alice; gina]) by reflexivity.
    assert (Hr : rated (-3) 4 [alice; gina]).
    { intros r [->|[->|[]%elem_of_nil]%elem_of_cons]%elem_of_cons;
        (split; [by eexists|]); [exists 4|exists (-1)]; (split; [reflexivity|lia]). }
    split; [exact Hload|]. split; [exact Hr|].
    destruct (proj1 (X12_satisfaction_index no_filter _ _ Hload) Hr) as (res & _ & Hres & _).
    exists res. split; [exact Hres|].
    vm_compute in Hres. injection Hres as <-. split; reflexivity.
  - assert (Hload : Server.load no_filter [alice; hugo] = Ok [alice; hugo]) by reflexivity.
    assert (Hall : Forall (fun r => is_Some (r !! "Attrition") /\ numeric "JobSatisfaction" r)
              [alice; hugo]).
    { repeat apply Forall_cons_2; [| |constructor]; split; by eexists. }
    assert (Hin : hugo ∈ [alice; hugo]) by (right; left).
    assert (Hout : ~ (-3 <= satisfaction hugo <= 4)).
    { assert (satisfaction hugo = 5) as -> by reflexivity. lia. }
    split; [exact Hload|]. split; [exact Hall|]. split; [exact Hin|].
    split; [exact Hout|].
    exact (proj2 (proj2 (proj2 (X12_satisfaction_index no_filter _ _ Hload)
                                 hugo Hall Hin Hout))).
Defined.

(** ** The exceptions of each view *)

Section RaisesOnly.

Context (P : exn -> Prop).

Lemma raises_only_Ok {A} (a : A) : raises_only P (Ok a).
Proof. by intros e. Qed.

Lemma raises_only_bind {A B} (m : result A) (k : A -> result B) :
  raises_only P m -> (forall a, m = Ok a -> raises_only P (k a)) ->
  raises_only P (bind m k).
Proof.
  intros Hm Hk e [H|(a & Ha & H)]%bind_Err; [by apply Hm|by eapply Hk].
Qed.

Lemma raises_only_foldM_inv {A S} (Inv : S -> Prop) (f : S -> A -> result S) s l :
  Inv s ->
  (forall s x, x ∈ l -> Inv s ->
     raises_only P (f s x) /\ forall s', f s x = Ok s' -> Inv s') ->
  raises_only P (foldM f s l).
Proof.
  revert s. induction l as [|x l IH]; intros s Hs Hf; [done|].
  cbn [foldM]. destruct (Hf s x (list_elem_of_here _ _) Hs) as [He Hi].
  apply raises_only_bind; [done|]. intros s' Hs'. apply IH; [by apply Hi|].
  intros s0 y Hy. apply Hf. by right.
Qed.

Lemma raises_only_foldM {A S} (f : S -> A -> result S) s l :
  (forall s x, x ∈ l -> raises_only P (f s x)) -> raises_only P (foldM f s l).
Proof.
  intros Hf. apply (raises_only_foldM_inv (fun _ => True)); [done|].
  intros s0 x Hx _. split; [by apply Hf|done].
Qed.

Lemma raises_only_mapM {A B} (f : A -> result B) l :
  (forall x, x ∈ l -> raises_only P (f x)) -> raises_only P (mapM f l).
Proof.
  induction l as [|x l IH]; intros Hf; [done|]. cbn [mapM].
  apply raises_only_bind; [apply Hf; by left|]. intros y _.
  apply raises_only_bind; [apply IH; intros z Hz; apply Hf; by right|]. by intros ys _.
Qed.

Lemma raises_only_comp {A B} (c : A -> result bool) (f : A -> result B) l :
  (forall x, x ∈ l -> raises_only P (c x)) -> (forall x, x ∈ l -> raises_only P (f x)) ->
  raises_only P (comp c f l).
Proof.
  induction l as [|x l IH]; intros Hc Hf; [done|]. cbn [comp].
  assert (Hrest : raises_only P (comp c f l)).
  { apply IH; intros z Hz; [apply Hc|apply Hf]; by right. }
  apply raises_only_bind; [apply Hc; by left|]. intros [] _; [|done].
  apply raises_only_bind; [apply Hf; by left|]. intros y _.
  apply raises_only_bind; [done|]. by intros ys _.
Qed.

Lemma raises_only_total {A} (m : result A) : (exists a, m = Ok a) -> raises_only P m.
Proof. intros [a ->]. apply raises_only_Ok. Qed.

End RaisesOnly.

Lemma raises_only_weaken {A} (P Q : exn -> Prop) (m : result A) :
  (forall e, P e -> Q e) -> raises_only P m -> raises_only Q m.
Proof. intros HPQ Hm e He. by apply HPQ, Hm. Qed.

Lemma raises_nothing {A} (m : result A) :
  raises_only (fun _ => False) m -> exists a, m = Ok a.
Proof. destruct m as [a|e]; [by exists a|]. intros H. by destruct (H e). Qed.

Lemma missing_field_error rows e : missing rows e -> field_error rows e.
Proof. by left. Qed.

Lemma missing_index_error rows e : missing rows e -> index_error rows e.
Proof. left. by left. Qed.

Lemma missing_mean_error rows e : missing rows e -> mean_error rows e.
Proof. left. by left. Qed.

Lemma missing_overtime_error rows e : missing rows e -> overtime_error rows e.
Proof. by left. Qed.

Lemma field_index_error rows e : field_error rows e -> index_error rows e.
Proof. by left. Qed.

Lemma field_mean_error rows e : field_error rows e -> mean_error rows e.
Proof. by left. Qed.

(** The errors of a selection are errors of the file. *)
Lemma missing_mono rows data e : rows ⊆ data -> missing rows e -> missing data e.
Proof. intros Hs (r & k & Hr & H). exists r, k. split; [by apply Hs|done]. Qed.

Lemma rejected_mono rows data e : rows ⊆ data -> rejected rows e -> rejected data e.
Proof. intros Hs (r & k & s & Hr & H). exists r, k, s. split; [by apply Hs|done]. Qed.

Lemma off_cell_mono rows data e : rows ⊆ data -> off_cell rows e -> off_cell data e.
Proof. intros Hs (r & c & k & Hr & H). exists r, c, k. split; [by apply Hs|done]. Qed.

Lemma field_error_mono rows data e : rows ⊆ data -> field_error rows e -> field_error data e.
Proof. intros Hs [H|H]; [left; by eapply missing_mono|right; by eapply rejected_mono]. Qed.

Lemma index_error_mono rows data e : rows ⊆ data -> index_error rows e -> index_error data e.
Proof. intros Hs [H|H]; [left; by eapply field_error_mono|by right]. Qed.

Lemma mean_error_mono rows data e : rows ⊆ data -> mean_error rows e -> mean_error data e.
Proof. intros Hs [H|H]; [left; by eapply field_error_mono|by right]. Qed.

Lemma overtime_error_mono rows data e :
  rows ⊆ data -> overtime_error rows e -> overtime_error data e.
Proof. intros Hs [H|H]; [left; by eapply missing_mono|right; by eapply off_cell_mono]. Qed.

(** No column is missing from a file that is tabular. *)
Lemma missing_tabular data e : tabular data -> missing data e -> False.
Proof.
  intros Ht (r & k & Hr & Hk & Hn & _). destruct (Ht r k Hr Hk) as [v Hv]. congruence.
Qed.






Section Leaves.

Variable rows : list row.

Lemma getitem_raises r k :
  r ∈ rows -> k ∈ columns -> raises_only (missing rows) (Py.getitem r k).
Proof.
  intros Hr Hk e. unfold Py.getitem. destruct (r !! k) eqn:Hv; [done|]. intros [= <-].
  by exists r, k.
Qed.

Lemma int_field_raises k r :
  r ∈ rows -> k ∈ columns -> raises_only (field_error rows) (int_field k r).
Proof.
  intros Hr Hk. apply raises_only_bind.
  { eapply raises_only_weaken, getitem_raises; [apply missing_field_error|done..]. }
  intros v Hv%getitem_Ok e He. right. by exists r, k, v.
Qed.

Lemma attrition_is_raises v r : r ∈ rows -> raises_only (missing rows) (attrition_is v r).
Proof.
  intros Hr. apply raises_only_bind; [|by intros].
  apply getitem_raises; [done|]. unfold columns. by repeat constructor.
Qed.

End Leaves.

Lemma load_data_subseteq g j e d data rows :
  Main.load_data g j e d data = Ok rows -> rows ⊆ data.
Proof.
  intros H%main_load_data_Ok r Hr. subst rows.
  by apply list_elem_of_filter in Hr as [_ Hr].
Qed.

Lemma load_data_raises g j e d data : raises_only (missing data) (Main.load_data g j e d data).
Proof.
  intros x H. apply (load_loop_Err g j e d data []) in H as (k & arg & r & -> & Hk & _ & Hr & Hn).
  exists r, k. split_and!; try done. unfold columns.
  repeat (apply elem_of_cons in Hk as [[= -> _]|Hk]; [by repeat constructor|]).
  by apply elem_of_nil in Hk.
Qed.

Lemma tabular_filter_columns data : tabular data -> Forall filter_columns data.
Proof.
  intros Ht. apply Forall_forall. intros r Hr. unfold filter_columns.
  split_and!; apply Ht; try done; unfold columns; by repeat constructor.
Qed.

Lemma tabular_subseteq rows data : rows ⊆ data -> tabular data -> tabular rows.
Proof. intros Hs Ht r k Hr Hk. apply Ht; [by apply Hs|done]. Qed.

Lemma truediv_raises a b : b <> 0 -> raises_only (eq OverflowError) (Py.truediv a b).
Proof.
  intros Hb e. unfold Py.truediv. destruct (Z.eqb_spec b 0); [done|].
  destruct (SFdiv _ _ _ _); by intros [= <-].
Qed.

Lemma list_incr_raises l idx : raises_only (eq IndexError) (Py.list_incr l idx).
Proof. intros e. unfold Py.list_incr. cbv zeta. destruct (_ && _); by intros [= <-]. Qed.

Lemma len_cons_ne {A} (x : A) l : Py.len (x :: l) <> 0.
Proof. unfold Py.len. simpl length. lia. Qed.

Lemma int_mean_raises rows l : raises_only (mean_error rows) (int_mean_or_zero l).
Proof.
  unfold int_mean_or_zero. destruct l as [|x l]; [done|].
  apply raises_only_bind.
  - eapply raises_only_weaken, truediv_raises, len_cons_ne. intros e <-. by right.
  - intros q Hq. by apply raises_only_total, (truediv_round _ _ _ Hq).
Qed.

Lemma mean_raises rows nd l : raises_only (mean_error rows) (mean_or_zero nd l).
Proof.
  unfold mean_or_zero. destruct l as [|x l]; [done|].
  apply raises_only_bind; [|done].
  eapply raises_only_weaken, truediv_raises, len_cons_ne. intros e <-. by right.
Qed.

(** The category views *)

Lemma rate_view_raises k rows :
  k ∈ columns -> raises_only (missing rows) (rate_view k rows).
Proof.
  intros Hk. unfold rate_view. apply raises_only_bind.
  - apply raises_only_foldM. intros c r Hr. unfold count_step.
    apply raises_only_bind; [by apply getitem_raises|]. intros v _. cbv zeta.
    apply raises_only_bind; [by apply attrition_is_raises|]. intros [] _; [|done].
    apply raises_only_bind; [by apply getitem_raises|]. by intros.
  - intros c [Ht Ha]%count_loop_Ok. simpl in Ht, Ha.
    fold (Counter.of_list (field k <$> rows)) in Ht.
    fold (Counter.of_list (field k <$> leavers rows)) in Ha. rewrite Ht, Ha. cbv zeta.
    apply raises_only_bind; [|done]. apply raises_only_total, mapM_total.
    intros l _. rewrite !get_of_list. apply rate_or_zero_total, occ_leavers_le.
Qed.

Lemma count_view_raises k rows :
  k ∈ columns -> raises_only (missing rows) (count_view k rows).
Proof.
  intros Hk. unfold count_view.
  apply raises_only_bind; [apply raises_only_mapM; intros; by apply getitem_raises|].
  intros ks _. cbv zeta. apply raises_only_bind; [|done].
  apply raises_only_comp; intros; [by apply attrition_is_raises|by apply getitem_raises].
Qed.

Lemma get_filters_raises data : raises_only (missing data) (Main.get_filters data).
Proof.
  unfold Main.get_filters. rewrite load_data_all. cbn [bind].
  apply raises_only_bind;
    [apply raises_only_mapM; intros; apply getitem_raises;
     [done|unfold columns; by repeat constructor]|].
  intros g _.
  apply raises_only_bind;
    [apply raises_only_mapM; intros; apply getitem_raises;
     [done|unfold columns; by repeat constructor]|].
  intros j _.
  apply raises_only_bind;
    [apply raises_only_mapM; intros; apply getitem_raises;
     [done|unfold columns; by repeat constructor]|].
  by intros.
Qed.

Lemma off_table_error rows r k :
  r ∈ rows -> off_table r k -> overtime_error rows (KeyError k).
Proof.
  intros Hr [[Hk Hn]|(c & Hc & Hv & Hy & Hno)].
  - left. exists r, k. split_and!; try done. unfold columns.
    repeat (apply elem_of_cons in Hk as [->|Hk]; [by repeat constructor|]).
    by apply elem_of_nil in Hk.
  - right. by exists r, c, k.
Qed.

Lemma overtime_view_raises rows : raises_only (overtime_error rows) (overtime_view rows).
Proof.
  unfold overtime_view.
  destruct (overtime_loop_cases rows 0 0 0 0)
    as [(yy & yn & ny & nn & ->)|(k & r & -> & Hr & Hk)].
  - apply raises_only_total. eexists. reflexivity.
  - intros e [= <-]. by apply (off_table_error rows r).
Qed.

(** The age and years views *)

Lemma age_step_raises rows c r :
  r ∈ rows -> length c.1 = 10%nat -> length c.2 = 10%nat ->
  raises_only (field_error rows) (age_step c r) /\
  forall c', age_step c r = Ok c' -> length c'.1 = 10%nat /\ length c'.2 = 10%nat.
Proof.
  intros Hr H1 H2. unfold age_step. destruct (int_field "Age" r) as [a|x] eqn:Ha.
  2:{ split; [|done]. intros e [= <-].
      apply (int_field_raises rows "Age" r); [done| |done]. unfold columns.
      by repeat constructor. }
  cbn [bind]. cbv zeta.
  destruct ((0 <=? Z.min ((a - 18) / 5) (10 - 1)) && (Z.min ((a - 18) / 5) (10 - 1) <? 10))
    eqn:Hin; [|split; [done|by intros c' [= <-]]].
  apply andb_prop in Hin as [H0%Z.leb_le H9%Z.ltb_lt].
  destruct (list_incr_total c.1 (Z.min ((a - 18) / 5) (10 - 1))) as [tc Htc];
    [unfold Py.len; lia|].
  destruct (list_incr_total c.2 (Z.min ((a - 18) / 5) (10 - 1))) as [ac Hac];
    [unfold Py.len; lia|].
  rewrite Htc. cbn [bind].
  pose proof (list_incr_Ok _ _ _ Htc) as [_ Etc].
  pose proof (list_incr_Ok _ _ _ Hac) as [_ Eac].
  destruct (attrition_is "Yes" r) as [y|x] eqn:Hy.
  2:{ split; [|done]. intros e [= <-]. left. by apply (attrition_is_raises rows "Yes" r). }
  cbn [bind]. destruct y.
  - rewrite Hac. cbn [bind]. split; [done|]. intros c' [= <-]. cbn [fst snd].
    by rewrite Etc, Eac, !length_bump.
  - split; [done|]. intros c' [= <-]. cbn [fst snd]. by rewrite Etc, length_bump.
Qed.

Lemma age_view_raises rows : raises_only (field_error rows) (age_view rows).
Proof.
  rewrite age_view_unfold. apply raises_only_bind; [|done].
  apply (raises_only_foldM_inv _
           (fun c : list Z * list Z => length c.1 = 10%nat /\ length c.2 = 10%nat));
    [done|].
  intros c r Hr [H1 H2]. by apply age_step_raises.
Qed.

Lemma years_view_raises rows : raises_only (field_error rows) (years_view rows).
Proof.
  rewrite years_view_unfold. apply raises_only_bind.
  - apply raises_only_foldM. intros c r Hr. unfold years_step.
    apply raises_only_bind;
      [apply int_field_raises; [done|unfold columns; by repeat constructor]|].
    intros y _. cbv zeta.
    apply raises_only_bind; [|by intros [] _].
    eapply raises_only_weaken, attrition_is_raises; [apply missing_field_error|done].
  - intros c [Ht Ha]%years_loop_Ok. simpl in Ht, Ha.
    fold (Counter.of_list (years <$> rows)) in Ht.
    fold (Counter.of_list (years <$> leavers rows)) in Ha. rewrite Ht, Ha.
    rewrite max_keys_of_list. cbn [bind].
    apply raises_only_bind; [|done]. apply raises_only_total, mapM_total.
    intros l _. rewrite !get_of_list. apply rate_or_zero_total, occ_leavers_le.
Qed.

(** The satisfaction view *)

Lemma satisfaction_view_raises rows :
  raises_only (index_error rows) (satisfaction_view rows).
Proof.
  rewrite satisfaction_view_unfold. apply raises_only_bind; [|done].
  apply raises_only_foldM. intros c r Hr. unfold sat_step.
  apply raises_only_bind.
  { eapply raises_only_weaken, int_field_raises;
      [apply field_index_error|done|unfold columns; by repeat constructor]. }
  intros s _. cbv zeta.
  apply raises_only_bind;
    [eapply raises_only_weaken, attrition_is_raises; [apply missing_index_error|done]|].
  intros [] _; (apply raises_only_bind; [|done]);
    (eapply raises_only_weaken, list_incr_raises; intros e <-; by right).
Qed.

(** The three views of averages *)

Lemma kpi_view_raises rows : raises_only (mean_error rows) (kpi_view rows).
Proof.
  unfold kpi_view. destruct (Z.eqb_spec (Py.len rows) 0) as [|H0]; [done|].
  assert (Hdiv : forall a, raises_only (mean_error rows) (Py.truediv a (Py.len rows))).
  { intros a. eapply raises_only_weaken, truediv_raises, H0. intros e <-. by right. }
  assert (Hfield : forall k, k ∈ columns ->
            raises_only (mean_error rows) (mapM (int_field k) rows)).
  { intros k Hk. apply raises_only_mapM. intros r Hr.
    eapply raises_only_weaken, int_field_raises; [apply field_mean_error|done..]. }
  apply raises_only_bind.
  { apply raises_only_comp; [|done]. intros r Hr.
    eapply raises_only_weaken, attrition_is_raises; [apply missing_mean_error|done]. }
  intros ones _. cbv zeta.
  apply raises_only_bind; [apply Hfield; unfold columns; by repeat constructor|].
  intros ages _.
  apply raises_only_bind; [apply Hdiv|]. intros avg_age _.
  apply raises_only_bind; [apply Hfield; unfold columns; by repeat constructor|].
  intros incomes _.
  apply raises_only_bind; [apply Hdiv|]. intros avg_income Hinc.
  apply raises_only_bind; [apply Hfield; unfold columns; by repeat constructor|].
  intros sats _.
  apply raises_only_bind; [apply Hdiv|]. intros avg_sat _.
  apply raises_only_bind; [apply Hdiv|]. intros q _.
  apply raises_only_bind; [|done].
  by apply raises_only_total, (truediv_round _ _ _ Hinc).
Qed.

Lemma income_view_raises rows : raises_only (mean_error rows) (income_view rows).
Proof.
  unfold income_view. apply raises_only_bind.
  - apply raises_only_foldM. intros m r Hr. unfold income_step.
    apply raises_only_bind.
    { eapply raises_only_weaken, getitem_raises;
        [apply missing_mean_error|done|unfold columns; by repeat constructor]. }
    intros k _. apply raises_only_bind; [|done].
    eapply raises_only_weaken, int_field_raises;
      [apply field_mean_error|done|unfold columns; by repeat constructor].
  - intros m _. cbv zeta. apply raises_only_bind; [|done].
    apply raises_only_mapM. intros l _. apply int_mean_raises.
Qed.

Lemma metrics_columns m : m ∈ metrics -> m ∈ columns.
Proof.
  unfold metrics, columns. intros Hm.
  repeat (apply elem_of_cons in Hm as [->|Hm]; [by repeat constructor|]).
  by apply elem_of_nil in Hm.
Qed.

Lemma worklife_view_raises rows : raises_only (mean_error rows) (worklife_view rows).
Proof.
  unfold worklife_view. apply raises_only_bind; [|done].
  apply raises_only_foldM. intros c m Hm%metrics_columns. unfold worklife_step.
  assert (Hcomp : forall v,
            raises_only (mean_error rows) (comp (attrition_is v) (int_field m) rows)).
  { intros v. apply raises_only_comp; intros r Hr.
    - eapply raises_only_weaken, attrition_is_raises; [apply missing_mean_error|done].
    - eapply raises_only_weaken, int_field_raises; [apply field_mean_error|done..]. }
  apply raises_only_bind; [apply Hcomp|]. intros stayed _.
  apply raises_only_bind; [apply Hcomp|]. intros left _.
  apply raises_only_bind; [apply mean_raises|]. intros s _.
  apply raises_only_bind; [apply mean_raises|]. by intros.
Qed.

(** A view behind the loader raises on the file what it raises on the
    selection. *)
Lemma after_load {A} (E : list row -> exn -> Prop) g j e d data
    (view : list row -> result A) :
  (forall x, missing data x -> E data x) ->
  (forall rows x, rows ⊆ data -> E rows x -> E data x) ->
  (forall rows, raises_only (E rows) (view rows)) ->
  raises_only (E data) (rows <- Main.load_data g j e d data ;; view rows).
Proof.
  intros HP Hmono Hv. apply raises_only_bind.
  - eapply raises_only_weaken, load_data_raises. exact HP.
  - intros rows Hrows%load_data_subseteq. eapply raises_only_weaken, Hv.
    intros x. by apply Hmono.
Qed.

Lemma both_of_equal {A} (P : exn -> Prop) (main server : result A) :
  server = main -> raises_only P main -> both_raise_only P main server.
Proof. intros ->. by split. Qed.

Lemma both_answer_equal {A} (main server : result A) :
  server = main -> raises_only (fun _ => False) main -> both_answer main server.
Proof. intros -> [res ->]%raises_nothing. by exists res. Qed.

(** On a tabular selection no column is missing. *)
Lemma field_error_tabular rows e : tabular rows -> field_error rows e -> rejected rows e.
Proof. intros Ht [H|H]; [by destruct (missing_tabular rows e)|done]. Qed.

Lemma index_error_tabular rows e :
  tabular rows -> index_error rows e -> rejected_or IndexError rows e.
Proof. intros Ht [H|H]; [left; by apply field_error_tabular|by right]. Qed.

Lemma mean_error_tabular rows e :
  tabular rows -> mean_error rows e -> rejected_or OverflowError rows e.
Proof. intros Ht [H|H]; [left; by apply field_error_tabular|by right]. Qed.

Lemma overtime_error_tabular rows e : tabular rows -> overtime_error rows e -> off_cell rows e.
Proof. intros Ht [H|H]; [by destruct (missing_tabular rows e)|done]. Qed.

(** X13: what each view can raise, in both files, on a file in which
    every record has text in each of the fifteen columns (the header
    names them all and no line is short of cells).  The loader returns;
    the filter options and the four category views return too.  The
    overtime view raises nothing but the KeyError of an OverTime or
    Attrition cell of a filtered record that is neither "Yes" nor "No".
    The age and years views raise nothing but the ValueError of [int] on
    a cell of a filtered record (the bin index of the age view is always
    in range); the satisfaction view that or IndexError; the KPI, income
    and work-life views that or OverflowError.  In particular no view
    raises ZeroDivisionError. *)
Theorem X13_exceptions_by_view (p : params) (data : list row) :
  tabular data ->
  let g := gender p in
  let j := job_role p in
  let e := education p in
  let d := department p in
  both_answer (Main.get_filters data) (Server.api_filters data) /\
  exists rows,
    Main.load_data g j e d data = Ok rows /\ Server.load p data = Ok rows /\
    both_answer
      (Main.attrition_by_department g j e d data) (Server.api_attrition_dept p data) /\
    both_answer
      (Main.attrition_by_jobrole g j e d data) (Server.api_attrition_jobrole p data) /\
    both_answer (Main.gender_split g j e d data) (Server.api_gender_split p data) /\
    both_answer (Main.education_field g j e d data) (Server.api_edu_field p data) /\
    both_raise_only (off_cell rows)
      (Main.overtime_attrition g j e d data) (Server.api_overtime p data) /\
    both_raise_only (rejected rows)
      (Main.age_distribution g j e d data) (Server.api_age_dist p data) /\
    both_raise_only (rejected rows)
      (Main.years_attrition g j e d data) (Server.api_years_attrition p data) /\
    both_raise_only (rejected_or IndexError rows)
      (Main.satisfaction_distribution g j e d data) (Server.api_satisfaction p data) /\
    both_raise_only (rejected_or OverflowError rows)
      (Main.get_kpis g j e d data) (Server.api_kpis p data) /\
    both_raise_only (rejected_or OverflowError rows)
      (Main.income_by_role g j e d data) (Server.api_income_role p data) /\
    both_raise_only (rejected_or OverflowError rows)
      (Main.worklife_balance g j e d data) (Server.api_worklife p data).
Proof.
  intros Ht g j e d.
  split.
  { apply both_answer_equal; [apply filters_equiv|].
    eapply raises_only_weaken, get_filters_raises. intros x. by apply missing_tabular. }
  pose proof (main_load_data_total g j e d data (tabular_filter_columns data Ht)) as Hload.
  set (rows := filter (matches g j e d) data) in *.
  assert (Hrows : tabular rows).
  { eapply tabular_subseteq, Ht. by eapply load_data_subseteq. }
  assert (Hcol : forall k, k ∈ ["Department"; "JobRole"; "Gender"; "EducationField"] ->
                           k ∈ columns).
  { intros k Hk. unfold columns.
    repeat (apply elem_of_cons in Hk as [->|Hk]; [by repeat constructor|]).
    by apply elem_of_nil in Hk. }
  exists rows. split; [exact Hload|]. split; [by rewrite load_equiv|].
  split.
  { apply both_answer_equal; [apply dept_equiv|]. rewrite main_dept_unfold, Hload.
    cbn [bind]. eapply raises_only_weaken, rate_view_raises;
      [intros x; by apply missing_tabular|apply Hcol; by repeat constructor]. }
  split.
  { apply both_answer_equal; [apply jobrole_equiv|]. rewrite main_jobrole_unfold, Hload.
    cbn [bind]. eapply raises_only_weaken, rate_view_raises;
      [intros x; by apply missing_tabular|apply Hcol; by repeat constructor]. }
  split.
  { apply both_answer_equal; [apply gender_equiv|]. rewrite main_gender_unfold, Hload.
    cbn [bind]. eapply raises_only_weaken, count_view_raises;
      [intros x; by apply missing_tabular|apply Hcol; by repeat constructor]. }
  split.
  { apply both_answer_equal; [apply edu_equiv|]. rewrite main_edu_unfold, Hload.
    cbn [bind]. eapply raises_only_weaken, count_view_raises;
      [intros x; by apply missing_tabular|apply Hcol; by repeat constructor]. }
  split.
  { apply both_of_equal; [apply overtime_equiv|]. rewrite main_overtime_unfold, Hload.
    cbn [bind]. eapply raises_only_weaken, overtime_view_raises.
    intros x. by apply overtime_error_tabular. }
  split.
  { apply both_of_equal; [apply age_equiv|]. rewrite main_age_unfold, Hload.
    cbn [bind]. eapply raises_only_weaken, age_view_raises.
    intros x. by apply field_error_tabular. }
  split.
  { apply both_of_equal; [apply years_equiv|]. rewrite main_years_unfold, Hload.
    cbn [bind]. eapply raises_only_weaken, years_view_raises.
    intros x. by apply field_error_tabular. }
  split.
  { apply both_of_equal; [apply satisfaction_equiv|].
    rewrite main_satisfaction_unfold, Hload.
    cbn [bind]. eapply raises_only_weaken, satisfaction_view_raises.
    intros x. by apply index_error_tabular. }
  split.
  { apply both_of_equal; [apply kpis_equiv|]. rewrite main_kpis_unfold, Hload.
    cbn [bind]. eapply raises_only_weaken, kpi_view_raises.
    intros x. by apply mean_error_tabular. }
  split.
  { apply both_of_equal; [apply income_equiv|]. rewrite main_income_unfold, Hload.
    cbn [bind]. eapply raises_only_weaken, income_view_raises.
    intros x. by apply mean_error_tabular. }
  apply both_of_equal; [apply worklife_equiv|]. rewrite main_worklife_unfold, Hload.
  cbn [bind]. eapply raises_only_weaken, worklife_view_raises.
  intros x. by apply mean_error_tabular.
Qed.

Lemma X13_witness :
  tabular [alice; frank] /\
  exists msg, Server.api_age_dist no_filter [alice; frank] = Err (ValueError msg) /\
    rejected [alice; frank] (ValueError msg).
Proof.
  assert (Ht : tabular [alice; frank]).
  { intros r k Hr Hk. unfold columns in Hk.
    repeat (apply elem_of_cons in Hr as [->|Hr]);
      [| |by apply elem_of_nil in Hr];
      (repeat (apply elem_of_cons in Hk as [->|Hk]; [eexists; reflexivity|]);
       by apply elem_of_nil in Hk). }
  split; [exact Ht|].
  assert (H : Server.api_age_dist no_filter [alice; frank]
              = Err (ValueError "invalid literal for int() with base 10: 'forty'"))
    by reflexivity.
  eexists. split; [exact H|].
  pose proof (X13_exceptions_by_view no_filter [alice; frank] Ht) as Hx. cbv zeta in Hx.
  destruct Hx as (_ & rows & _ & Hload & _ & _ & _ & _ & _ & [_ Hage] & _).
  assert (rows = [alice; frank]) as -> by (by injection Hload as <-).
  exact (Hage _ H).
Defined.

(** ** Malformed records at the HTTP boundary (C8) *)





(** ** The views of an empty selection *)

Lemma both_return_equal {A} (res : A) (main server : result A) :
  server = main -> main = Ok res -> both_return res main server.
Proof. intros -> ->. by split. Qed.

(** X14: when no record passes the filter every chart view still
    returns: the category and income views with no label at all, the age,
    satisfaction and overtime views with their fixed labels and zero
    counts, the work-life view with five zero averages, and the years
    view with the single label 0, whose total and rate are 0. *)
Theorem X14_empty_selection (p : params) (data : list row) :
  Server.load p data = Ok [] ->
  let g := gender p in
  let j := job_role p in
  let e := education p in
  let d := department p in
  both_return {| rs_labels := []; rs_total := []; rs_attrition := []; rs_rate := [] |}
    (Main.attrition_by_department g j e d data) (Server.api_attrition_dept p data) /\
  both_return {| rs_labels := []; rs_total := []; rs_attrition := []; rs_rate := [] |}
    (Main.attrition_by_jobrole g j e d data) (Server.api_attrition_jobrole p data) /\
  both_return {| cs_labels := age_labels; cs_total := replicate 10 0;
                 cs_attrition := replicate 10 0 |}
    (Main.age_distribution g j e d data) (Server.api_age_dist p data) /\
  both_return {| cs_labels := []; cs_total := []; cs_attrition := [] |}
    (Main.gender_split g j e d data) (Server.api_gender_split p data) /\
  both_return {| is_labels := []; is_avg_income := [] |}
    (Main.income_by_role g j e d data) (Server.api_income_role p data) /\
  both_return {| sp_labels := ["1 - Low"; "2 - Medium"; "3 - High"; "4 - Very High"];
                 sp_stayed := [0; 0; 0; 0]; sp_left := [0; 0; 0; 0] |}
    (Main.satisfaction_distribution g j e d data) (Server.api_satisfaction p data) /\
  both_return {| sp_labels := ["With Overtime"; "Without Overtime"];
                 sp_stayed := [0; 0]; sp_left := [0; 0] |}
    (Main.overtime_attrition g j e d data) (Server.api_overtime p data) /\
  both_return {| cs_labels := []; cs_total := []; cs_attrition := [] |}
    (Main.education_field g j e d data) (Server.api_edu_field p data) /\
  both_return {| ys_labels := [0]; ys_attrition_rate := [Int 0]; ys_total := [0] |}
    (Main.years_attrition g j e d data) (Server.api_years_attrition p data) /\
  both_return {| as_labels := ["Job Satisfaction"; "Environment"; "Relationships";
                               "Work-Life Balance"; "Job Involvement"];
                 as_stayed := replicate 5 (Int 0); as_left := replicate 5 (Int 0) |}
    (Main.worklife_balance g j e d data) (Server.api_worklife p data).
Proof.
  intros Hload g j e d. rewrite load_equiv in Hload. fold g j e d in Hload.
  split; [apply both_return_equal; [apply dept_equiv|];
          by rewrite main_dept_unfold, Hload|].
  split; [apply both_return_equal; [apply jobrole_equiv|];
          by rewrite main_jobrole_unfold, Hload|].
  split; [apply both_return_equal; [apply age_equiv|];
          by rewrite main_age_unfold, Hload|].
  split; [apply both_return_equal; [apply gender_equiv|];
          by rewrite main_gender_unfold, Hload|].
  split; [apply both_return_equal; [apply income_equiv|];
          by rewrite main_income_unfold, Hload|].
  split; [apply both_return_equal; [apply satisfaction_equiv|];
          by rewrite main_satisfaction_unfold, Hload|].
  split; [apply both_return_equal; [apply overtime_equiv|];
          by rewrite main_overtime_unfold, Hload|].
  split; [apply both_return_equal; [apply edu_equiv|];
          by rewrite main_edu_unfold, Hload|].
  split; [apply both_return_equal; [apply years_equiv|];
          by rewrite main_years_unfold, Hload|].
  apply both_return_equal; [apply worklife_equiv|].
  by rewrite main_worklife_unfold, Hload.
Qed.

Lemma X14_witness :
  Server.load {| gender := Some "Other"; job_role := None; education := None;
                 department := None |} [alice; bob] = Ok [] /\
  Server.api_years_attrition
    {| gender := Some "Other"; job_role := None; education := None; department := None |}
    [alice; bob]
  = Ok {| ys_labels := [0]; ys_attrition_rate := [Int 0]; ys_total := [0] |}.
Proof.
  assert (Hload : Server.load {| gender := Some "Other"; job_role := None;
                    education := None; department := None |} [alice; bob] = Ok [])
    by reflexivity.
  split; [exact Hload|].
  pose proof (X14_empty_selection _ _ Hload) as H. cbv zeta in H.
  destruct H as (_ & _ & _ & _ & _ & _ & _ & _ & [_ H] & _). exact H.
Defined.

(** ** The same paths in both files *)






(** ** Narrowing a selection *)

Lemma filter_sublist_mono {A} (P Q : A -> Prop) `{!forall x, Decision (P x)}
    `{!forall x, Decision (Q x)} (l : list A) :
  (forall x, P x -> Q x) -> filter P l `sublist_of` filter Q l.
Proof.
  intros HPQ. induction l as [|x l IH]; [done|]. rewrite !filter_cons.
  destruct (decide (P x)) as [HP|HP], (decide (Q x)) as [HQ|HQ].
  - by apply sublist_skip.
  - destruct HQ. auto.
  - by apply sublist_cons.
  - done.
Qed.

Lemma constraint_relaxes arg' arg k r :
  relaxes arg' arg -> constraint arg k r -> constraint arg' k r.
Proof. by intros [-> | ->]. Qed.

Lemma matches_relaxes g j e d g' j' e' d' r :
  relaxes g' g -> relaxes j' j -> relaxes e' e -> relaxes d' d ->
  matches g j e d r -> matches g' j' e' d' r.
Proof.
  intros Hg Hj He Hd (? & ? & ? & ?). split_and!; by eapply constraint_relaxes.
Qed.

Lemma matches_filterable g j e d r : matches g j e d r -> filterable g j e d r.
Proof.
  assert (Hc : forall arg k, constraint arg k r -> active arg -> is_Some (r !! k)).
  { intros arg k Hc (a & -> & Ha). destruct Hc as [|Hc]; [done|]. by rewrite Hc. }
  intros (? & ? & ? & ?). split_and!; by apply Hc.
Qed.

(** X16: the loader returns a sub-sequence of the file, so never more
    records than the file holds; dropping constraints can only add
    records, in the same order; and the records it returns pass the same
    constraints again unchanged. *)
Theorem X16_loader_narrows (g j e d : option string) (data rows : list row) :
  Main.load_data g j e d data = Ok rows ->
  rows `sublist_of` data /\ Py.len rows <= Py.len data /\
  (forall g' j' e' d' rows',
     relaxes g' g -> relaxes j' j -> relaxes e' e -> relaxes d' d ->
     Main.load_data g' j' e' d' data = Ok rows' ->
     rows `sublist_of` rows' /\ Py.len rows <= Py.len rows') /\
  Main.load_data g j e d rows = Ok rows /\ Server.load_data g j e d rows = Ok rows.
Proof.
  intros ->%main_load_data_Ok. split; [apply sublist_filter|].
  split; [unfold Py.len; pose proof (length_filter (matches g j e d) data); lia|].
  split.
  - intros g' j' e' d' rows' Hg Hj He Hd ->%main_load_data_Ok.
    assert (Hs : filter (matches g j e d) data `sublist_of` filter (matches g' j' e' d') data)
      by (apply filter_sublist_mono; intros r; by apply matches_relaxes).
    split; [done|]. apply sublist_length in Hs. unfold Py.len. lia.
  - assert (Hagain : Main.load_data g j e d (filter (matches g j e d) data)
                     = Ok (filter (matches g j e d) data)).
    { pose proof (load_loop_filterable g j e d (filter (matches g j e d) data) []) as H.
      cbn [app] in H. rewrite list_filter_filter in H.
      assert (filter (fun x => matches g j e d x /\ matches g j e d x) data
              = filter (matches g j e d) data) as Heq
        by (apply list_filter_iff; tauto).
      rewrite Heq in H. apply H, Forall_forall.
      intros r [Hm _]%list_elem_of_filter. by apply matches_filterable. }
    split; [done|]. by rewrite load_data_equiv.
Qed.

Lemma X16_witness :
  Main.load_data (Some "Female") None None (Some "A") [alice; bob; carol] = Ok [alice; carol] /\
  [alice; carol] `sublist_of` [alice; bob; carol] /\
  Main.load_data (Some "Female") None None (Some "A") [alice; carol] = Ok [alice; carol].
Proof.
  assert (Hload : Main.load_data (Some "Female") None None (Some "A") [alice; bob; carol]
                  = Ok [alice; carol]) by reflexivity.
  split; [exact Hload|].
  destruct (X16_loader_narrows _ _ _ _ _ _ Hload) as (Hs & _ & _ & Ha & _).
  split; [exact Hs|exact Ha].
Defined.

(** ** What [get_params] makes of a query *)

Section Split.

Lemma split_nonempty sep s : Url.split sep s <> [].
Proof. destruct s as [|c s]; [done|]. simpl. destruct (Ascii.eqb c sep); [done|]. by destruct (Url.split sep s). Qed.

Lemma split_app sep a b :
  Url.split sep (a ++ sep :: b) = (Url.split sep a ++ Url.split sep b)%list.
Proof.
  induction a as [|c a IH]; simpl.
  - by rewrite Ascii.eqb_refl.
  - destruct (Ascii.eqb c sep); [by rewrite IH|]. rewrite IH.
    pose proof (split_nonempty sep a). by destruct (Url.split sep a).
Qed.

Lemma split_none sep s :
  Forall (fun c => c <> sep) s -> Url.split sep s = [s].
Proof.
  induction 1 as [|c s Hc _ IH]; [done|]. simpl.
  destruct (Ascii.eqb_spec c sep); [done|]. by rewrite IH.
Qed.

Lemma split1_app sep a b :
  Forall (fun c => c <> sep) a -> Url.split1 sep (a ++ sep :: b) = (a, Some b).
Proof.
  induction 1 as [|c a Hc _ IH]; simpl.
  - by rewrite Ascii.eqb_refl.
  - destruct (Ascii.eqb_spec c sep); [done|]. by rewrite IH.
Qed.

End Split.

(** *** Decoding keeps a text non-empty *)

Lemma replacement_app s : (Url.replacement ++ s)%list <> [].
Proof. done. Qed.

Lemma decode_replace_nonempty s : s <> [] -> Url.decode_replace s <> [].
Proof.
  destruct s as [|c1 s1]; [done|]. intros _. cbn [Url.decode_replace]. cbv zeta.
  repeat first [ done | apply replacement_app
               | match goal with
                 | |- context [if ?b then _ else _] => destruct b
                 | |- context [match ?l with [] => _ | _ :: _ => _ end] => destruct l
                 end ].
Qed.

Lemma unescape_nonempty item : Url.unescape item <> [].
Proof.
  unfold Url.unescape. destruct item as [|h [|l rest]]; try done.
  destruct (Url.hex_of h), (Url.hex_of l); done.
Qed.

Lemma unquote_to_bytes_nonempty s : s <> [] -> Url.unquote_to_bytes s <> [].
Proof.
  intros Hs. unfold Url.unquote_to_bytes.
  destruct (Url.split "%" s) as [|first items] eqn:Hsp; [done|].
  destruct first as [|c first]; [|done]. simpl.
  destruct items as [|item items].
  - destruct s as [|c s]; [done|]. simpl in Hsp.
    destruct (Ascii.eqb c "%"); [|by destruct (Url.split "%" s)].
    injection Hsp as Hsp. by apply split_nonempty in Hsp.
  - simpl. pose proof (unescape_nonempty item). by destruct (Url.unescape item).
Qed.

Lemma span_cons p c s :
  p c = true -> exists run rest, Url.span p (c :: s) = (c :: run, rest).
Proof. intros Hp. simpl. rewrite Hp. destruct (Url.span p s). eauto. Qed.

Lemma unquote_nonempty s : s <> [] -> Url.unquote s <> [].
Proof.
  intros Hs. unfold Url.unquote. case_bool_decide; [|done].
  destruct s as [|c s]; [done|]. cbn [length Url.unquote_runs].
  destruct (Url.is_ascii c) eqn:Hc.
  - destruct (span_cons Url.is_ascii c s Hc) as (run & rest & ->).
    assert (Hrun : c :: run <> []) by done.
    pose proof (decode_replace_nonempty _ (unquote_to_bytes_nonempty _ Hrun)).
    by destruct (Url.decode_replace _).
  - destruct (span_cons (fun c => negb (Url.is_ascii c)) c s) as (run & rest & ->);
      [by rewrite Hc|done].
Qed.

Lemma plus_to_space_nonempty s : s <> [] -> Url.plus_to_space s <> [].
Proof. by destruct s. Qed.

Lemma string_of_list_ascii_nonempty s : s <> [] -> string_of_list_ascii s <> "".
Proof. by destruct s. Qed.

(** Every field that [parse_qsl] keeps has a value. *)
Lemma parse_qsl_values qs k v : (k, v) ∈ Url.parse_qsl qs -> v <> "".
Proof.
  unfold Url.parse_qsl. intros (name_value & _ & H)%list_elem_of_omap.
  destruct (Url.split1 "=" name_value) as [name [value|]]; [|done].
  destruct value as [|c value]; [done|]. injection H as _ <-.
  by apply string_of_list_ascii_nonempty, unquote_nonempty.
Qed.

(** *** The dict of [parse_qs] *)

Lemma field_values_cons k kv pairs :
  field_values k (kv :: pairs)
  = ((if decide (kv.1 = k) then [kv.2] else []) ++ field_values k pairs)%list.
Proof. unfold field_values. rewrite filter_cons. by destruct (decide _). Qed.

Lemma field_values_app k l1 l2 :
  field_values k (l1 ++ l2) = (field_values k l1 ++ field_values k l2)%list.
Proof. unfold field_values. by rewrite filter_app, fmap_app. Qed.

Lemma parse_qs_fold pairs (m : gmap string (list string)) k :
  foldl (fun parsed_result '(name, value) =>
           match parsed_result !! name with
           | Some values => <[name := (values ++ [value])%list]> parsed_result
           | None => <[name := [value]]> parsed_result
           end) m pairs !! k
  = match m !! k, field_values k pairs with
    | Some l, vs => Some (l ++ vs)%list
    | None, [] => None
    | None, vs => Some vs
    end.
Proof.
  revert m. induction pairs as [|[name value] pairs IH]; intros m.
  - simpl. destruct (m !! k); by rewrite ?app_nil_r.
  - cbn [foldl]. rewrite IH, field_values_cons. cbn [fst snd].
    destruct (decide (name = k)) as [->|Hne].
    + destruct (m !! k) as [l|] eqn:Hm; rewrite lookup_insert_eq.
      * by rewrite <- app_assoc.
      * done.
    + destruct (m !! name); by rewrite lookup_insert_ne.
Qed.

Lemma parse_qs_lookup qs k :
  Url.parse_qs qs !! k
  = match field_values k (Url.parse_qsl (list_ascii_of_string qs)) with
    | [] => None
    | vs => Some vs
    end.
Proof. unfold Url.parse_qs. by rewrite parse_qs_fold, lookup_empty. Qed.

Lemma first_value_parse_qs qs k :
  Url.first_value (Url.parse_qs qs) k
  = Ok (head (field_values k (Url.parse_qsl (list_ascii_of_string qs)))).
Proof.
  unfold Url.first_value. rewrite parse_qs_lookup. by destruct (field_values _ _).
Qed.

Lemma get_params_Ok qs :
  Url.get_params qs = Ok (params_of (Url.parse_qsl (list_ascii_of_string qs))).
Proof. unfold Url.get_params. cbv zeta. by rewrite !first_value_parse_qs. Qed.

Lemma head_field_values k pairs v :
  head (field_values k pairs) = Some v -> (k, v) ∈ pairs.
Proof.
  unfold field_values. intros H.
  assert (v ∈ (filter (fun kv => kv.1 = k) pairs).*2) as Hin.
  { destruct (_.*2) as [|x l]; [done|]. injection H as ->. left. }
  apply list_elem_of_fmap in Hin as ([k' v'] & -> & [Hk Hin]%list_elem_of_filter).
  simpl in Hk. by subst k'.
Qed.

Lemma params_of_no_empty pairs :
  (forall k v, (k, v) ∈ pairs -> v <> "") -> no_empty_value (params_of pairs).
Proof.
  intros Hp. unfold no_empty_value, params_of. cbn [gender job_role education department].
  split_and!; intros H%head_field_values; by eapply Hp.
Qed.

(** Under parameters without an empty text, a supplied constraint is an
    exact match. *)
Lemma matches_no_empty p r :
  no_empty_value p ->
  matches (gender p) (job_role p) (education p) (department p) r
  <-> matches_spec (gender p) (job_role p) (education p) (department p) r.
Proof.
  intros (Hg & Hj & He & Hd).
  assert (Hc : forall arg k, arg <> Some "" -> constraint arg k r <-> constraint_spec arg k r).
  { intros [a|] k Ha; [|done]. simpl. split; [|by right].
    intros [->|]; [done|done]. }
  unfold matches, matches_spec. by rewrite !Hc.
Qed.

(** X17: [get_params] never raises, and no parameter it returns is the
    empty text: a field without a value is dropped by [parse_qs], and
    decoding keeps a value non-empty.  So through [do_GET] the loader of
    [server.py] matches every parameter of the query exactly: the records
    it returns are those equal to each supplied parameter in its column. *)
Theorem X17_get_params_values (qs : string) :
  exists p,
    Url.get_params qs = Ok p /\ no_empty_value p /\
    (forall path data, do_GET_query path qs data = Server.do_GET path p data) /\
    (forall data rows, Server.load p data = Ok rows ->
       rows = filter (matches_spec (gender p) (job_role p) (education p) (department p))
                data).
Proof.
  exists (params_of (Url.parse_qsl (list_ascii_of_string qs))).
  assert (Hne : no_empty_value (params_of (Url.parse_qsl (list_ascii_of_string qs))))
    by (apply params_of_no_empty; intros k v; apply parse_qsl_values).
  split; [apply get_params_Ok|]. split; [done|]. split.
  - intros path data. unfold do_GET_query, Server.do_GET. rewrite get_params_Ok.
    destruct (Server.ROUTES !! path) as [[fn []]|]; done.
  - intros data rows Hload. rewrite load_equiv in Hload.
    apply main_load_data_Ok in Hload as ->.
    apply list_filter_iff. intros r. by apply matches_no_empty.
Qed.

Lemma X17_witness :
  exists p,
    Url.get_params "gender=&department=A&job_role" = Ok p /\
    p = {| gender := None; job_role := None; education := None; department := Some "A" |} /\
    Server.load p [alice; bob] = Ok [alice] /\
    [alice] = filter (matches_spec (gender p) (job_role p) (education p) (department p))
                [alice; bob].
Proof.
  destruct (X17_get_params_values "gender=&department=A&job_role")
    as (p & Hp & _ & _ & Hl).
  exists p. split; [exact Hp|].
  assert (Hq : p = {| gender := None; job_role := None; education := None;
                      department := Some "A" |}).
  { vm_compute in Hp. by injection Hp as <-. }
  split; [exact Hq|].
  assert (Hload : Server.load p [alice; bob] = Ok [alice]) by (rewrite Hq; reflexivity).
  split; [exact Hload|]. exact (Hl _ _ Hload).
Defined.

(** *** Fields, one after the other *)

Lemma list_ascii_app (a b : string) :
  list_ascii_of_string (a +:+ b) = (list_ascii_of_string a ++ list_ascii_of_string b)%list.
Proof. induction a as [|c a IH]; [done|]. simpl. by rewrite <- IH. Qed.

Lemma parse_qsl_split qs :
  Url.parse_qsl qs
  = omap (fun name_value =>
      match Url.split1 "=" name_value with
      | (name, Some value) =>
          match value with
          | [] => None
          | _ => Some (string_of_list_ascii (Url.unquote (Url.plus_to_space name)),
                       string_of_list_ascii (Url.unquote (Url.plus_to_space value)))
          end
      | (_, None) => None
      end) (Url.split "&" qs).
Proof. by destruct qs. Qed.

Lemma parse_qsl_app a b :
  Url.parse_qsl (a ++ "&"%char :: b) = (Url.parse_qsl a ++ Url.parse_qsl b)%list.
Proof. by rewrite !parse_qsl_split, split_app, omap_app. Qed.

Lemma head_app_first (l1 l2 : list string) :
  head (l1 ++ l2) = first_of (head l1) (head l2).
Proof. by destruct l1. Qed.

Lemma params_of_app l1 l2 :
  params_of (l1 ++ l2) = first_params (params_of l1) (params_of l2).
Proof.
  unfold params_of, first_params. cbn [gender job_role education department].
  by rewrite !field_values_app, !head_app_first.
Qed.

Lemma plus_to_space_plain s :
  Forall (fun c => c <> "+"%char) s -> Url.plus_to_space s = s.
Proof.
  induction 1 as [|c s Hc _ IH]; [done|]. unfold Url.plus_to_space in *.
  rewrite fmap_cons, IH. by destruct (Ascii.eqb_spec c "+").
Qed.

Lemma unquote_plain s : Forall (fun c => c <> "%"%char) s -> Url.unquote s = s.
Proof.
  intros Hs. unfold Url.unquote. rewrite bool_decide_eq_false_2; [done|].
  intros Hin. rewrite Forall_forall in Hs. by apply (Hs _ Hin).
Qed.

Lemma decoded_plain s :
  plain s ->
  string_of_list_ascii (Url.unquote (Url.plus_to_space (list_ascii_of_string s))) = s.
Proof.
  intros Hs. rewrite plus_to_space_plain, unquote_plain, string_of_list_ascii_of_string;
    [done|..]; (eapply Forall_impl; [exact Hs|]; by intros c (? & ? & ?)).
Qed.

Lemma plain_no_amp s : plain s -> Forall (fun c => c <> "&"%char) (list_ascii_of_string s).
Proof. intros Hs. eapply Forall_impl; [exact Hs|]. by intros c (? & ? & ?). Qed.

Lemma parse_qsl_field k v :
  plain k -> no_equals k -> plain v -> v <> "" ->
  Url.parse_qsl (list_ascii_of_string (k +:+ "=" +:+ v)) = [(k, v)].
Proof.
  intros Hk Hq Hv Hne. rewrite parse_qsl_split, !list_ascii_app. simpl.
  rewrite split_none.
  2:{ apply Forall_app. split; [by apply plain_no_amp|].
      constructor; [done|by apply plain_no_amp]. }
  cbn [omap list_omap]. rewrite split1_app by done.
  destruct (list_ascii_of_string v) as [|c l] eqn:Ev.
  { destruct v; [done|discriminate]. }
  rewrite <- Ev. by rewrite !decoded_plain.
Qed.

Lemma parse_qsl_no_value k :
  plain k -> no_equals k ->
  Url.parse_qsl (list_ascii_of_string k) = [] /\
  Url.parse_qsl (list_ascii_of_string (k +:+ "=")) = [].
Proof.
  intros Hk Hq. rewrite !parse_qsl_split, list_ascii_app. simpl. split.
  - rewrite split_none by (by apply plain_no_amp). cbn [omap list_omap].
    assert (forall s, Forall (fun c => c <> "="%char) s -> Url.split1 "=" s = (s, None)) as ->;
      [|done|done].
    induction 1 as [|c s Hc _ IH]; [done|]. simpl.
    destruct (Ascii.eqb_spec c "="); [done|]. by rewrite IH.
  - rewrite split_none.
    2:{ apply Forall_app. split; [by apply plain_no_amp|]. by constructor. }
    cbn [omap list_omap]. by rewrite split1_app.
Qed.

(** X18: [get_params] reads the query field by field.  The parameters
    of two queries joined by [&] are those of the first and, for each
    parameter the first does not give, those of the second: of repeated
    fields the first wins.  A field [k=v] whose name and value hold no
    [&], [%], [+] (nor [=] in the name) and whose value is not empty gives
    the parameter [k] the value [v] when [k] is one of the four names, and
    nothing otherwise; a field without [=], or with nothing after it,
    gives nothing. *)
Theorem X18_get_params_fields :
  (forall a b,
     exists p q, Url.get_params a = Ok p /\ Url.get_params b = Ok q /\
       Url.get_params (a +:+ "&" +:+ b) = Ok (first_params p q)) /\
  (forall k v, plain k -> no_equals k -> plain v -> v <> "" ->
     Url.get_params (k +:+ "=" +:+ v) = Ok (params_of [(k, v)])) /\
  (forall k, plain k -> no_equals k ->
     Url.get_params k = Ok no_filter /\ Url.get_params (k +:+ "=") = Ok no_filter).
Proof.
  split_and!.
  - intros a b. eexists _, _. split; [apply get_params_Ok|]. split; [apply get_params_Ok|].
    rewrite get_params_Ok, !list_ascii_app. simpl.
    by rewrite parse_qsl_app, params_of_app.
  - intros k v Hk Hq Hv Hne. by rewrite get_params_Ok, parse_qsl_field.
  - intros k Hk Hq. rewrite !get_params_Ok.
    by destruct (parse_qsl_no_value k Hk Hq) as [-> ->].
Qed.

Lemma X18_witness :
  plain "gender" /\ no_equals "gender" /\ plain "Male" /\ "Male" <> "" /\
  Url.get_params "gender=Male"
  = Ok {| gender := Some "Male"; job_role := None; education := None; department := None |} /\
  Url.get_params "gender=Male&gender=Female"
  = Ok {| gender := Some "Male"; job_role := None; education := None; department := None |}.
Proof.
  destruct X18_get_params_fields as (H1 & H2 & _).
  assert (Hk : plain "gender") by (repeat constructor; done).
  assert (Hq : no_equals "gender") by (repeat constructor; done).
  assert (Hv : plain "Male") by (repeat constructor; done).
  assert (Hne : "Male" <> "") by done.
  split; [exact Hk|]. split; [exact Hq|]. split; [exact Hv|]. split; [exact Hne|].
  split; [exact (H2 _ _ Hk Hq Hv Hne)|].
  destruct (H1 "gender=Male" "gender=Female") as (p & q & Hp & Hb & Hab).
  change ("gender=Male" +:+ "&" +:+ "gender=Female") with "gender=Male&gender=Female" in Hab.
  rewrite Hab. f_equal.
  vm_compute in Hp, Hb. injection Hp as <-. injection Hb as <-. reflexivity.
Defined.

(** ** One population behind every chart *)

Lemma satisfaction_view_reads_all rows res :
  satisfaction_view rows = Ok res ->
  Forall (fun r => is_Some (r !! "Attrition") /\ numeric "JobSatisfaction" r) rows.
Proof.
  intros H. rewrite satisfaction_view_unfold in H. apply bind_Ok in H as (c & Hc & _).
  apply Forall_forall. intros r Hr.
  destruct (foldM_Ok_elem _ _ _ _ _ Hc Hr) as (s1 & s2 & Hs). unfold sat_step in Hs.
  apply bind_Ok in Hs as (z & Hz & Hs). cbv zeta in Hs.
  apply bind_Ok in Hs as (y & Hy & _). split; [|by exists z].
  apply bind_Ok in Hy as (a & Ha%getitem_Ok & _). eauto.
Qed.

Lemma satisfaction_view_sum rows res :
  satisfaction_view rows = Ok res ->
  Py.sum (sp_stayed res) + Py.sum (sp_left res) = Py.len rows.
Proof.
  intros H. pose proof (satisfaction_view_reads_all _ _ H) as Hall.
  assert (Hin : forall r, r ∈ rows -> -3 <= satisfaction r <= 4).
  { intros r Hr. destruct (decide (-3 <= satisfaction r <= 4)) as [|Hout]; [done|].
    rewrite satisfaction_view_unfold in H.
    by rewrite (sat_loop_Err rows ([0; 0; 0; 0], [0; 0; 0; 0]) r eq_refl eq_refl
                  Hall Hr Hout) in H. }
  apply satisfaction_view_Ok in H as [-> ->]. rewrite tally_stayed, tally_left.
  rewrite !sum_tally_sat, len_stayers_leavers; [done|..].
  - intros r Hr%elem_of_leavers. by apply Hin.
  - intros r Hr%elem_of_stayers. by apply Hin.
Qed.

Lemma overtime_view_sum rows res :
  overtime_view rows = Ok res ->
  Py.sum (sp_stayed res) + Py.sum (sp_left res) = Py.len rows.
Proof.
  intros H.
  assert (Hall : Forall (fun r => yes_or_no "OverTime" r /\ yes_or_no "Attrition" r) rows).
  { apply Forall_forall. intros r Hr.
    destruct (decide (yes_or_no "OverTime" r /\ yes_or_no "Attrition" r)) as [|Hn]; [done|].
    destruct (overtime_view_Err rows r Hr Hn) as (k & r' & Hk & _). congruence. }
  destruct (overtime_view_Ok rows Hall) as (res' & Hres & (_ & _ & _ & Hsum)).
  congruence.
Qed.

Lemma len_filter_bound {A} (P : A -> Prop) `{!forall x, Decision (P x)} (l : list A) :
  Py.len (filter P l) <= Py.len l.
Proof. unfold Py.len. pose proof (length_filter P l). lia. Qed.

Lemma views_same_population g j e d data rows :
  Main.load_data g j e d data = Ok rows ->
  same_population (Py.len rows)
    (Main.attrition_by_department g j e d data) (Main.attrition_by_jobrole g j e d data)
    (Main.gender_split g j e d data) (Main.education_field g j e d data)
    (Main.age_distribution g j e d data)
    (Main.satisfaction_distribution g j e d data) (Main.overtime_attrition g j e d data)
    (Main.years_attrition g j e d data).
Proof.
  intros Hload.
  split; rewrite ?main_dept_unfold, ?main_jobrole_unfold, ?main_gender_unfold,
    ?main_edu_unfold, ?main_satisfaction_unfold, ?main_overtime_unfold,
    ?main_age_unfold, ?main_years_unfold, Hload; cbn [bind]; intros res Hres.
  - by apply rate_view_sums in Hres as [? _].
  - by apply rate_view_sums in Hres as [? _].
  - by apply count_view_sums in Hres as [? _].
  - by apply count_view_sums in Hres as [? _].
  - by apply satisfaction_view_sum.
  - by apply overtime_view_sum.
  - apply age_view_sums in Hres as [-> _]. apply len_filter_bound.
  - apply years_view_sum in Hres as ->. apply len_filter_bound.
Qed.

(** X19: under the same filter all the charts count one population, the
    one whose size the KPI summary gives as [total].  Whenever a view
    returns, the totals of the department, job-role, gender and
    education-field views each add up to that number, and so do the
    [stayed] and [left] counts of the satisfaction view and of the
    overtime view taken together; the totals of the age and years views,
    which leave records out, add up to at most that number. *)
Theorem X19_same_population (p : params) (data : list row) (kpis : Kpis) :
  Server.api_kpis p data = Ok kpis ->
  let g := gender p in
  let j := job_role p in
  let e := education p in
  let d := department p in
  Main.get_kpis g j e d data = Ok kpis /\
  same_population (kp_total kpis)
    (Main.attrition_by_department g j e d data) (Main.attrition_by_jobrole g j e d data)
    (Main.gender_split g j e d data) (Main.education_field g j e d data)
    (Main.age_distribution g j e d data)
    (Main.satisfaction_distribution g j e d data) (Main.overtime_attrition g j e d data)
    (Main.years_attrition g j e d data) /\
  same_population (kp_total kpis)
    (Server.api_attrition_dept p data) (Server.api_attrition_jobrole p data)
    (Server.api_gender_split p data) (Server.api_edu_field p data)
    (Server.api_age_dist p data)
    (Server.api_satisfaction p data) (Server.api_overtime p data)
    (Server.api_years_attrition p data).
Proof.
  intros Hk g j e d. rewrite kpis_equiv in Hk. fold g j e d in Hk.
  split; [done|]. rewrite main_kpis_unfold in Hk.
  apply bind_Ok in Hk as (rows & Hload & Hk).
  apply kpi_view_rate in Hk as [-> _].
  split; [by apply views_same_population|].
  rewrite dept_equiv, jobrole_equiv, gender_equiv, edu_equiv, age_equiv,
    satisfaction_equiv, overtime_equiv, years_equiv.
  by apply views_same_population.
Qed.

Lemma X19_witness :
  exists kpis, Server.api_kpis no_filter [alice; bob; carol] = Ok kpis /\
    kp_total kpis = 3 /\
    (exists res, Server.api_gender_split no_filter [alice; bob; carol] = Ok res /\
       Py.sum (cs_total res) = 3) /\
    (exists res, Server.api_age_dist no_filter [alice; bob; carol] = Ok res /\
       Py.sum (cs_total res) <= 3).
Proof.
  destruct (Server.api_kpis no_filter [alice; bob; carol]) as [kpis|] eqn:Hk;
    [|by vm_compute in Hk].
  exists kpis. split; [reflexivity|].
  pose proof (X19_same_population no_filter _ _ Hk) as H. cbv zeta in H.
  destruct H as (_ & _ & [_ _ Hg _ _ _ Ha _]).
  assert (Ht : kp_total kpis = 3) by (vm_compute in Hk; by injection Hk as <-).
  rewrite Ht in *. split; [reflexivity|]. split.
  - destruct (Server.api_gender_split no_filter [alice; bob; carol]) as [res|] eqn:Hres;
      [|by vm_compute in Hres].
    exists res. split; [reflexivity|]. exact (Hg res eq_refl).
  - destruct (Server.api_age_dist no_filter [alice; bob; carol]) as [res|] eqn:Hres;
      [|by vm_compute in Hres].
    exists res. split; [reflexivity|]. exact (Ha res eq_refl).
Defined.
